(** * Wake-T: beamline elements, wakefields and bunch generation

    A shallow embedding of [wake_t/beamline_elements.py],
    [wake_t/wakefields.py] and [wake_t/utilities/bunch_generation.py].

    Conventions of the embedding.
    - A Python or NumPy float is an exact rational ([Q]); rounding, [inf]
      and [nan] are not represented.  Where Python raises on a scalar
      division by zero the model raises [ZeroDivisionError].
    - A one-dimensional NumPy array is a [list Q]; a two-dimensional one is
      the list of its rows.
    - A Python call whose arguments are matched against a [def] line goes
      through [bind_args], which implements the binding rules of the
      language (positional, keyword, default) and raises [TypeError] when
      they fail.
    - Functions that raise return a [result]; methods that mutate the
      objects handed in by the caller run in the monad [M] over a [world]
      that holds those objects. *)

From Stdlib Require Import String Ascii.
From Stdlib Require Import QArith Qround ZArith Bool Lia Lqa List.
Import ListNotations.

Local Open Scope string_scope.
Local Open Scope list_scope.
Local Open Scope Z_scope.
Local Open Scope Q_scope.

(** ** Exceptions and results *)

Inductive exn : Type :=
| TypeError
| NameError
| UnboundLocalError
| AttributeError
| NotImplementedError
| ZeroDivisionError
| IndexError
| ValueError
| OverflowError.

Inductive result (A : Type) : Type :=
| Ok (a : A)
| Raise (e : exn).

Arguments Ok {A} a.
Arguments Raise {A} e.

Definition rbind {A B : Type} (r : result A) (k : A -> result B) : result B :=
  match r with
  | Ok a => k a
  | Raise e => Raise e
  end.

Declare Scope res_scope.
Delimit Scope res_scope with res.
Notation "x <-- r ;; k" := (rbind r (fun x => k))
  (at level 61, r at next level, right associativity) : res_scope.
Local Open Scope res_scope.

Definition is_ok {A : Type} (r : result A) : bool :=
  match r with Ok _ => true | Raise _ => false end.

(** Division of two Python scalars: [a / b]. *)
Definition py_div (a b : Q) : result Q :=
  if Qeq_bool b 0 then Raise ZeroDivisionError else Ok (a / b).

(** [int(x)] on a finite float: truncation towards zero. *)
Definition py_int (x : Q) : Z := Z.quot (Qnum x) (Zpos (Qden x)).

(** [int(np.ceil(x))]. *)
Definition np_ceil_int (x : Q) : Z := Qceiling x.

(** ** scipy.constants (CODATA 2018 values) *)

Module ct.
Definition c : Q := 299792458.
Definition e : Q := 1.602176634e-19.
Definition m_e : Q := 9.1093837015e-31.
Definition epsilon_0 : Q := 8.8541878128e-12.
End ct.

(** ** Arrays *)

Definition array := list Q.
Definition matrix := list array.

Definition np_sum (a : array) : Q := fold_right Qplus 0 a.

Fixpoint zip_with {A B C : Type} (f : A -> B -> C) (l : list A) (m : list B)
  : list C :=
  match l, m with
  | a :: l', b :: m' => f a b :: zip_with f l' m'
  | _, _ => []
  end.

(** [np.average(a, weights=w)]. *)
Definition np_average_w (a w : array) : result Q :=
  if negb (Nat.eqb (length a) (length w)) then Raise TypeError
  else if Qeq_bool (np_sum w) 0 then Raise ZeroDivisionError
  else Ok (np_sum (zip_with Qmult a w) / np_sum w).

(** [np.arange(n)] for an integer [n]. *)
Definition np_arange (n : Z) : list Z :=
  map Z.of_nat (seq 0 (Z.to_nat n)).

(** [l[a:b]]: a negative bound counts from the end, and both bounds are
    clamped to the length. *)
Definition norm_index (len i : Z) : Z :=
  if (i <? 0)%Z then Z.max (len + i) 0 else Z.min i len.

Definition py_slice {A : Type} (l : list A) (a b : Z) : list A :=
  let n := Z.of_nat (length l) in
  let a' := norm_index n a in
  let b' := norm_index n b in
  firstn (Z.to_nat (b' - a')) (skipn (Z.to_nat a') l).

(** [mat[:, a:b]]. *)
Definition col_slice (mat : matrix) (a b : Z) : matrix :=
  map (fun row => py_slice row a b) mat.

(** [mat.shape[1]] of a two-dimensional array. *)
Definition shape1 (mat : matrix) : Z := Z.of_nat (length (hd [] mat)).

Definition well_shaped (rows : nat) (cols : nat) (mat : matrix) : Prop :=
  length mat = rows /\ Forall (fun r => length r = cols) mat.

(** [np.concatenate([a, b], axis=1)]: the arrays must agree on axis 0. *)
Definition hstack (a b : matrix) : result matrix :=
  if Nat.eqb (length a) (length b)
  then Ok (zip_with (@app Q) a b)
  else Raise ValueError.

(** [np.concatenate(ms, axis=1)]. *)
Fixpoint np_concatenate_axis1 (ms : list matrix) : result matrix :=
  match ms with
  | [] => Raise ValueError
  | [m] => Ok m
  | m :: ms' => r <-- np_concatenate_axis1 ms' ;; hstack m r
  end.

(** Lines 184-185 and 191-192 of [beamline_elements.py] (and 489-490,
    495-496): the matrix is cut into [num_proc] consecutive column blocks
    of [int(np.ceil(num_part/num_proc))] columns. *)
Definition part_per_proc (num_part num_proc : Z) : result Z :=
  r <-- py_div (inject_Z num_part) (inject_Z num_proc) ;;
  Ok (np_ceil_int r).

Definition split_blocks (mat : matrix) (num_proc ppp : Z) : list matrix :=
  map (fun p => col_slice mat (p * ppp) ((p + 1) * ppp)) (np_arange num_proc).

Definition partition_matrix (mat : matrix) (num_proc : Z)
  : result (list matrix) :=
  ppp <-- part_per_proc (shape1 mat) num_proc ;;
  Ok (split_blocks mat num_proc ppp).

(** ** Data carriers

    The two classes of [wake_t/driver_witness.py], which lies outside the
    three modules embedded here; they follow the description of the data
    model. *)

Module Laser.
(** Modelled from the spec: the class [LaserPulse] of
    [wake_t.driver_witness] (central position, peak normalised vector
    potential, waist, propagation distance). *)
Record t : Type := mk {
  xi_c : Q;
  a_0 : Q;
  w_0 : Q;
  prop_distance : Q
}.

(** Modelled from the spec: [get_lon_center()] returns [xi_c]. *)
Definition get_lon_center (l : t) : Q := xi_c l.

(** Modelled from the spec: [increase_prop_distance(length)] advances the
    propagation distance of the pulse. *)
Definition increase_prop_distance (l : t) (dist : Q) : t :=
  mk (xi_c l) (a_0 l) (w_0 l) (prop_distance l + dist).

(** The assignment [laser.xi_c = v]. *)
Definition set_xi_c (l : t) (v : Q) : t :=
  mk v (a_0 l) (w_0 l) (prop_distance l).
End Laser.

Module Bunch.
(** Modelled from the spec: the class [ParticleBunch] of
    [wake_t.driver_witness], built as
    [ParticleBunch(q, x, y, xi, px, py, pz, prop_distance=0)]. *)
Record t : Type := mk {
  q : array;
  x : array;
  y : array;
  xi : array;
  px : array;
  py : array;
  pz : array;
  prop_distance : Q
}.

(** Modelled from the spec: [get_6D_matrix] stacks the arrays in the order
    [x, px, y, py, xi, pz]. *)
Definition get_6D_matrix (b : t) : matrix :=
  [x b; px b; y b; py b; xi b; pz b].

(** Modelled from the spec: [set_phase_space(x, y, xi, px, py, pz)]
    overwrites the six arrays and nothing else. *)
Definition set_phase_space (b : t) (x' y' xi' px' py' pz' : array) : t :=
  mk (q b) x' y' xi' px' py' pz' (prop_distance b).

(** Modelled from the spec: [increase_prop_distance(length)] adds [length]
    to [prop_distance]. *)
Definition increase_prop_distance (b : t) (dist : Q) : t :=
  mk (q b) (x b) (y b) (xi b) (px b) (py b) (pz b) (prop_distance b + dist).

Definition same_length (b : t) : bool :=
  let n := length (x b) in
  forallb (fun a => Nat.eqb (length a) n)
          [y b; xi b; px b; py b; pz b].
End Bunch.

(** ** Python values and argument binding *)

Inductive pyval : Type :=
| PyNone
| PyBool (b : bool)
| PyInt (z : Z)
| PyFloat (v : Q)
| PyStr (s : string)
| PyArr (a : array)
| PyLaser (l : Laser.t)
| PyFun (f : Q -> Q).

(** The numeric value of an operand; [None] for a value on which an
    arithmetic operator raises [TypeError] ([None], a string, ...). *)
Definition to_num (v : pyval) : option Q :=
  match v with
  | PyInt z => Some (inject_Z z)
  | PyFloat v => Some v
  | PyBool b => Some (if b then 1 else 0)
  | _ => None
  end.

Definition num (v : pyval) : result Q :=
  match to_num v with
  | Some v => Ok v
  | None => Raise TypeError
  end.

(** A formal parameter: its name and its default, if it has one. *)
Definition param : Type := string * option pyval.

Definition req (name : string) : param := (name, None).
Definition opt (name : string) (d : pyval) : param := (name, Some d).

Fixpoint kw_find (n : string) (kw : list (string * pyval)) : option pyval :=
  match kw with
  | [] => None
  | (k, v) :: kw' => if String.eqb n k then Some v else kw_find n kw'
  end.

Fixpoint kw_remove (n : string) (kw : list (string * pyval))
  : list (string * pyval) :=
  match kw with
  | [] => []
  | (k, v) :: kw' =>
      if String.eqb n k then kw_remove n kw' else (k, v) :: kw_remove n kw'
  end.

(** Binding of the arguments of a call to the parameters of a [def]:
    positional arguments fill the parameters from the left, keywords fill
    the parameters they name, defaults fill the rest.  Too many positional
    arguments, a keyword that names no parameter or one already filled, and
    a parameter left without value raise [TypeError].  The result lists the
    values in the order of the parameters. *)
Fixpoint bind_args (ps : list param) (args : list pyval)
         (kw : list (string * pyval)) : result (list pyval) :=
  match ps with
  | [] =>
      match args, kw with
      | [], [] => Ok []
      | _, _ => Raise TypeError
      end
  | (n, d) :: ps' =>
      match args with
      | a :: args' =>
          match kw_find n kw with
          | Some _ => Raise TypeError
          | None => rest <-- bind_args ps' args' kw ;; Ok (a :: rest)
          end
      | [] =>
          match kw_find n kw, d with
          | Some v, _ =>
              rest <-- bind_args ps' [] (kw_remove n kw) ;; Ok (v :: rest)
          | None, Some v => rest <-- bind_args ps' [] kw ;; Ok (v :: rest)
          | None, None => Raise TypeError
          end
      end
  end.

(** ** Module namespaces

    The public names of [wakefields.py], which [beamline_elements.py] takes
    with [from wake_t.wakefields import *], and the names the latter binds
    itself.  [DataContainer] exists only when VisualPIC could be imported. *)

Definition wakefields_names (vpic_installed : bool) : list string :=
  ["np"; "ct"; "RegularGridInterpolator"; "plasma_skin_depth";
   "plasma_cold_non_relativisct_wave_breaking_field"; "plt";
   "vpic_installed"; "Wakefield"; "CustomBlowoutWakefield";
   "WakefieldFromPICSimulation"; "NonLinearColdFluidWakefield";
   "PlasmaRampBlowoutField"; "PlasmaLensField";
   "PlasmaLensFieldRelativistic"]
  ++ (if vpic_installed then ["DataContainer"] else []).

Definition beamline_elements_names (vpic_installed : bool) : list string :=
  ["time"; "Pool"; "cpu_count"; "partial"; "np"; "ct"; "ge";
   "runge_kutta_4"]
  ++ wakefields_names vpic_installed
  ++ ["ParticleBunch"; "PlasmaStage"; "PlasmaRamp"].

(** Evaluation of a global name. *)
Definition lookup_name (names : list string) (n : string) : result unit :=
  if existsb (String.eqb n) names then Ok tt else Raise NameError.

(** ** The objects of the caller and the monad of the tracking methods *)

Inductive event : Type :=
| FieldBuilt (class : string)
| PoolCreated (processes : Z)
| PoolClosed
| PoolJoined.

Record world : Type := mkWorld {
  w_beam : Bunch.t;
  w_laser : Laser.t;
  w_trace : list event
}.

Definition M (A : Type) : Type := world -> result A * world.

Definition ret {A : Type} (a : A) : M A := fun w => (Ok a, w).

Definition bind {A B : Type} (m : M A) (k : A -> M B) : M B :=
  fun w =>
    match m w with
    | (Ok a, w') => k a w'
    | (Raise e, w') => (Raise e, w')
    end.

Definition lift {A : Type} (r : result A) : M A := fun w => (r, w).

Definition raise {A : Type} (e : exn) : M A := fun w => (Raise e, w).

Definition get_beam : M Bunch.t := fun w => (Ok (w_beam w), w).

Definition put_beam (b : Bunch.t) : M unit :=
  fun w => (Ok tt, mkWorld b (w_laser w) (w_trace w)).

Definition get_laser : M Laser.t := fun w => (Ok (w_laser w), w).

Definition put_laser (l : Laser.t) : M unit :=
  fun w => (Ok tt, mkWorld (w_beam w) l (w_trace w)).

Definition emit (ev : event) : M unit :=
  fun w => (Ok tt, mkWorld (w_beam w) (w_laser w) (w_trace w ++ [ev])).

(** [try: body finally: cleanup]. *)
Definition try_finally {A : Type} (body : M A) (cleanup : M unit) : M A :=
  fun w =>
    match body w with
    | (r, w') =>
        match cleanup w' with
        | (Ok _, w'') => (r, w'')
        | (Raise e, w'') => (Raise e, w'')
        end
    end.

Declare Scope monad_scope.
Delimit Scope monad_scope with monad.
Notation "x <- m ;; k" := (bind m (fun x => k))
  (at level 61, m at next level, right associativity) : monad_scope.
Notation "m ;;; k" := (bind m (fun _ => k))
  (at level 61, right associativity) : monad_scope.
Local Open Scope monad_scope.

(** [Pool(processes)]. *)
Definition Pool (processes : Z) : M unit :=
  if (processes <? 1)%Z then raise ValueError else emit (PoolCreated processes).

Definition pool_release : M unit := emit PoolClosed ;;; emit PoolJoined.

(** [l[-1]]. *)
Definition py_last {A : Type} (l : list A) : result A :=
  match rev l with
  | a :: _ => Ok a
  | [] => Raise IndexError
  end.

Fixpoint map_result {A B : Type} (f : A -> result B) (l : list A)
  : result (list B) :=
  match l with
  | [] => Ok []
  | a :: l' => b <-- f a ;; bs <-- map_result f l' ;; Ok (b :: bs)
  end.

(** ** Configuration of the beamline elements *)

Module Stage.
(** [PlasmaStage.__init__(self, n_p, length)]. *)
Record t : Type := mk {
  n_p : Q;
  length : Q
}.
End Stage.

Module Ramp.
Record t : Type := mk {
  length : Q;
  plasma_dens_down : Q;
  position_down : Q;
  plasma_dens_top : Q;
  ramp_type : string;
  profile : string
}.

(** [PlasmaRamp.__init__(self, length, plasma_dens_down, plasma_dens_top,
    position_down=None, ramp_type='upramp', profile='inverse square')]. *)
Definition init (length plasma_dens_down plasma_dens_top : Q)
           (position_down : option Q) (ramp_type profile : string) : t :=
  mk length plasma_dens_down
     (match position_down with None => length | Some p => p end)
     plasma_dens_top ramp_type profile.
End Ramp.

(** The optional arguments of
    [PlasmaStage.track_beam_numerically_RK_parallel]. *)
Record stage_options : Type := mkOptions {
  simulation_code : pyval;
  simulation_path : pyval;
  time_step : pyval;
  auto_update_fields : bool;
  laser_pos_in_pic_code : pyval;
  lon_field : pyval;
  lon_field_slope : pyval;
  foc_strength : pyval;
  filter_fields : pyval;
  filter_sigma : pyval;
  n_proc : option Z
}.

Definition default_options : stage_options :=
  mkOptions PyNone PyNone PyNone false PyNone PyNone PyNone PyNone
            (PyBool false) (PyInt 20) None.

(** A NumPy scalar that may be [inf]. *)
Inductive npfloat : Type :=
| Finite (v : Q)
| PosInf.

(** [1/w] for a NumPy scalar [w]: [inf] when [w] is zero. *)
Definition np_recip (w : Q) : npfloat :=
  if Qeq_bool w 0 then PosInf else Finite (1 / w).

Definition npf_scale (k : Q) (v : npfloat) : npfloat :=
  match v with
  | Finite v => Finite (k * v)
  | PosInf => PosInf
  end.

(** [int(a/dt)] for a finite [a]: [a/inf] is [0.0]; [a/0.0] is [inf] or
    [nan], on which [int] raises. *)
Definition int_of_ratio (a : Q) (dt : npfloat) : result Z :=
  match dt with
  | PosInf => Ok 0%Z
  | Finite d =>
      if Qeq_bool d 0
      then if Qeq_bool a 0 then Raise ValueError else Raise OverflowError
      else Ok (py_int (a / d))
  end.

(** [max(l)] on a sequence. *)
Definition py_max (l : array) : result Q :=
  match l with
  | [] => Raise ValueError
  | a :: l' => Ok (fold_left (fun m v => if Qlt_le_dec m v then v else m) l' a)
  end.

Section WakeT.

(** ** The environment of the program

    Functions of NumPy, SciPy, aptools and VisualPIC, the methods of
    [LaserPulse] and the integrator of [wake_t.particle_tracking], whose
    code is outside the three modules embedded here.  Transcendental
    functions have no exact rational value, so they stay abstract. *)

Variable vpic_installed : bool.
Variable cpu_count : Z.

Variable np_sqrt : Q -> Q.
Variable np_sin : Q -> Q.
Variable np_cos : Q -> Q.
Variable np_exp : Q -> Q.
Variable np_log : Q -> Q.
Variable np_arctan2 : Q -> Q -> Q.
Variable np_power : Q -> Q -> Q.
Variable np_pi : Q.
Variable np_e : Q.

Variable get_group_velocity : Laser.t -> Q -> Q.
Variable get_a0_profile : Laser.t -> array -> Q -> Q -> array.

Variable plasma_skin_depth : Q -> Q.
Variable plasma_cold_non_relativisct_wave_breaking_field : Q -> Q.

(** [np.histogram2d(x, y, bins=[nx, ny], range=[[x0, x1], [y0, y1]],
    weights=w)[0]], an array of shape [(nx, ny)]. *)
Variable np_histogram2d :
  array -> array -> Z * Z -> (Q * Q) * (Q * Q) -> array -> result matrix.

(** [np.gradient(f, h, axis=k, edge_order=2)]. *)
Variable np_gradient : matrix -> Q -> nat -> result matrix.

(** ** Elementwise operations *)

Definition arr_add (a b : array) : array := zip_with Qplus a b.
Definition arr_scale (k : Q) (a : array) : array := map (Qmult k) a.
Definition arr_div (a : array) (k : Q) : array := map (fun v => v / k) a.
Definition mat_map (f : Q -> Q) (m : matrix) : matrix := map (map f) m.
Definition mat_neg (m : matrix) : matrix := mat_map Qopp m.

(** [np.linspace(a, b, n)]. *)
Definition np_linspace (a b : Q) (n : Z) : result array :=
  if (n <? 0)%Z then Raise ValueError
  else Ok (map (fun i => a + inject_Z (Z.of_nat i) * ((b - a) / inject_Z (n - 1)))
               (seq 0 (Z.to_nat n))).

(** [np.average(a)]. *)
Definition np_mean (a : array) : Q := np_sum a / inject_Z (Z.of_nat (length a)).

(** [m[i]] for an index in range, and its assignment. *)
Definition row (m : matrix) (i : nat) : array := nth i m [].

Fixpoint set_nth {A : Type} (i : nat) (v : A) (l : list A) : list A :=
  match l, i with
  | [], _ => []
  | _ :: l', O => v :: l'
  | a :: l', S i' => a :: set_nth i' v l'
  end.

(** ** The signature shared by [Wx], [Wy], [Wz] and [Kx] *)

Definition field_method_sig : list param :=
  [req "x"; req "y"; req "xi"; req "px"; req "py"; req "pz"; req "q";
   req "gamma"; req "t"].

(** ** CustomBlowoutWakefield *)

Record CustomBlowoutWakefield : Type := mkCustomBlowout {
  cb_n_p : Q;
  cb_xi_c : option Q;
  cb_field_off : option Q;
  cb_driver : Laser.t;
  cb_g_x : option Q;
  cb_E_z_0 : option Q;
  cb_E_z_p : option Q;
  cb_l_c : Q;
  cb_b_w : Q
}.

Definition CustomBlowoutWakefield_sig : list param :=
  [req "n_p"; req "driver"; req "beam_center"; opt "lon_field" PyNone;
   opt "lon_field_slope" PyNone; opt "foc_strength" PyNone;
   opt "field_offset" (PyInt 0)].

(** [__init__] followed by [_calculate_base_quantities]: the three field
    values are stored as they come. *)
Definition CustomBlowoutWakefield_init
           (args : list pyval) (kw : list (string * pyval))
  : result CustomBlowoutWakefield :=
  b <-- bind_args CustomBlowoutWakefield_sig args kw ;;
  match b with
  | [n_p; PyLaser driver; beam_center; lon_field; lon_field_slope;
     foc_strength; field_offset] =>
      n_p <-- num n_p ;;
      Ok {| cb_n_p := n_p;
            cb_xi_c := to_num beam_center;
            cb_field_off := to_num field_offset;
            cb_driver := driver;
            cb_g_x := to_num foc_strength;
            cb_E_z_0 := to_num lon_field;
            cb_E_z_p := to_num lon_field_slope;
            cb_l_c := Laser.xi_c driver;
            cb_b_w := get_group_velocity driver n_p |}
  | _ => Raise AttributeError
  end.



Definition CustomBlowoutWakefield_Wz (self : CustomBlowoutWakefield)
           (x y xi px py pz q gamma : array) (t : Q) : result array :=
  match cb_E_z_0 self, cb_E_z_p self, cb_field_off self, cb_xi_c self with
  | Some E_z_0, Some E_z_p, Some field_off, Some xi_c =>
      Ok (map (fun xi_i =>
                 E_z_0 + E_z_p * (xi_i - field_off - xi_c
                                  + (1 - cb_b_w self) * ct.c * t)) xi)
  | _, _, _, _ => Raise TypeError
  end.

Definition CustomBlowoutWakefield_Kx (self : CustomBlowoutWakefield)
           (x y xi px py pz q gamma : array) (t : Q) : result array :=
  match cb_g_x self with
  | Some g_x => Ok (map (fun _ => g_x * 1) x)
  | None => Raise TypeError
  end.

(** ** WakefieldFromPICSimulation

    The object lives on the data container of VisualPIC; its state and the
    bodies of its methods are those of that library. *)

Variable pic_field : Type.
Variable pic_load : list pyval -> result pic_field.
Variable pic_check_if_update_fields : pic_field -> Q -> result pic_field.
Variable pic_Kx :
  pic_field -> array -> array -> array -> array -> array -> array ->
  array -> array -> Q -> result array.

Definition WakefieldFromPICSimulation_sig : list param :=
  [req "simulation_code"; req "simulation_path"; req "driver";
   req "timestep"; opt "n_p" PyNone; opt "filter_fields" (PyBool false);
   opt "sigma_filter" (PyInt 20); opt "reverse_tracking" (PyBool false)].

(** [__init__]: [_load_fields] starts with [DataContainer()]. *)
Definition WakefieldFromPICSimulation_init
           (args : list pyval) (kw : list (string * pyval))
  : result pic_field :=
  b <-- bind_args WakefieldFromPICSimulation_sig args kw ;;
  _ <-- lookup_name (wakefields_names vpic_installed) "DataContainer" ;;
  pic_load b.

(** ** PlasmaRampBlowoutField *)

Record PlasmaRampBlowoutField : Type := mkRampField {
  rf_density_function : pyval
}.

Definition PlasmaRampBlowoutField_sig : list param :=
  [req "density_function"].

Definition PlasmaRampBlowoutField_init
           (args : list pyval) (kw : list (string * pyval))
  : result PlasmaRampBlowoutField :=
  b <-- bind_args PlasmaRampBlowoutField_sig args kw ;;
  match b with
  | [density_function] => Ok (mkRampField density_function)
  | _ => Raise TypeError
  end.

(** [calculate_focusing(xi, t)] at one position and one time; the stored
    density function has to be callable. *)
Definition calculate_focusing (self : PlasmaRampBlowoutField) (xi t : Q)
  : result Q :=
  let z := t * ct.c + xi in
  match rf_density_function self with
  | PyFun density_function =>
      let n_p := density_function z in
      let w_p := np_sqrt (n_p * ct.e ^ 2 / (ct.m_e * ct.epsilon_0)) in
      Ok ((ct.m_e / (2 * ct.e * ct.c)) * w_p ^ 2)
  | _ => Raise TypeError
  end.

Definition PlasmaRampBlowoutField_Wx (self : PlasmaRampBlowoutField)
           (x y xi px py pz q gamma : array) (t : Q) : result array :=
  kx <-- map_result (fun xi_i => calculate_focusing self xi_i t) xi ;;
  Ok (zip_with (fun kx_i x_i => ct.c * kx_i * x_i) kx x).

Definition PlasmaRampBlowoutField_Wy (self : PlasmaRampBlowoutField)
           (x y xi px py pz q gamma : array) (t : Q) : result array :=
  kx <-- map_result (fun xi_i => calculate_focusing self xi_i t) xi ;;
  Ok (zip_with (fun kx_i y_i => ct.c * kx_i * y_i) kx y).

Definition PlasmaRampBlowoutField_Wz (self : PlasmaRampBlowoutField)
           (x y xi px py pz q gamma : array) (t : Q) : result array :=
  Ok (map (fun _ => 0) xi).

Definition PlasmaRampBlowoutField_Kx (self : PlasmaRampBlowoutField)
           (x y xi px py pz q gamma : array) (t : Q) : result array :=
  kx <-- map_result (fun xi_i => calculate_focusing self xi_i t) xi ;;
  Ok (map (fun kx_i => 1 * kx_i) kx).

(** ** NonLinearColdFluidWakefield *)

(** A [RegularGridInterpolator] over two axes, built with [fill_value=0]
    and [bounds_error=False]: the axes and the values on the grid. *)
Record grid_interp : Type := mkInterp {
  gi_axis0 : array;
  gi_axis1 : array;
  gi_values : matrix
}.

(** Evaluation of an interpolator at a list of points. *)
Variable interp_eval : grid_interp -> list (Q * Q) -> array.

Record NonLinearColdFluidWakefield : Type := mkNonLinear {
  nl_density_function : Q -> Q;
  nl_driver : Laser.t;
  nl_driver_evolution : bool;
  nl_driver_z_foc : Q;
  nl_r_max : Q;
  nl_xi_min : Q;
  nl_xi_max : Q;
  nl_n_r : Z;
  nl_n_xi : Z;
  nl_current_t : Q;
  nl_current_n_p : option Q;
  nl_E_z : option grid_interp;
  nl_W_x : option grid_interp;
  nl_K_x : option grid_interp
}.

Definition NonLinearColdFluidWakefield_sig : list param :=
  [req "density_function"; req "driver"; req "driver_evolution";
   req "driver_z_foc"; req "r_max"; req "xi_min"; req "xi_max"; req "n_r";
   req "n_xi"].

(** [__init__]; arguments of a kind the later arithmetic could not use
    are refused at once. *)
Definition NonLinearColdFluidWakefield_init
           (args : list pyval) (kw : list (string * pyval))
  : result NonLinearColdFluidWakefield :=
  b <-- bind_args NonLinearColdFluidWakefield_sig args kw ;;
  match b with
  | [PyFun density_function; PyLaser driver; PyBool driver_evolution;
     driver_z_foc; r_max; xi_min; xi_max; PyInt n_r; PyInt n_xi] =>
      driver_z_foc <-- num driver_z_foc ;;
      r_max <-- num r_max ;;
      xi_min <-- num xi_min ;;
      xi_max <-- num xi_max ;;
      Ok (mkNonLinear density_function driver driver_evolution driver_z_foc
                      r_max xi_min xi_max n_r n_xi (-1) None None None None)
  | _ => Raise TypeError
  end.

(** [__wakefield_ode_system]: the two rows of the returned array.  The
    line that added [n_beam] is commented out in the source. *)
Definition __wakefield_ode_system (u_1 u_2 r : array) (z : Q)
           (laser_a0 n_beam : array) : array * array :=
  (u_2,
   zip_with (fun a0 u1 => (1 + a0 ^ 2) / (2 * (1 + u1) ^ 2) - 1 / 2)
            laser_a0 u_1).

Definition pair_scale (k : Q) (p : array * array) : array * array :=
  (arr_scale k (fst p), arr_scale k (snd p)).

(** The increment [1/6*(A + 2*B + 2*C + D)]. *)
Definition rk_increment (A B C D : array) : array :=
  arr_scale (1 / 6)
            (arr_add (arr_add (arr_add A (arr_scale 2 B)) (arr_scale 2 C)) D).

(** One pass of the loop [for i in np.arange(n_iter)] (lines 298-318) on
    [(u_1, u_2, z_arr)], arrays of [n_rows] rows.  The negative indices
    [-1-i] and [-2-i] are [n_rows-1-i] and [n_rows-2-i]; [beam_hist] has
    [n_xi = n_rows] rows, so [beam_hist[-(i+1)]] is in range. *)
Definition fluid_rk_step (driver : Laser.t) (r : array)
           (s_d dz dist_z_foc : Q) (beam_hist : matrix) (n_rows : nat)
           (st : matrix * matrix * array) (i : nat)
  : matrix * matrix * array :=
  let '(u_1, u_2, z_arr) := st in
  let last := (n_rows - 1)%nat in
  let z := nth last z_arr 0 - inject_Z (Z.of_nat i) * dz in
  let a0_0 := get_a0_profile driver r (z * s_d) dist_z_foc in
  let a0_1 := get_a0_profile driver r ((z - dz / 2) * s_d) dist_z_foc in
  let a0_2 := get_a0_profile driver r ((z - dz) * s_d) dist_z_foc in
  let u1 := row u_1 (last - i) in
  let u2 := row u_2 (last - i) in
  let n_beam := row beam_hist (length beam_hist - (i + 1)) in
  let A := pair_scale dz
             (__wakefield_ode_system u1 u2 r (z * s_d) a0_0 n_beam) in
  let B := pair_scale dz
             (__wakefield_ode_system
                (arr_add u1 (arr_div (fst A) 2))
                (arr_add u2 (arr_div (snd A) 2))
                r ((z - dz / 2) * s_d) a0_1 n_beam) in
  let C := pair_scale dz
             (__wakefield_ode_system
                (arr_add u1 (arr_div (fst B) 2))
                (arr_add u2 (arr_div (snd B) 2))
                r ((z - dz / 2) * s_d) a0_1 n_beam) in
  let D := pair_scale dz
             (__wakefield_ode_system
                (arr_add u1 (fst C)) (arr_add u2 (snd C))
                r ((z - dz) * s_d) a0_2 n_beam) in
  (set_nth (last - 1 - i)
           (arr_add u1 (rk_increment (fst A) (fst B) (fst C) (fst D))) u_1,
   set_nth (last - 1 - i)
           (arr_add u2 (rk_increment (snd A) (snd B) (snd C) (snd D))) u_2,
   set_nth (last - 1 - i) (z - dz) z_arr).

(** Lines 277-282: the charge of the beam, in elementary charges, binned
    over [(xi, r)]. *)
Definition beam_histogram (self : NonLinearColdFluidWakefield)
           (x y xi q : array) : result matrix :=
  let r_part := zip_with (fun x_i y_i => np_sqrt (x_i ^ 2 + y_i ^ 2)) x y in
  np_histogram2d xi r_part (nl_n_xi self, nl_n_r self)
                 ((nl_xi_min self, nl_xi_max self), (0, nl_r_max self))
                 (map (fun q_i => q_i / ct.e) q).

(** [__calculate_wakefields]: the object after the call. *)
Definition __calculate_wakefields (self : NonLinearColdFluidWakefield)
           (x y xi px py pz q gamma : array) (t : Q)
  : result NonLinearColdFluidWakefield :=
  if Qeq_bool (nl_current_t self) t then Ok self
  else
    let z_beam := t * ct.c + np_mean xi in
    let n_p := nl_density_function self z_beam in
    let same_density :=
      match nl_current_n_p self with
      | Some n0 => Qeq_bool n_p n0
      | None => false
      end in
    let self1 :=
      mkNonLinear (nl_density_function self) (nl_driver self)
                  (nl_driver_evolution self) (nl_driver_z_foc self)
                  (nl_r_max self) (nl_xi_min self) (nl_xi_max self)
                  (nl_n_r self) (nl_n_xi self) t (nl_current_n_p self)
                  (nl_E_z self) (nl_W_x self) (nl_K_x self) in
    if same_density && negb (nl_driver_evolution self) then Ok self1
    else
      let s_d := plasma_skin_depth (n_p * 1e-6) in
      r <-- np_linspace 0 (nl_r_max self) (nl_n_r self) ;;
      dz0 <-- py_div (nl_xi_max self - nl_xi_min self)
                     (inject_Z (nl_n_xi self)) ;;
      let dz := dz0 / s_d in
      dr0 <-- py_div (nl_r_max self) (inject_Z (nl_n_r self)) ;;
      let dr := dr0 / s_d in
      hist <-- beam_histogram self x y xi q ;;
      let disc_area :=
        map (fun n => np_pi * dr ^ 2 * (1 + 2 * inject_Z n))
            (np_arange (nl_n_r self)) in
      let beam_hist :=
        map (fun hrow =>
               zip_with (fun h a => h * (1 / (a * dz * n_p) / s_d ^ 3))
                        hrow disc_area) hist in
      let n_iter := (nl_n_xi self - 1)%Z in
      let n_rows := Z.to_nat (n_iter + 1) in
      let zeros := repeat (repeat 0 (length r)) n_rows in
      z_arr0 <-- (if (n_iter + 1 <? 0)%Z then Raise ValueError
                  else if (n_iter + 1 =? 0)%Z then Raise IndexError
                  else Ok (set_nth (n_rows - 1) (nl_xi_max self / s_d)
                                   (repeat 0 n_rows))) ;;
      let dist_z_foc :=
        if nl_driver_evolution self then nl_driver_z_foc self - ct.c * t
        else 0 in
      let '(u_1, u_2, z_arr) :=
        fold_left (fluid_rk_step (nl_driver self) r s_d dz dist_z_foc
                                 beam_hist n_rows)
                  (seq 0 (Z.to_nat n_iter)) (zeros, zeros, z_arr0) in
      g0 <-- np_gradient u_1 dz 0 ;;
      let E_z := mat_neg g0 in
      g1 <-- np_gradient u_1 dr 1 ;;
      let W_r := mat_neg g1 in
      K_r <-- np_gradient W_r dr 1 ;;
      let E_0 := plasma_cold_non_relativisct_wave_breaking_field (n_p * 1e-6) in
      let z_axis := map (fun z => z * s_d) z_arr in
      Ok (mkNonLinear (nl_density_function self) (nl_driver self)
                      (nl_driver_evolution self) (nl_driver_z_foc self)
                      (nl_r_max self) (nl_xi_min self) (nl_xi_max self)
                      (nl_n_r self) (nl_n_xi self) t (Some n_p)
                      (Some (mkInterp z_axis r
                                      (mat_map (fun v => v * E_0) E_z)))
                      (Some (mkInterp z_axis r
                                      (mat_map (fun v => v * E_0) W_r)))
                      (Some (mkInterp z_axis r
                                      (mat_map (fun v => v * E_0 / s_d) K_r)))).


(** The points [np.array([xi, np.sqrt(np.square(x)+np.square(y))]).T]. *)
Definition polar_points (x y xi : array) : list (Q * Q) :=
  zip_with (fun xi_i r_i => (xi_i, r_i)) xi
           (zip_with (fun x_i y_i => np_sqrt (x_i ^ 2 + y_i ^ 2)) x y).

(** A field that was never computed is a missing attribute. *)
Definition grid_of (g : option grid_interp) : result grid_interp :=
  match g with
  | Some g => Ok g
  | None => Raise AttributeError
  end.

Definition NonLinearColdFluidWakefield_Wx (self : NonLinearColdFluidWakefield)
           (x y xi px py pz q gamma : array) (t : Q)
  : result (array * NonLinearColdFluidWakefield) :=
  self' <-- __calculate_wakefields self x y xi px py pz q gamma t ;;
  g <-- grid_of (nl_W_x self') ;;
  Ok (zip_with (fun w th => w * np_sin th)
               (interp_eval g (polar_points x y xi))
               (zip_with np_arctan2 x y), self').

Definition NonLinearColdFluidWakefield_Wy (self : NonLinearColdFluidWakefield)
           (x y xi px py pz q gamma : array) (t : Q)
  : result (array * NonLinearColdFluidWakefield) :=
  self' <-- __calculate_wakefields self x y xi px py pz q gamma t ;;
  g <-- grid_of (nl_W_x self') ;;
  Ok (zip_with (fun w th => w * np_cos th)
               (interp_eval g (polar_points x y xi))
               (zip_with np_arctan2 x y), self').

Definition NonLinearColdFluidWakefield_Wz (self : NonLinearColdFluidWakefield)
           (x y xi px py pz q gamma : array) (t : Q)
  : result (array * NonLinearColdFluidWakefield) :=
  self' <-- __calculate_wakefields self x y xi px py pz q gamma t ;;
  g <-- grid_of (nl_E_z self') ;;
  Ok (interp_eval g (polar_points x y xi), self').

Definition NonLinearColdFluidWakefield_Kx (self : NonLinearColdFluidWakefield)
           (x y xi px py pz q gamma : array) (t : Q)
  : result (array * NonLinearColdFluidWakefield) :=
  self' <-- __calculate_wakefields self x y xi px py pz q gamma t ;;
  g <-- grid_of (nl_K_x self') ;;
  Ok (interp_eval g (polar_points x y xi), self').

(** ** The family of field models *)

Inductive wakefield : Type :=
| WF_Base
| WF_CustomBlowout (o : CustomBlowoutWakefield)
| WF_FromPIC (o : pic_field)
| WF_NonLinear (o : NonLinearColdFluidWakefield)
| WF_RampBlowout (o : PlasmaRampBlowoutField)
| WF_PlasmaLens (dB_r : pyval)
| WF_PlasmaLensRelativistic (k_x : pyval).

Inductive wf_class : Type :=
| C_Wakefield
| C_CustomBlowoutWakefield
| C_WakefieldFromPICSimulation
| C_NonLinearColdFluidWakefield
| C_PlasmaRampBlowoutField
| C_PlasmaLensField
| C_PlasmaLensFieldRelativistic.

(** The classes that [wakefields.py] defines. *)
Definition wakefield_classes : list (string * wf_class) :=
  [("Wakefield", C_Wakefield);
   ("CustomBlowoutWakefield", C_CustomBlowoutWakefield);
   ("WakefieldFromPICSimulation", C_WakefieldFromPICSimulation);
   ("NonLinearColdFluidWakefield", C_NonLinearColdFluidWakefield);
   ("PlasmaRampBlowoutField", C_PlasmaRampBlowoutField);
   ("PlasmaLensField", C_PlasmaLensField);
   ("PlasmaLensFieldRelativistic", C_PlasmaLensFieldRelativistic)].

(** Evaluation, inside [beamline_elements.py], of a name that is then
    called as a field class. *)
Definition lookup_class (n : string) : result wf_class :=
  _ <-- lookup_name (beamline_elements_names vpic_installed) n ;;
  match find (fun p => String.eqb n (fst p)) wakefield_classes with
  | Some (_, c) => Ok c
  | None => Raise TypeError
  end.

(** A call [cls(args, kw)]. *)
Definition construct (c : wf_class) (args : list pyval)
           (kw : list (string * pyval)) : result wakefield :=
  match c with
  | C_Wakefield => _ <-- bind_args [] args kw ;; Ok WF_Base
  | C_CustomBlowoutWakefield =>
      o <-- CustomBlowoutWakefield_init args kw ;; Ok (WF_CustomBlowout o)
  | C_WakefieldFromPICSimulation =>
      o <-- WakefieldFromPICSimulation_init args kw ;; Ok (WF_FromPIC o)
  | C_NonLinearColdFluidWakefield =>
      o <-- NonLinearColdFluidWakefield_init args kw ;; Ok (WF_NonLinear o)
  | C_PlasmaRampBlowoutField =>
      o <-- PlasmaRampBlowoutField_init args kw ;; Ok (WF_RampBlowout o)
  | C_PlasmaLensField =>
      b <-- bind_args [req "dB_r"] args kw ;;
      match b with [v] => Ok (WF_PlasmaLens v) | _ => Raise TypeError end
  | C_PlasmaLensFieldRelativistic =>
      b <-- bind_args [req "k_x"] args kw ;;
      match b with
      | [v] => Ok (WF_PlasmaLensRelativistic v)
      | _ => Raise TypeError
      end
  end.

(** [Kx] of each class, on bound arguments.  The method of the cold-fluid
    model refreshes the cache of the object, which is returned. *)
Definition Kx_body (WF : wakefield) (x y xi px py pz q gamma : array) (t : Q)
  : result (array * wakefield) :=
  match WF with
  | WF_Base => Raise NotImplementedError
  | WF_CustomBlowout o =>
      v <-- CustomBlowoutWakefield_Kx o x y xi px py pz q gamma t ;; Ok (v, WF)
  | WF_FromPIC o => v <-- pic_Kx o x y xi px py pz q gamma t ;; Ok (v, WF)
  | WF_NonLinear o =>
      r <-- NonLinearColdFluidWakefield_Kx o x y xi px py pz q gamma t ;;
      Ok (fst r, WF_NonLinear (snd r))
  | WF_RampBlowout o =>
      v <-- PlasmaRampBlowoutField_Kx o x y xi px py pz q gamma t ;; Ok (v, WF)
  | WF_PlasmaLens dB_r =>
      k <-- num dB_r ;; Ok (map (fun _ => 1 * k) x, WF)
  | WF_PlasmaLensRelativistic k_x =>
      k <-- num k_x ;; Ok (map (fun _ => 1 * k) x, WF)
  end.

(** A call [WF.Kx(args)]. *)
Definition call_Kx (WF : wakefield) (args : list pyval)
  : result (array * wakefield) :=
  b <-- bind_args field_method_sig args [] ;;
  match b with
  | [PyArr x; PyArr y; PyArr xi; PyArr px; PyArr py; PyArr pz; PyArr q;
     PyArr gamma; t] =>
      t <-- num t ;; Kx_body WF x y xi px py pz q gamma t
  | _ => Raise TypeError
  end.

(** A call [wakefield.calculate_focusing(xi, t)] with a scalar [xi] and an
    array [t]. *)
Definition call_calculate_focusing (WF : wakefield) (args : list pyval)
  : result array :=
  match WF with
  | WF_RampBlowout o =>
      b <-- bind_args [req "xi"; req "t"] args [] ;;
      match b with
      | [xi; PyArr t] =>
          xi <-- num xi ;;
          map_result (fun t_i => calculate_focusing o xi t_i) t
      | _ => Raise TypeError
      end
  | _ => Raise AttributeError
  end.

(** [WF.check_if_update_fields(time)]: only the PIC-sourced model has the
    method. *)
Definition check_if_update_fields (WF : wakefield) (time : Q)
  : result wakefield :=
  match WF with
  | WF_FromPIC o =>
      o' <-- pic_check_if_update_fields o time ;; Ok (WF_FromPIC o')
  | _ => Raise AttributeError
  end.

(** ** Numerical tracking *)

(** [runge_kutta_4(beam_matrix, WF, dt, iterations, t0)] of
    [wake_t.particle_tracking]. *)
Variable runge_kutta_4 : matrix -> wakefield -> Q -> Z -> Q -> result matrix.

(** [_gamma], the same method in both elements. *)
Definition _gamma (px py pz : array) : array :=
  zip_with (fun pxy pz_i => np_sqrt (pxy + pz_i ^ 2))
           (zip_with (fun px_i py_i => 1 + px_i ^ 2 + py_i ^ 2) px py) pz.

(** [PlasmaStage._get_optimized_dt]; [WF.Kx] is called with eight
    arguments. *)
Definition PlasmaStage__get_optimized_dt (beam : Bunch.t) (WF : wakefield)
  : result npfloat :=
  let gamma := _gamma (Bunch.px beam) (Bunch.py beam) (Bunch.pz beam) in
  r <-- call_Kx WF [PyArr (Bunch.x beam); PyArr (Bunch.y beam);
                    PyArr (Bunch.xi beam); PyArr (Bunch.px beam);
                    PyArr (Bunch.py beam); PyArr (Bunch.pz beam);
                    PyArr gamma; PyInt 0] ;;
  let Kx := fst r in
  mean_Kx <-- np_average_w Kx (Bunch.q beam) ;;
  mean_gamma <-- np_average_w gamma (Bunch.q beam) ;;
  let w_x := np_sqrt (ct.e * ct.c / ct.m_e * mean_Kx / mean_gamma) in
  let T_x := np_recip w_x in
  Ok (npf_scale 0.1 T_x).

(** [PlasmaRamp._get_optimized_dt]. *)
Definition PlasmaRamp__get_optimized_dt (self : Ramp.t) (beam : Bunch.t)
           (wakefield : wakefield) : result npfloat :=
  let gamma := _gamma (Bunch.px beam) (Bunch.py beam) (Bunch.pz beam) in
  mean_gamma <-- np_average_w gamma (Bunch.q beam) ;;
  t0 <-- np_linspace 0 (Ramp.length self) 100 ;;
  let t := arr_div t0 ct.c in
  kx <-- call_calculate_focusing wakefield [PyInt 0; PyArr t] ;;
  max_kx <-- py_max kx ;;
  let w_x := np_sqrt (ct.e * ct.c / ct.m_e * max_kx / mean_gamma) in
  let period_x := np_recip w_x in
  Ok (npf_scale 0.1 period_x).

(** The step plan of lines 171-175 (477-481), from [t_final], [steps]
    and [dt]. *)
Record step_plan : Type := mkPlan {
  it_per_step : Z;
  iterations : Z;
  dt_adjusted : Q
}.

Definition plan_steps (t_final : Q) (steps : Z) (dt : npfloat)
  : result step_plan :=
  iterations <-- int_of_ratio t_final dt ;;
  ratio <-- py_div (inject_Z iterations) (inject_Z steps) ;;
  let it_per_step := Z.max (py_int ratio) 1 in
  let iterations := (it_per_step * steps)%Z in
  dt_adjusted <-- py_div t_final (inject_Z iterations) ;;
  Ok (mkPlan it_per_step iterations dt_adjusted).

(** One pass of [for s in np.arange(steps)] (lines 195-208, 499-510) on
    [(WF, matrix_list, beam_list)]. *)
Definition output_step (beam : Bunch.t) (auto_update : bool)
           (plan : step_plan) (t_step : Q)
           (st : wakefield * list matrix * list Bunch.t) (s : Z)
  : result (wakefield * list matrix * list Bunch.t) :=
  let '(WF, matrix_list, beam_list) := st in
  WF <-- (if auto_update
          then check_if_update_fields WF (inject_Z s * t_step)
          else Ok WF) ;;
  matrix_list <-- map_result
                    (fun m => runge_kutta_4 m WF (dt_adjusted plan)
                                            (it_per_step plan)
                                            (inject_Z s * t_step))
                    matrix_list ;;
  beam_matrix <-- np_concatenate_axis1 matrix_list ;;
  match beam_matrix with
  | [x; px; y; py; xi; pz] =>
      let new_prop_dist :=
        Bunch.prop_distance beam + (inject_Z s + 1) * t_step * ct.c in
      Ok (WF, matrix_list,
          beam_list ++ [Bunch.mk (Bunch.q beam) x y xi px py pz new_prop_dist])
  | _ => Raise ValueError
  end.

Fixpoint output_steps (beam : Bunch.t) (auto_update : bool)
         (plan : step_plan) (t_step : Q)
         (st : wakefield * list matrix * list Bunch.t) (ss : list Z)
  : result (wakefield * list matrix * list Bunch.t) :=
  match ss with
  | [] => Ok st
  | s :: ss' =>
      st' <-- output_step beam auto_update plan t_step st s ;;
      output_steps beam auto_update plan t_step st' ss'
  end.

(** The body of the [try] block (lines 191-208, 495-510). *)
Definition tracking_loop (beam : Bunch.t) (mat : matrix) (WF : wakefield)
           (auto_update : bool) (plan : step_plan) (t_step : Q)
           (steps num_proc ppp : Z) : result (list Bunch.t) :=
  let matrix_list := split_blocks mat num_proc ppp in
  st <-- output_steps beam auto_update plan t_step (WF, matrix_list, [])
                      (np_arange steps) ;;
  Ok (snd st).

(** Lines 216-219 (519-522): the last snapshot is written into the bunch of
    the caller, whose propagation distance grows by the length. *)
Definition commit_last (beam_list : list Bunch.t) (length : Q) : M unit :=
  last_beam <- lift (py_last beam_list) ;;
  beam <- get_beam ;;
  put_beam (Bunch.set_phase_space beam (Bunch.x last_beam) (Bunch.y last_beam)
                                  (Bunch.xi last_beam) (Bunch.px last_beam)
                                  (Bunch.py last_beam) (Bunch.pz last_beam)) ;;;
  beam <- get_beam ;;
  put_beam (Bunch.increase_prop_distance beam length).

(** Lines 166-220 of [PlasmaStage.track_beam_numerically_RK_parallel] and
    472-524 of [PlasmaRamp.track_beam_numerically_RK_parallel], which are the
    same text up to the name of the field, the method that gives [dt] and
    the refresh of the fields.  [WF] is [None] when the name was never
    assigned. *)
Definition rk_parallel_body (length : Q) (steps : Z) (n_proc : option Z)
           (WF : option wakefield)
           (get_optimized_dt : Bunch.t -> wakefield -> result npfloat)
           (auto_update : bool) : M (list Bunch.t) :=
  beam <- get_beam ;;
  let mat := Bunch.get_6D_matrix beam in
  let t_final := length / ct.c in
  t_step <- lift (py_div t_final (inject_Z steps)) ;;
  WF <- lift (match WF with
              | Some WF => Ok WF
              | None => Raise UnboundLocalError
              end) ;;
  dt <- lift (get_optimized_dt beam WF) ;;
  plan <- lift (plan_steps t_final steps dt) ;;
  let num_proc := match n_proc with None => cpu_count | Some n => n end in
  let num_part := shape1 mat in
  ppp <- lift (part_per_proc num_part num_proc) ;;
  Pool num_proc ;;;
  beam_list <- try_finally
                 (lift (tracking_loop beam mat WF auto_update plan t_step
                                      steps num_proc ppp))
                 pool_release ;;
  commit_last beam_list length ;;;
  ret beam_list.

(** [PlasmaStage.track_beam_numerically_RK_parallel(laser, beam, mode,
    steps, ...)]; the laser and the bunch are those of the world. *)
Definition PlasmaStage_track_beam_numerically_RK_parallel
           (self : Stage.t) (mode : string) (steps : Z) (o : stage_options)
  : M (list Bunch.t) :=
  laser <- get_laser ;;
  beam <- get_beam ;;
  WF <- (if String.eqb mode "Blowout"
         then
           cls <- lift (lookup_class "BlowoutWakefield") ;;
           WF <- lift (construct cls [PyFloat (Stage.n_p self); PyLaser laser]
                                 []) ;;
           emit (FieldBuilt "BlowoutWakefield") ;;;
           ret (Some WF)
         else ret None) ;;
  WF <- (if String.eqb mode "CustomBlowout"
         then
           cls <- lift (lookup_class "CustomBlowoutWakefield") ;;
           center <- lift (np_average_w (Bunch.xi beam) (Bunch.q beam)) ;;
           WF <- lift (construct cls
                         [PyFloat (Stage.n_p self); PyLaser laser;
                          PyFloat center; lon_field o; lon_field_slope o;
                          foc_strength o] []) ;;
           emit (FieldBuilt "CustomBlowoutWakefield") ;;;
           ret (Some WF)
         else if String.eqb mode "FromPICCode"
         then
           cls <- lift (lookup_class "WakefieldFromPICSimulation") ;;
           WF <- lift (construct cls
                         [simulation_code o; simulation_path o; PyLaser laser;
                          time_step o; PyFloat (Stage.n_p self);
                          filter_fields o; filter_sigma o] []) ;;
           emit (FieldBuilt "WakefieldFromPICSimulation") ;;;
           ret (Some WF)
         else ret WF) ;;
  rk_parallel_body (Stage.length self) steps (n_proc o) WF
                   PlasmaStage__get_optimized_dt (auto_update_fields o).

(** [PlasmaRamp.track_beam_numerically_RK_parallel(beam, steps,
    non_rel=False, n_proc=None)]. *)
Definition PlasmaRamp_track_beam_numerically_RK_parallel
           (self : Ramp.t) (steps : Z) (non_rel : bool) (n_proc : option Z)
  : M (list Bunch.t) :=
  field <- (if non_rel
            then raise NotImplementedError
            else
              cls <- lift (lookup_class "PlasmaRampBlowoutField") ;;
              field <- lift (construct cls
                               [PyFloat (Ramp.length self);
                                PyFloat (Ramp.plasma_dens_down self);
                                PyFloat (Ramp.plasma_dens_top self);
                                PyFloat (Ramp.position_down self)]
                               [("ramp_type", PyStr (Ramp.ramp_type self));
                                ("profile", PyStr (Ramp.profile self))]) ;;
              emit (FieldBuilt "PlasmaRampBlowoutField") ;;;
              ret field) ;;
  rk_parallel_body (Ramp.length self) steps n_proc (Some field)
                   (PlasmaRamp__get_optimized_dt self) false.

(** ** Analytic tracking *)

(** The mode dispatch of [track_beam_analytically] (lines 260-320): for
    each particle the triple [(E, E_p, K)], scalars of the source being
    repeated along the bunch.  [None] when no branch is taken and the names
    stay unassigned. *)
Definition analytic_fields (self : Stage.t) (laser : Laser.t) (mode : string)
           (lon_field lon_field_slope foc_strength : pyval) (xi_0 : array)
  : result (option (list (Q * Q * Q))) :=
  let l_c := Laser.xi_c laser in
  let w_0_l := Laser.w_0 laser in
  let dist_l_b := map (fun xi_i => - (l_c - xi_i)) xi_0 in
  if String.eqb mode "Blowout" then
    let w_p := np_sqrt (Stage.n_p self * 1e6 * ct.e ^ 2
                        / (ct.m_e * ct.epsilon_0)) in
    let l_p := 2 * np_pi * ct.c / w_p in
    let E_p := - w_p ^ 2 / (2 * ct.c) in
    let K := w_p ^ 2 / 2 in
    Ok (Some (map (fun d => (E_p * (l_p / 2 + d), E_p, K)) dist_l_b))
  else if String.eqb mode "CustomBlowout" then
    slope <-- num lon_field_slope ;;
    let E_p := - slope * ct.e / (ct.m_e * ct.c) in
    foc <-- num foc_strength ;;
    let K := foc * ct.c * ct.e / ct.m_e in
    field <-- num lon_field ;;
    let mean_xi := np_mean xi_0 in
    Ok (Some (map (fun xi_i =>
                     (- field * ct.e / (ct.m_e * ct.c) + E_p * (xi_i - mean_xi),
                      E_p, K)) xi_0))
  else if String.eqb mode "Linear" then
    let a0 := Laser.a_0 laser in
    let n_p_SI := Stage.n_p self * 1e6 in
    let w_p := np_sqrt (n_p_SI * ct.e ^ 2 / (ct.m_e * ct.epsilon_0)) in
    let k_p := w_p / ct.c in
    let E0 := ct.m_e * ct.c * w_p / ct.e in
    let K := np_power (8 * np_pi / np_e) (1 / 4) * a0 / (k_p * w_0_l) in
    Ok (Some (map (fun d =>
                     let E_z := E0 * np_sqrt (np_pi / (2 * np_e)) * a0 ^ 2
                                * np_cos (k_p * d) in
                     let E_z_p := - E0 * np_sqrt (np_pi / (2 * np_e)) * a0 ^ 2
                                  * k_p * np_sin (k_p * d) in
                     let g_x := - E0 * K ^ 2 * k_p * np_sin (k_p * d) / ct.c in
                     (- ct.e / (ct.m_e * ct.c) * E_z,
                      - ct.e / (ct.m_e * ct.c) * E_z_p,
                      g_x * ct.c * ct.e / ct.m_e)) dist_l_b))
  else if String.eqb mode "LinearAlberto" then
    let a0 := Laser.a_0 laser in
    let n_p_SI := Stage.n_p self * 1e6 in
    let w_p := np_sqrt (n_p_SI * ct.e ^ 2 / (ct.m_e * ct.epsilon_0)) in
    let k_p := w_p / ct.c in
    let E0 := ct.m_e * ct.c * w_p / ct.e in
    let nb0 := a0 ^ 2 / 2 in
    let L := np_sqrt 2 in
    let sz := L / np_sqrt 2 in
    let sx := w_0_l / 2 in
    Ok (Some (map (fun d =>
                     let E_z := E0 * nb0 * np_sqrt (2 * np_pi) * sz
                                * np_exp (- sz ^ 2 / 2) * np_cos (k_p * d) in
                     let E_z_p := - E0 * nb0 * np_sqrt (2 * np_pi) * sz
                                  * np_exp (- sz ^ 2 / 2) * k_p
                                  * np_sin (k_p * d) in
                     let g_x := - nb0 * np_sqrt (2 * np_pi) * sz
                                * np_exp (- sz ^ 2 / 2)
                                * (1 / (k_p * sx) ^ 2) * np_sin (k_p * d)
                                * k_p * E0 / ct.c in
                     (- ct.e / (ct.m_e * ct.c) * E_z,
                      - ct.e / (ct.m_e * ct.c) * E_z_p,
                      g_x * ct.c * ct.e / ct.m_e)) dist_l_b))
  else if String.eqb mode "FromOsiris2D" then Raise AttributeError
  else if String.eqb mode "FromOsiris3D" then Raise AttributeError
  else Ok None.

(** The quantities of one particle that the closed form starts from
    (lines 246-251 and 324-344). *)
Record initial_state : Type := mkInitial {
  i_g_0 : Q;
  i_w_0 : Q;
  i_xi_0 : Q;
  i_A_x : Q;
  i_A_y : Q;
  i_phi_x_0 : Q;
  i_phi_y_0 : Q;
  i_E : Q;
  i_E_p : Q;
  i_K : Q
}.

Definition initial_values (x_0 y_0 xi_0 px py pz : Q) (EK : Q * Q * Q)
  : initial_state :=
  let '(E, E_p, K) := EK in
  let px_0 := px * ct.m_e * ct.c in
  let py_0 := py * ct.m_e * ct.c in
  let pz_0 := pz * ct.m_e * ct.c in
  let p_0 := np_sqrt (px_0 ^ 2 + py_0 ^ 2 + pz_0 ^ 2) in
  let g_0 := np_sqrt ((p_0 * ct.c) ^ 2 + (0.511 * 1e6 * ct.e) ^ 2)
             / (0.511 * 1e6 * ct.e) in
  let w_0 := np_sqrt (K / g_0) in
  let v_x_0 := px_0 / (ct.m_e * g_0) in
  let v_y_0 := py_0 / (ct.m_e * g_0) in
  let A_x := np_sqrt (x_0 ^ 2 + v_x_0 ^ 2 / w_0 ^ 2) in
  let A_y := np_sqrt (y_0 ^ 2 + v_y_0 ^ 2 / w_0 ^ 2) in
  let sn_x := - v_x_0 / (A_x * w_0) in
  let cs_x := x_0 / A_x in
  let phi_x_0 := np_arctan2 sn_x cs_x in
  let sn_y := - v_y_0 / (A_y * w_0) in
  let cs_y := y_0 / A_y in
  let phi_y_0 := np_arctan2 sn_y cs_y in
  mkInitial g_0 w_0 xi_0 A_x A_y phi_x_0 phi_y_0 E E_p K.

(** The coordinates [(x, y, xi, p_x, p_y, p_z)] of one particle at time
    [t] (lines 371-389). *)
Definition particle_at (t v_w : Q) (s : initial_state)
  : Q * Q * Q * Q * Q * Q :=
  let g_0 := i_g_0 s in
  let w_0 := i_w_0 s in
  let A_x := i_A_x s in
  let A_y := i_A_y s in
  let E := i_E s in
  let E_p := i_E_p s in
  let K := i_K s in
  let G := 1 + E / g_0 * t in
  let phi := 2 * np_sqrt (K * g_0) / E * (np_power G (1 / 2) - 1) in
  let A_0 := np_sqrt (A_x ^ 2 + A_y ^ 2) in
  let x := A_x * np_power G (- (1 / 4)) * np_cos (phi + i_phi_x_0 s) in
  let v_x := - w_0 * A_x * np_power G (- (3 / 4))
             * np_sin (phi + i_phi_x_0 s) in
  let p_x := G * g_0 * v_x / ct.c in
  let y := A_y * np_power G (- (1 / 4)) * np_cos (phi + i_phi_y_0 s) in
  let v_y := - w_0 * A_y * np_power G (- (3 / 4))
             * np_sin (phi + i_phi_y_0 s) in
  let p_y := G * g_0 * v_y / ct.c in
  let delta_xi := ct.c / (2 * E * g_0) * (np_power G (- (1)) - 1)
                  + A_0 ^ 2 * K / (2 * ct.c * E)
                    * (np_power G (- (1 / 2)) - 1) in
  let xi := i_xi_0 s + delta_xi in
  let delta_xi_max := - (1) / (2 * E) * (ct.c / g_0 + A_0 ^ 2 * K / ct.c) in
  let g := g_0 + E * t + E_p * delta_xi_max * t
           + E_p / 2 * (ct.c - v_w) * t ^ 2
           + ct.c * E_p / (2 * E ^ 2) * np_log G
           + E_p * A_0 ^ 2 * K * g_0 / (ct.c * E ^ 2)
             * (np_power G (1 / 2) - 1) in
  let p_z := np_sqrt (g ^ 2 - p_x ^ 2 - p_y ^ 2) in
  (x, y, xi, p_x, p_y, p_z).

(** [_get_beam_at_specified_time_step_from_paper_final]. *)
Definition _get_beam_at_specified_time_step_from_paper_final
           (t : Q) (beam : Bunch.t) (states : list initial_state) (v_w : Q)
  : Bunch.t :=
  let ps := map (particle_at t v_w) states in
  Bunch.mk (Bunch.q beam)
           (map (fun p => match p with (x, _, _, _, _, _) => x end) ps)
           (map (fun p => match p with (_, y, _, _, _, _) => y end) ps)
           (map (fun p => match p with (_, _, xi, _, _, _) => xi end) ps)
           (map (fun p => match p with (_, _, _, p_x, _, _) => p_x end) ps)
           (map (fun p => match p with (_, _, _, _, p_y, _) => p_y end) ps)
           (map (fun p => match p with (_, _, _, _, _, p_z) => p_z end) ps)
           (Bunch.prop_distance beam + t * ct.c).

(** The particles of a bunch, one tuple each. *)
Fixpoint particles (x y xi px py pz : array) (EK : list (Q * Q * Q))
  : list initial_state :=
  match x, y, xi, px, py, pz, EK with
  | x0 :: x, y0 :: y, xi0 :: xi, px0 :: px, py0 :: py, pz0 :: pz, ek :: EK =>
      initial_values x0 y0 xi0 px0 py0 pz0 ek :: particles x y xi px py pz EK
  | _, _, _, _, _, _, _ => []
  end.

(** [PlasmaStage.track_beam_analytically(laser, beam, mode, steps, ...)]. *)
Definition PlasmaStage_track_beam_analytically
           (self : Stage.t) (mode : string) (steps : Z)
           (lon_field lon_field_slope foc_strength : pyval)
  : M (list Bunch.t) :=
  laser <- get_laser ;;
  beam <- get_beam ;;
  let v_w := get_group_velocity laser (Stage.n_p self) * ct.c in
  let t_final := Stage.length self / ct.c in
  EK <- lift (analytic_fields self laser mode lon_field lon_field_slope
                              foc_strength (Bunch.xi beam)) ;;
  (if Bunch.same_length beam then ret tt else raise ValueError) ;;;
  EK <- lift (match EK with
              | Some EK => Ok EK
              | None => Raise UnboundLocalError
              end) ;;
  let states := particles (Bunch.x beam) (Bunch.y beam) (Bunch.xi beam)
                          (Bunch.px beam) (Bunch.py beam) (Bunch.pz beam) EK in
  Pool cpu_count ;;;
  t_unit <- lift (py_div t_final (inject_Z steps)) ;;
  let t := map (fun k => t_unit * (inject_Z k + 1)) (np_arange steps) in
  let beam_steps_list :=
    map (fun t_i =>
           _get_beam_at_specified_time_step_from_paper_final t_i beam states v_w)
        t in
  commit_last beam_steps_list (Stage.length self) ;;;
  laser <- get_laser ;;
  put_laser (Laser.increase_prop_distance laser (Stage.length self)) ;;;
  laser <- get_laser ;;
  put_laser (Laser.set_xi_c laser
                            (Laser.xi_c laser + (v_w - ct.c) * t_final)) ;;;
  ret beam_steps_list.

(** ** Bunch generation *)

(** The state of the random generator, the standard normal sample of a
    given size, and the sample of a standard normal truncated to [[a, b]]
    that [scipy.stats.truncnorm] draws before it applies [loc] and
    [scale]. *)
Variable rng : Type.
Variable standard_normal : rng -> Z -> result (array * rng).
Variable truncnorm_std : rng -> Q -> Q -> Z -> result (array * rng).

(** The contract of the truncated sampler: what it draws lies between the
    truncation bounds. *)
Hypothesis truncnorm_std_bounds :
  forall (g g' : rng) (a b : Q) (size : Z) (s : array),
    a <= b ->
    truncnorm_std g a b size = Ok (s, g') ->
    Forall (fun z => a <= z /\ z <= b) s.

(** [ge.matched_plasma_beta_function(ene, n_p, k_x)] of aptools. *)
Variable matched_plasma_beta_function : Q -> Q -> pyval -> result Q.

(** [np.random.normal(loc, scale, size)]. *)
Definition np_random_normal (g : rng) (loc scale : Q) (size : Z)
  : result (array * rng) :=
  if Qlt_le_dec scale 0 then Raise ValueError
  else
    r <-- standard_normal g size ;;
    Ok (map (fun z => loc + scale * z) (fst r), snd r).

(** [truncnorm.rvs(a, b, loc=loc, scale=scale, size=size)]: a negative
    scale is a domain error, a zero scale gives [loc] everywhere. *)
Definition truncnorm_rvs (g : rng) (a b loc scale : Q) (size : Z)
  : result (array * rng) :=
  if Qlt_le_dec scale 0 then Raise ValueError
  else if Qeq_bool scale 0
       then if (size <? 0)%Z then Raise ValueError
            else Ok (repeat (loc * 1) (Z.to_nat size), g)
       else
         r <-- truncnorm_std g a b size ;;
         Ok (map (fun z => loc + scale * z) (fst r), snd r).

Definition get_gaussian_bunch_from_twiss (g : rng)
           (en_x en_y a_x a_y b_x b_y ene ene_sp s_t xi_c q_tot n_part
                 x_off y_off theta_x theta_y : Q)
  : result (Bunch.t * rng) :=
  let n_part := py_int n_part in
  let ene_sp := ene_sp / 100 in
  let ene_sp_abs := ene_sp * ene in
  let s_z := s_t * 1e-15 * ct.c in
  em_x <-- py_div en_x ene ;;
  em_y <-- py_div en_y ene ;;
  g_x <-- py_div (1 + a_x ^ 2) b_x ;;
  g_y <-- py_div (1 + a_y ^ 2) b_y ;;
  let s_x := np_sqrt (em_x * b_x) in
  let s_y := np_sqrt (em_y * b_y) in
  let s_xp := np_sqrt (em_x * g_x) in
  let s_yp := np_sqrt (em_y * g_y) in
  let p_x := - a_x * em_x / (s_x * s_xp) in
  let p_y := - a_y * em_y / (s_y * s_yp) in
  let p_x_off := theta_x * ene in
  let p_y_off := theta_y * ene in
  let q_tot := q_tot / 1e12 in
  r <-- standard_normal g n_part ;;
  let '(u_x, g) := r in
  r <-- standard_normal g n_part ;;
  let '(v_x, g) := r in
  r <-- standard_normal g n_part ;;
  let '(u_y, g) := r in
  r <-- standard_normal g n_part ;;
  let '(v_y, g) := r in
  let x := map (fun u => s_x * u + x_off) u_x in
  let xp := zip_with (fun u v => s_xp * (p_x * u + np_sqrt (1 - p_x ^ 2) * v))
                     u_x v_x in
  let y := map (fun u => s_y * u + y_off) u_y in
  let yp := zip_with (fun u v => s_yp * (p_y * u + np_sqrt (1 - p_y ^ 2) * v))
                     u_y v_y in
  r <-- truncnorm_rvs g (- (3)) 3 xi_c s_z n_part ;;
  let '(xi, g) := r in
  r <-- np_random_normal g ene ene_sp_abs n_part ;;
  let '(pz, g) := r in
  let px := zip_with (fun xp_i pz_i => xp_i * pz_i + p_x_off) xp pz in
  let py := zip_with (fun yp_i pz_i => yp_i * pz_i + p_y_off) yp pz in
  q_each <-- py_div q_tot (inject_Z n_part) ;;
  let q := repeat (1 * q_each) (Z.to_nat n_part) in
  Ok (Bunch.mk q x y xi px py pz 0, g).

Definition get_gaussian_bunch_from_size (g : rng)
           (en_x en_y s_x s_y ene ene_sp s_t xi_c q_tot n_part
                 x_off y_off theta_x theta_y : Q)
  : result (Bunch.t * rng) :=
  b_x <-- py_div (s_x ^ 2 * ene) en_x ;;
  b_y <-- py_div (s_y ^ 2 * ene) en_y ;;
  get_gaussian_bunch_from_twiss g en_x en_y 0 0 b_x b_y ene ene_sp s_t xi_c
                                q_tot n_part x_off y_off theta_x theta_y.

(** [get_matched_bunch(en_x, ..., theta_y=0, n_p=None, k_x=None)]: the
    second argument of the call to aptools is [n_p*1e-6]. *)
Definition get_matched_bunch (g : rng)
           (en_x en_y ene ene_sp s_t xi_c q_tot n_part
                 x_off y_off theta_x theta_y : Q) (n_p k_x : pyval)
  : result (Bunch.t * rng) :=
  n_p <-- num n_p ;;
  b_m <-- matched_plasma_beta_function ene (n_p * 1e-6) k_x ;;
  get_gaussian_bunch_from_twiss g en_x en_y 0 0 b_m b_m ene ene_sp s_t xi_c
                                q_tot n_part x_off y_off theta_x theta_y.

(** Every particle of the bunch lies within three [s_z] of [xi_c]. *)
Definition xi_within (xi_c s_z : Q) (b : Bunch.t) : Prop :=
  Forall (fun v => xi_c - 3 * s_z <= v /\ v <= xi_c + 3 * s_z) (Bunch.xi b).

(** ** Tracking calls *)

(** The tracking methods of the two elements, with their arguments. *)
Inductive tracking_call : Type :=
| StageNumerical (self : Stage.t) (mode : string) (steps : Z)
                 (o : stage_options)
| StageAnalytic (self : Stage.t) (mode : string) (steps : Z)
                (lon_field lon_field_slope foc_strength : pyval)
| RampNumerical (self : Ramp.t) (steps : Z) (non_rel : bool)
                (n_proc : option Z).

Definition run_call (c : tracking_call) : M (list Bunch.t) :=
  match c with
  | StageNumerical self mode steps o =>
      PlasmaStage_track_beam_numerically_RK_parallel self mode steps o
  | StageAnalytic self mode steps lon_field lon_field_slope foc_strength =>
      PlasmaStage_track_beam_analytically self mode steps lon_field
                                          lon_field_slope foc_strength
  | RampNumerical self steps non_rel n_proc =>
      PlasmaRamp_track_beam_numerically_RK_parallel self steps non_rel n_proc
  end.

Definition element_length (c : tracking_call) : Q :=
  match c with
  | StageNumerical self _ _ _ => Stage.length self
  | StageAnalytic self _ _ _ _ _ => Stage.length self
  | RampNumerical self _ _ _ => Ramp.length self
  end.

(** ** The longitudinal field of the custom blowout model as the
    specification words it *)

(** The factor [e/(m_e*c)] between a field and the acceleration it
    gives. *)
Definition q_of_mc : Q := ct.e / (ct.m_e * ct.c).

(** A call returns an array whose entries equal, as rationals, those of a
    given array. *)
Definition returns_array (r : result array) (a : array) : Prop :=
  match r with
  | Ok v => Forall2 Qeq v a
  | Raise _ => False
  end.

(** "[E_z0], [E_z'] converted into acceleration-equivalent units by
    [e/(m_e*c)]" and
    "[Wz = E_z0_scaled + E_z'_scaled*(xi - field_offset - xi_c +
    (1-b_w)*c*t)]". *)
Definition Wz_spec (E_z0 E_z' field_offset xi_c b_w : Q) (xi : array) (t : Q)
  : array :=
  map (fun xi_i =>
         q_of_mc * E_z0
         + q_of_mc * E_z' * (xi_i - field_offset - xi_c + (1 - b_w) * ct.c * t))
      xi.

(** ** Partial-correctness triples for the monad *)

(** Whenever [m] returns normally from a world that satisfies [P], the
    value and the world it returns satisfy [R]. *)
Definition hoare {A : Type} (P : world -> Prop) (m : M A)
           (R : A -> world -> Prop) : Prop :=
  forall w a w', P w -> m w = (Ok a, w') -> R a w'.

Definition prop_distance_is (d : Q) (w : world) : Prop :=
  Bunch.prop_distance (w_beam w) = d.

(** [m] leaves the propagation distance of the bunch at [d]. *)
Definition keeps {A : Type} (d : Q) (m : M A) : Prop :=
  hoare (prop_distance_is d) m (fun _ => prop_distance_is d).

(** [m] never returns normally. *)
Definition never_returns {A : Type} (m : M A) : Prop :=
  forall w, is_ok (fst (m w)) = false.

(** ** The plasma lens fields *)





(** [PlasmaLensFieldRelativistic.Wx], [Wy] and [Wz]. *)
Definition PlasmaLensFieldRelativistic_Wx (k_x : pyval)
           (x y xi px py pz q gamma : array) (t : Q) : result array :=
  k_x <-- num k_x ;; Ok (map (fun x_i => ct.c * k_x * x_i) x).

Definition PlasmaLensFieldRelativistic_Wy (k_x : pyval)
           (x y xi px py pz q gamma : array) (t : Q) : result array :=
  k_x <-- num k_x ;; Ok (map (fun y_i => ct.c * k_x * y_i) y).

Definition PlasmaLensFieldRelativistic_Wz (k_x : pyval)
           (x y xi px py pz q gamma : array) (t : Q) : result array :=
  Ok (map (fun _ => 0) x).

(** ** The time steps of the PIC-sourced field

    The part of a [WakefieldFromPICSimulation] that
    [check_if_update_fields] reads and writes: the time steps of the
    simulation, their times in seconds, the step whose fields are loaded and
    the direction of tracking.  [create_fields] reads the simulation data;
    here it is counted, not performed. *)

Record pic_schedule : Type := mkSchedule {
  timesteps : list Z;
  timesteps_in_sec : array;
  current_ts : Z;
  reverse_tracking : bool;
  field_loads : nat
}.

(** [np.where(a < v)[0]]. *)
Definition np_where_lt (a : array) (v : Q) : list nat :=
  filter (fun i => if Qlt_le_dec (nth i a 0) v then true else false)
         (seq 0 (length a)).

(** The first index of [v] in [a], counted from [i]. *)
Fixpoint first_index_from (i : nat) (a : list Z) (v : Z) : option nat :=
  match a with
  | [] => None
  | z :: a' => if (z =? v)%Z then Some i else first_index_from (S i) a' v
  end.

(** [np.where(a == v)[0][0]]. *)
Definition np_where_eq_first (a : list Z) (v : Z) : result nat :=
  match first_index_from 0 a v with
  | Some i => Ok i
  | None => Raise IndexError
  end.

(** [l[i]] for a non-negative index. *)
Definition py_index {A : Type} (l : list A) (i : nat) : result A :=
  match nth_error l i with
  | Some a => Ok a
  | None => Raise IndexError
  end.

(** The two assignments of a reload: [self.current_ts = ts] and
    [self.create_fields()] on an object that knows its time steps. *)
Definition reload_at (self : pic_schedule) (ts : Z) : pic_schedule :=
  mkSchedule (timesteps self) (timesteps_in_sec self) ts
             (reverse_tracking self) (S (field_loads self)).

(** [WakefieldFromPICSimulation.check_if_update_fields(time)]
    (lines 107-130). *)
Definition WakefieldFromPICSimulation_check_if_update_fields
           (self : pic_schedule) (time : Q) : result pic_schedule :=
  let possible_ts := np_where_lt (timesteps_in_sec self) time in
  if (1 <? length possible_ts)%nat then
    if negb (reverse_tracking self) then
      requested_ts_index <-- py_last possible_ts ;;
      current_ts_index <-- np_where_eq_first (timesteps self)
                                             (current_ts self) ;;
      if (current_ts_index <? requested_ts_index)%nat then
        ts <-- py_index (timesteps self) requested_ts_index ;;
        Ok (reload_at self ts)
      else Ok self
    else
      requested_ts_index <-- py_index possible_ts 0 ;;
      current_ts_index <-- np_where_eq_first (timesteps self)
                                             (current_ts self) ;;
      if (requested_ts_index <? current_ts_index)%nat then
        ts <-- py_index (timesteps self) requested_ts_index ;;
        Ok (reload_at self ts)
      else Ok self
  else Ok self.

(** ** Bunches read from a file *)

(** [dr.read_beam(code_name, file_path, **kwargs)] of aptools: the arrays
    [(x, y, z, px, py, pz, q)]. *)
Variable read_beam :
  string -> string ->
  result (array * array * array * array * array * array * array).

(** [get_from_file(file_path, code_name, preserve_prop_dist=False,
    **kwargs)]. *)
Definition get_from_file (file_path code_name : string)
           (preserve_prop_dist : bool) : result Bunch.t :=
  r <-- read_beam code_name file_path ;;
  let '(x, y, z, px, py, pz, q) := r in
  z_avg <-- np_average_w z q ;;
  let xi := map (fun z_i => z_i - z_avg) z in
  let bunch := Bunch.mk q x y xi px py pz 0 in
  Ok (if preserve_prop_dist
      then Bunch.mk (Bunch.q bunch) (Bunch.x bunch) (Bunch.y bunch)
                    (Bunch.xi bunch) (Bunch.px bunch) (Bunch.py bunch)
                    (Bunch.pz bunch) z_avg
      else bunch).

(** ** The size of a random sample *)

(** The samplers answer a request for [size] numbers with that many, and
    refuse a negative [size]. *)
Hypothesis standard_normal_size :
  forall (g g' : rng) (size : Z) (s : array),
    standard_normal g size = Ok (s, g') ->
    (0 <= size)%Z /\ length s = Z.to_nat size.

Hypothesis truncnorm_std_size :
  forall (g g' : rng) (a b : Q) (size : Z) (s : array),
    truncnorm_std g a b size = Ok (s, g') ->
    (0 <= size)%Z /\ length s = Z.to_nat size.

(** ** What a call does to the objects of the caller *)

Definition same_objects (w w' : world) : Prop :=
  w_beam w' = w_beam w /\ w_laser w' = w_laser w.

(** [m] leaves the bunch and the laser alone, however it ends. *)
Definition keeps_objects {A : Type} (m : M A) : Prop :=
  forall w r w', m w = (r, w') -> same_objects w w'.

(** [m] leaves the bunch and the laser alone when it raises. *)
Definition raise_safe {A : Type} (m : M A) : Prop :=
  forall w e w', m w = (Raise e, w') -> same_objects w w'.

(** [m] always returns normally. *)
Definition never_raises {A : Type} (m : M A) : Prop :=
  forall w, is_ok (fst (m w)) = true.

(** The blocks carried by the loop of the trackers are there and have six
    rows each. *)
Definition six_row_blocks (st : wakefield * list matrix * list Bunch.t)
  : Prop :=
  snd (fst st) <> [] /\ Forall (fun m => length m = 6%nat) (snd (fst st)).

(** * Properties *)

(** ** Slicing and reassembly *)

Lemma py_slice_nat {A : Type} (l : list A) (a b : nat) :
  (a <= b)%nat ->
  py_slice l (Z.of_nat a) (Z.of_nat b) = firstn (b - a) (skipn a l).
Proof.
  intros Hab. unfold py_slice, norm_index.
  destruct (Z.ltb_spec (Z.of_nat a) 0); [lia|].
  destruct (Z.ltb_spec (Z.of_nat b) 0); [lia|].
  set (n := length l).
  destruct (Nat.le_gt_cases n a) as [Hna|Hna].
  - rewrite (skipn_all2 l) by (fold n; lia).
    rewrite skipn_all2 by (fold n; lia).
    now rewrite !firstn_nil.
  - replace (Z.to_nat (Z.min (Z.of_nat a) (Z.of_nat n))) with a by lia.
    destruct (Nat.le_gt_cases b n) as [Hbn|Hbn].
    + f_equal. lia.
    + rewrite !firstn_all2; [reflexivity | |];
        rewrite length_skipn; fold n; lia.
Qed.

Lemma firstn_skipn_app {A : Type} (l : list A) (a b : nat) :
  firstn a l ++ firstn b (skipn a l) = firstn (a + b) l.
Proof.
  revert l. induction a as [|a IH]; intros [|x l]; simpl;
    rewrite ?firstn_nil; try reflexivity.
  now rewrite IH.
Qed.

(** The first [k] blocks of width [w] of one row, put side by side, are
    the first [k * w] entries of the row. *)
Lemma row_blocks_firstn (row : array) (w k : nat) :
  concat (map (fun p => py_slice row (Z.of_nat p * Z.of_nat w)
                                 ((Z.of_nat p + 1) * Z.of_nat w)) (seq 0 k))
  = firstn (k * w) row.
Proof.
  induction k as [|k IH].
  - reflexivity.
  - rewrite seq_S, map_app, concat_app, IH. simpl.
    replace (Z.of_nat k * Z.of_nat w)%Z with (Z.of_nat (k * w)) by lia.
    replace ((Z.of_nat k + 1) * Z.of_nat w)%Z
      with (Z.of_nat (k * w + w)) by lia.
    rewrite py_slice_nat by lia.
    rewrite app_nil_r.
    replace (k * w + w - k * w)%nat with w by lia.
    rewrite firstn_skipn_app. f_equal. lia.
Qed.

Lemma zip_with_app_map {A : Type} (f g : A -> array) (l : list A) :
  zip_with (@app Q) (map f l) (map g l) = map (fun x => f x ++ g x) l.
Proof. induction l as [|x l IH]; simpl; [reflexivity | now rewrite IH]. Qed.

(** Blocks that are cut row by row are put back row by row. *)
Lemma concatenate_blocks (f : Z -> array -> array) (mat : matrix)
      (p : Z) (ps : list Z) :
  np_concatenate_axis1 (map (fun p => map (f p) mat) (p :: ps))
  = Ok (map (fun row => concat (map (fun p => f p row) (p :: ps))) mat).
Proof.
  revert p. induction ps as [|p' ps IH]; intros p.
  - simpl. f_equal. apply map_ext. intros row. now rewrite app_nil_r.
  - change (np_concatenate_axis1 (map (fun p => map (f p) mat) (p :: p' :: ps)))
      with (r <-- np_concatenate_axis1 (map (fun p => map (f p) mat) (p' :: ps)) ;;
            hstack (map (f p) mat) r).
    rewrite IH. unfold rbind, hstack.
    rewrite !length_map, Nat.eqb_refl, zip_with_app_map. reflexivity.
Qed.

Lemma part_per_proc_covers (N : nat) (num_proc : Z) :
  (1 <= num_proc)%Z ->
  exists w : nat,
    part_per_proc (Z.of_nat N) num_proc = Ok (Z.of_nat w)
    /\ Z.of_nat w = Qceiling (inject_Z (Z.of_nat N) / inject_Z num_proc)
    /\ (N <= Z.to_nat num_proc * w)%nat.
Proof.
  intros Hp. unfold part_per_proc, py_div.
  assert (Hpos : 0 < inject_Z num_proc).
  { change 0 with (inject_Z 0). rewrite <- Zlt_Qlt. lia. }
  destruct (Qeq_bool (inject_Z num_proc) 0) eqn:E.
  { apply Qeq_bool_iff in E. rewrite E in Hpos. now apply Qlt_irrefl in Hpos. }
  simpl. unfold np_ceil_int.
  set (r := inject_Z (Z.of_nat N) / inject_Z num_proc).
  assert (Hr : r <= inject_Z (Qceiling r)) by apply Qle_ceiling.
  assert (Hr0 : 0 <= r).
  { unfold r. apply Qle_shift_div_l; [exact Hpos|].
    rewrite Qmult_0_l. change 0 with (inject_Z 0). rewrite <- Zle_Qle. lia. }
  assert (Hc0 : (0 <= Qceiling r)%Z).
  { rewrite Zle_Qle. eapply Qle_trans; [exact Hr0 | exact Hr]. }
  exists (Z.to_nat (Qceiling r)). rewrite Z2Nat.id by exact Hc0.
  repeat split.
  assert (HN : inject_Z (Z.of_nat N) <= inject_Z (Qceiling r * num_proc)).
  { rewrite inject_Z_mult.
    assert (Heq : r * inject_Z num_proc == inject_Z (Z.of_nat N)).
    { unfold r. field. intro H0. rewrite H0 in Hpos.
      now apply Qlt_irrefl in Hpos. }
    rewrite <- Heq.
    apply Qmult_le_compat_r; [exact Hr | now apply Qlt_le_weak]. }
  rewrite <- Zle_Qle in HN. nia.
Qed.

Lemma shape1_rows (rows N : nat) (mat : matrix) :
  well_shaped (S rows) N mat -> shape1 mat = Z.of_nat N.
Proof.
  intros [Hlen Hall]. destruct mat as [|r mat]; [discriminate|].
  unfold shape1. simpl. inversion Hall; subst. lia.
Qed.

(** C10.  A 6xN phase-space matrix that is split into [num_proc >= 1]
    consecutive column blocks of width [ceil(N/num_proc)] and concatenated
    again along the columns is the original matrix: the split succeeds,
    gives the blocks [mat[:, p*w:(p+1)*w]] for [p = 0 .. num_proc-1], and
    [np.concatenate(blocks, axis=1)] returns [mat]. *)
Theorem partition_concatenate_roundtrip
        (mat : matrix) (N : nat) (num_proc : Z) :
  well_shaped 6 N mat ->
  (1 <= num_proc)%Z ->
  partition_matrix mat num_proc
  = Ok (split_blocks mat num_proc
          (Qceiling (inject_Z (Z.of_nat N) / inject_Z num_proc)))
  /\ (blocks <-- partition_matrix mat num_proc ;;
      np_concatenate_axis1 blocks) = Ok mat.
Proof.
  intros Hshape Hp.
  destruct (part_per_proc_covers N num_proc Hp) as (w & Hw & Hceil & Hcov).
  unfold partition_matrix.
  rewrite (shape1_rows _ _ _ Hshape), Hw. simpl. rewrite <- Hceil.
  split; [reflexivity|].
  unfold split_blocks, col_slice, np_arange.
  destruct (Z.to_nat num_proc) as [|k] eqn:Ek; [lia|].
  change (map Z.of_nat (seq 0 (S k)))
    with (Z.of_nat 0%nat :: map Z.of_nat (seq 1 k)).
  rewrite (concatenate_blocks
             (fun p row => py_slice row (p * Z.of_nat w) ((p + 1) * Z.of_nat w))).
  f_equal.
  change (Z.of_nat 0%nat :: map Z.of_nat (seq 1 k))
    with (map Z.of_nat (seq 0 (S k))).
  rewrite <- (map_id mat) at 2.
  apply map_ext_in. intros row Hin.
  rewrite map_map, row_blocks_firstn.
  destruct Hshape as [_ Hall]. rewrite Forall_forall in Hall.
  apply firstn_all2. rewrite (Hall row Hin). lia.
Qed.

(** ** Failing constructions and unsupported options *)

(** C1.  With [non_rel=False] the ramp calls [PlasmaRampBlowoutField] with
    four positional and two keyword arguments, while the class takes the
    density function alone: for every ramp, bunch, [steps] and [n_proc] the
    call raises [TypeError] and leaves the world as it was; no field is
    built and no snapshot is returned. *)
Theorem ramp_field_construction_raises
        (self : Ramp.t) (steps : Z) (n_proc : option Z) (w : world) :
  PlasmaRamp_track_beam_numerically_RK_parallel self steps false n_proc w
  = (Raise TypeError, w).
Proof. destruct vpic_installed eqn:E; cbv; rewrite ?E; reflexivity. Qed.

(** C2.  With [mode='Blowout'] the stage evaluates the name
    [BlowoutWakefield], which neither [wakefields.py] nor
    [beamline_elements.py] binds: for every stage, laser, bunch and options
    the call raises [NameError] and leaves the world as it was. *)
Theorem stage_blowout_mode_raises
        (self : Stage.t) (steps : Z) (o : stage_options) (w : world) :
  PlasmaStage_track_beam_numerically_RK_parallel self "Blowout" steps o w
  = (Raise NameError, w).
Proof. destruct vpic_installed eqn:E; cbv; rewrite ?E; reflexivity. Qed.

(** C7.  With [non_rel=True] the ramp raises [NotImplementedError] at
    once, for every ramp, bunch, [steps] and [n_proc]: the world after the
    call is the world before it, so the bunch keeps its phase space and its
    propagation distance, and the trace has no field and no pool. *)
Theorem ramp_non_rel_not_implemented
        (self : Ramp.t) (steps : Z) (n_proc : option Z) (w : world) :
  PlasmaRamp_track_beam_numerically_RK_parallel self steps true n_proc w
  = (Raise NotImplementedError, w).
Proof. reflexivity. Qed.

(** C8.  [get_matched_bunch] with [n_p] left at [None] raises [TypeError]
    whatever [k_x] is: [n_p*1e-6] is evaluated before aptools is called, so
    a focusing strength alone never yields a bunch. *)
Theorem matched_bunch_without_density_raises
        (g : rng)
        (en_x en_y ene ene_sp s_t xi_c q_tot n_part
              x_off y_off theta_x theta_y : Q) (k_x : pyval) :
  get_matched_bunch g en_x en_y ene ene_sp s_t xi_c q_tot n_part
                    x_off y_off theta_x theta_y PyNone k_x
  = Raise TypeError.
Proof. reflexivity. Qed.


(** ** Bookkeeping of the propagation distance *)

Lemma hoare_bind {A B : Type} (P : world -> Prop) (R : A -> world -> Prop)
      (S : B -> world -> Prop) (m : M A) (k : A -> M B) :
  hoare P m R -> (forall a, hoare (R a) (k a) S) -> hoare P (bind m k) S.
Proof.
  intros Hm Hk w b w' HP Hrun. unfold bind in Hrun.
  destruct (m w) as [[a|e] w1] eqn:Em; [|discriminate].
  exact (Hk a w1 b w' (Hm w a w1 HP Em) Hrun).
Qed.

Lemma keeps_bind {A B : Type} (d : Q) (S : B -> world -> Prop)
      (m : M A) (k : A -> M B) :
  keeps d m -> (forall a, hoare (prop_distance_is d) (k a) S) ->
  hoare (prop_distance_is d) (bind m k) S.
Proof. intros Hm Hk. exact (hoare_bind _ _ _ m k Hm Hk). Qed.

Lemma keeps_ret {A : Type} (d : Q) (a : A) : keeps d (ret a).
Proof. intros w a' w' HP H. inversion H; subst. exact HP. Qed.

Lemma keeps_lift {A : Type} (d : Q) (r : result A) : keeps d (lift r).
Proof. intros w a' w' HP H. inversion H; subst. exact HP. Qed.

Lemma keeps_raise {A : Type} (d : Q) (e : exn) : keeps d (@raise A e).
Proof. intros w a' w' HP H. discriminate. Qed.

Lemma keeps_get_beam (d : Q) : keeps d get_beam.
Proof. intros w a' w' HP H. inversion H; subst. exact HP. Qed.

Lemma keeps_get_laser (d : Q) : keeps d get_laser.
Proof. intros w a' w' HP H. inversion H; subst. exact HP. Qed.

Lemma keeps_put_laser (d : Q) (l : Laser.t) : keeps d (put_laser l).
Proof. intros w a' w' HP H. inversion H; subst. exact HP. Qed.

Lemma keeps_emit (d : Q) (ev : event) : keeps d (emit ev).
Proof. intros w a' w' HP H. inversion H; subst. exact HP. Qed.

Lemma keeps_Pool (d : Q) (n : Z) : keeps d (Pool n).
Proof.
  unfold Pool. destruct (n <? 1)%Z; [apply keeps_raise | apply keeps_emit].
Qed.

Lemma keeps_pool_release (d : Q) : keeps d pool_release.
Proof.
  unfold pool_release. apply keeps_bind; [apply keeps_emit|].
  intros _. apply keeps_emit.
Qed.

Lemma keeps_try_finally {A : Type} (d : Q) (body : M A) (cleanup : M unit) :
  keeps d body -> keeps d cleanup -> keeps d (try_finally body cleanup).
Proof.
  intros Hb Hc w a w' HP H. unfold try_finally in H.
  destruct (body w) as [r w1] eqn:Eb.
  destruct (cleanup w1) as [[u|e] w2] eqn:Ec; [|discriminate].
  inversion H; subst.
  exact (Hc w1 u w' (Hb w a w1 HP Eb) Ec).
Qed.

(** The commit adds the length to the propagation distance. *)
Lemma hoare_commit_last (d : Q) (beam_list : list Bunch.t) (length : Q) :
  hoare (prop_distance_is d) (commit_last beam_list length)
        (fun _ => prop_distance_is (d + length)).
Proof.
  intros w a w' HP H. unfold commit_last, bind, lift in H.
  destruct (py_last beam_list) as [last_beam|e]; [|discriminate].
  cbn in H. inversion H; subst. unfold prop_distance_is in *. cbn.
  now rewrite HP.
Qed.

Ltac keep_step :=
  first
    [ apply keeps_ret | apply keeps_lift | apply keeps_raise
    | apply keeps_get_beam | apply keeps_get_laser | apply keeps_put_laser
    | apply keeps_emit | apply keeps_Pool | apply keeps_pool_release
    | apply keeps_try_finally
    | apply keeps_bind; [ | intros ? ]
    | match goal with
      | |- keeps _ (if ?b then _ else _) => destruct b
      | |- hoare _ (if ?b then _ else _) _ => destruct b
      end ].

Ltac keep_prefix :=
  repeat match goal with
         | |- hoare _ (bind _ _) _ =>
             apply keeps_bind; [solve [repeat keep_step] | intros ?]
         end.

Lemma hoare_rk_parallel_body
      (d length : Q) (steps : Z) (n_proc : option Z) (WF : option wakefield)
      (get_optimized_dt : Bunch.t -> wakefield -> result npfloat)
      (auto_update : bool) :
  hoare (prop_distance_is d)
        (rk_parallel_body length steps n_proc WF get_optimized_dt auto_update)
        (fun _ => prop_distance_is (d + length)).
Proof.
  unfold rk_parallel_body.
  keep_prefix.
  eapply hoare_bind; [apply hoare_commit_last | intros ?].
  apply keeps_ret.
Qed.


Lemma hoare_stage_numerical
      (d : Q) (self : Stage.t) (mode : string) (steps : Z)
      (o : stage_options) :
  hoare (prop_distance_is d)
        (PlasmaStage_track_beam_numerically_RK_parallel self mode steps o)
        (fun _ => prop_distance_is (d + Stage.length self)).
Proof.
  unfold PlasmaStage_track_beam_numerically_RK_parallel.
  keep_prefix. apply hoare_rk_parallel_body.
Qed.

Lemma hoare_ramp_numerical
      (d : Q) (self : Ramp.t) (steps : Z) (non_rel : bool)
      (n_proc : option Z) :
  hoare (prop_distance_is d)
        (PlasmaRamp_track_beam_numerically_RK_parallel self steps non_rel
                                                       n_proc)
        (fun _ => prop_distance_is (d + Ramp.length self)).
Proof.
  unfold PlasmaRamp_track_beam_numerically_RK_parallel.
  keep_prefix. apply hoare_rk_parallel_body.
Qed.

Lemma hoare_stage_analytic
      (d : Q) (self : Stage.t) (mode : string) (steps : Z)
      (lon_field lon_field_slope foc_strength : pyval) :
  hoare (prop_distance_is d)
        (PlasmaStage_track_beam_analytically self mode steps lon_field
                                             lon_field_slope foc_strength)
        (fun _ => prop_distance_is (d + Stage.length self)).
Proof.
  unfold PlasmaStage_track_beam_analytically.
  keep_prefix.
  eapply hoare_bind; [apply hoare_commit_last | intros ?].
  keep_prefix. apply keeps_ret.
Qed.

(** C4.  Every tracking call (numerical or analytic, on a stage or on a
    ramp) that returns normally leaves the bunch of the caller with its
    former propagation distance plus the length of the element, whatever
    [steps] and [n_proc] are. *)
Theorem prop_distance_bookkeeping
        (c : tracking_call) (w w' : world) (beam_list : list Bunch.t) :
  run_call c w = (Ok beam_list, w') ->
  Bunch.prop_distance (w_beam w')
  = Bunch.prop_distance (w_beam w) + element_length c.
Proof.
  intros Hrun.
  destruct c as [self mode steps o | self mode steps lf lfs fs
                 | self steps non_rel n_proc]; cbn [run_call element_length] in *.
  - exact (hoare_stage_numerical _ self mode steps o w beam_list w'
                                 eq_refl Hrun).
  - exact (hoare_stage_analytic _ self mode steps lf lfs fs w beam_list w'
                                eq_refl Hrun).
  - exact (hoare_ramp_numerical _ self steps non_rel n_proc w beam_list w'
                                eq_refl Hrun).
Qed.


(** ** The step plan and the number of snapshots *)

Lemma never_returns_bind_l {A B : Type} (m : M A) (k : A -> M B) :
  never_returns m -> never_returns (bind m k).
Proof.
  intros Hm w. unfold bind. specialize (Hm w).
  destruct (m w) as [[a|e] w1]; [discriminate | reflexivity].
Qed.

Lemma never_returns_bind_r {A B : Type} (m : M A) (k : A -> M B) :
  (forall a, never_returns (k a)) -> never_returns (bind m k).
Proof.
  intros Hk w. unfold bind.
  destruct (m w) as [[a|e] w1]; [apply Hk | reflexivity].
Qed.

(** [WF.Kx] takes nine arguments and [_get_optimized_dt] of the stage
    passes eight. *)
Lemma stage_get_optimized_dt_raises (beam : Bunch.t) (WF : wakefield) :
  PlasmaStage__get_optimized_dt beam WF = Raise TypeError.
Proof. reflexivity. Qed.

Lemma stage_body_never_returns
      (length : Q) (steps : Z) (n_proc : option Z) (WF : option wakefield)
      (auto_update : bool) :
  never_returns (rk_parallel_body length steps n_proc WF
                                  PlasmaStage__get_optimized_dt auto_update).
Proof.
  unfold rk_parallel_body.
  do 3 (apply never_returns_bind_r; intros ?).
  apply never_returns_bind_l. intros w. reflexivity.
Qed.

Lemma ramp_field_never_built (self : Ramp.t) (non_rel : bool) :
  never_returns
    (if non_rel
     then raise NotImplementedError
     else
       cls <- lift (lookup_class "PlasmaRampBlowoutField") ;;
       field <- lift (construct cls
                        [PyFloat (Ramp.length self);
                         PyFloat (Ramp.plasma_dens_down self);
                         PyFloat (Ramp.plasma_dens_top self);
                         PyFloat (Ramp.position_down self)]
                        [("ramp_type", PyStr (Ramp.ramp_type self));
                         ("profile", PyStr (Ramp.profile self))]) ;;
       emit (FieldBuilt "PlasmaRampBlowoutField") ;;;
       ret field).
Proof.
  intros w. destruct non_rel; [reflexivity|].
  destruct vpic_installed eqn:E; cbv; rewrite ?E; reflexivity.
Qed.

(** C5.  No numerical tracking call returns a list of snapshots: on a
    stage the time step is asked from [WF.Kx] with eight arguments for nine
    parameters, on a ramp the field is built with six arguments for one
    parameter, so for all arguments (in particular for every [steps >= 1])
    the call ends in an exception. *)
Theorem numerical_tracking_returns_no_snapshots :
  (forall (self : Stage.t) (mode : string) (steps : Z) (o : stage_options)
          (w : world),
      is_ok (fst (PlasmaStage_track_beam_numerically_RK_parallel
                    self mode steps o w)) = false)
  /\ (forall (self : Ramp.t) (steps : Z) (non_rel : bool) (n_proc : option Z)
             (w : world),
         is_ok (fst (PlasmaRamp_track_beam_numerically_RK_parallel
                       self steps non_rel n_proc w)) = false).
Proof.
  split.
  - intros self mode steps o.
    unfold PlasmaStage_track_beam_numerically_RK_parallel.
    do 4 (apply never_returns_bind_r; intros ?).
    apply stage_body_never_returns.
  - intros self steps non_rel n_proc.
    unfold PlasmaRamp_track_beam_numerically_RK_parallel.
    apply never_returns_bind_l, ramp_field_never_built.
Qed.


(** The arithmetic of lines 171-175 taken alone, for a finite positive
    [dt] and a non-negative [t_final]. *)
Lemma py_int_nonneg (x : Q) : 0 <= x -> py_int x = Qfloor x.
Proof.
  intros Hx. destruct x as [n d]. unfold py_int, Qfloor. simpl.
  apply Z.quot_div_nonneg; [|lia].
  unfold Qle in Hx. simpl in Hx. lia.
Qed.

Lemma inject_Z_pos (z : Z) : (0 < z)%Z -> 0 < inject_Z z.
Proof. intros H. change 0 with (inject_Z 0). now rewrite <- Zlt_Qlt. Qed.

Lemma py_div_pos (a : Q) (z : Z) :
  (0 < z)%Z -> py_div a (inject_Z z) = Ok (a / inject_Z z).
Proof.
  intros Hz. unfold py_div.
  destruct (Qeq_bool (inject_Z z) 0) eqn:E; [|reflexivity].
  apply Qeq_bool_iff in E. pose proof (inject_Z_pos z Hz) as Hp.
  rewrite E in Hp. now apply Qlt_irrefl in Hp.
Qed.

Lemma plan_steps_floor (t_final d : Q) (steps : Z) :
  0 <= t_final -> 0 < d -> (1 <= steps)%Z ->
  let it := Z.max (Qfloor (inject_Z (Qfloor (t_final / d)) / inject_Z steps)) 1 in
  plan_steps t_final steps (Finite d)
  = Ok (mkPlan it (it * steps) (t_final / inject_Z (it * steps))).
Proof.
  intros Ht Hd Hs it. unfold plan_steps, int_of_ratio.
  destruct (Qeq_bool d 0) eqn:E.
  { apply Qeq_bool_iff in E. rewrite E in Hd. now apply Qlt_irrefl in Hd. }
  assert (Hr : 0 <= t_final / d).
  { apply Qle_shift_div_l; [exact Hd | now rewrite Qmult_0_l]. }
  cbn [rbind]. rewrite (py_int_nonneg _ Hr).
  rewrite py_div_pos by lia. cbn [rbind].
  assert (Hf : (0 <= Qfloor (t_final / d))%Z).
  { change 0%Z with (Qfloor 0). now apply Qfloor_resp_le. }
  rewrite py_int_nonneg.
  2:{ apply Qle_shift_div_l; [apply inject_Z_pos; lia|].
      rewrite Qmult_0_l. change 0 with (inject_Z 0). now rewrite <- Zle_Qle. }
  fold it. rewrite py_div_pos by (subst it; nia). reflexivity.
Qed.

Lemma plan_steps_dt_no_larger (t_final d : Q) (steps : Z) (p : step_plan) :
  0 <= t_final -> 0 < d -> (1 <= steps)%Z ->
  (Qfloor (t_final / d) < steps)%Z ->
  plan_steps t_final steps (Finite d) = Ok p ->
  it_per_step p = 1%Z /\ dt_adjusted p <= d.
Proof.
  intros Ht Hd Hs Hlt Hp.
  rewrite (plan_steps_floor t_final d steps Ht Hd Hs) in Hp.
  assert (Hf : (0 <= Qfloor (t_final / d))%Z).
  { change 0%Z with (Qfloor 0). apply Qfloor_resp_le.
    apply Qle_shift_div_l; [exact Hd | now rewrite Qmult_0_l]. }
  assert (Hit : Z.max (Qfloor (inject_Z (Qfloor (t_final / d)) / inject_Z steps))
                      1 = 1%Z).
  { rewrite <- Zdiv_Qdiv. rewrite Z.div_small by lia. reflexivity. }
  cbv zeta in Hp. rewrite Hit in Hp. inversion Hp; subst p; clear Hp.
  cbn [it_per_step dt_adjusted]. split; [reflexivity|].
  pose proof (Qlt_floor (t_final / d)) as Hup.
  assert (Hsteps : t_final / d < inject_Z steps).
  { eapply Qlt_le_trans; [exact Hup|]. rewrite <- Zle_Qle. lia. }
  assert (Hprod : t_final < inject_Z steps * d).
  { assert (Heq : t_final == t_final / d * d).
    { field. intro H0. rewrite H0 in Hd. now apply Qlt_irrefl in Hd. }
    eapply Qle_lt_trans; [apply Qle_lteq; right; exact Heq|].
    apply Qmult_lt_compat_r; assumption. }
  destruct steps as [|sp|sp]; try lia.
  apply Qlt_le_weak. apply Qlt_shift_div_r; [reflexivity|].
  rewrite Qmult_comm. exact Hprod.
Qed.


Lemma output_step_appends
      (beam : Bunch.t) (au : bool) (plan : step_plan) (t_step : Q)
      (st st' : wakefield * list matrix * list Bunch.t) (s : Z) :
  output_step beam au plan t_step st s = Ok st' ->
  length (snd st') = S (length (snd st)).
Proof.
  destruct st as [[WF ml] bl]. unfold output_step.
  destruct (if au then _ else _) as [WF1|e]; [|discriminate]. cbn [rbind].
  destruct (map_result _ ml) as [ml1|e]; [|discriminate]. cbn [rbind].
  destruct (np_concatenate_axis1 ml1) as [bm|e]; [|discriminate]. cbn [rbind].
  destruct bm as [|x [|px [|y [|py [|xi [|pz [|? ?]]]]]]]; try discriminate.
  intros H. inversion H; subst. cbn [snd].
  rewrite length_app. cbn. lia.
Qed.

Lemma output_steps_length
      (beam : Bunch.t) (au : bool) (plan : step_plan) (t_step : Q)
      (ss : list Z) (st st' : wakefield * list matrix * list Bunch.t) :
  output_steps beam au plan t_step st ss = Ok st' ->
  length (snd st') = (length (snd st) + length ss)%nat.
Proof.
  revert st. induction ss as [|s ss IH]; intros st H; cbn in H.
  - inversion H; subst. cbn. lia.
  - destruct (output_step beam au plan t_step st s) as [st1|e] eqn:E;
      [|discriminate].
    cbn in H. apply IH in H. apply output_step_appends in E.
    rewrite H, E. cbn. lia.
Qed.

(** The loop of lines 194-208 taken alone: when it ends normally it has
    appended one snapshot for each of the [steps] passes. *)
Lemma tracking_loop_length
      (beam : Bunch.t) (mat : matrix) (WF : wakefield) (au : bool)
      (plan : step_plan) (t_step : Q) (steps num_proc ppp : Z)
      (beam_list : list Bunch.t) :
  tracking_loop beam mat WF au plan t_step steps num_proc ppp = Ok beam_list ->
  length beam_list = Z.to_nat steps.
Proof.
  unfold tracking_loop.
  destruct (output_steps _ _ _ _ _ _) as [st|e] eqn:E; [|discriminate].
  cbn. intros H. inversion H; subst. apply output_steps_length in E.
  rewrite E. unfold np_arange. cbn. now rewrite length_map, length_seq.
Qed.

(** The body of the numerical trackers taken alone: with a time step
    function that answers and an integrator that returns blocks of as many
    rows as it was given, it returns one snapshot per step. *)
Lemma length_zip_with {A B C : Type} (f : A -> B -> C) (l : list A)
      (m : list B) :
  length (zip_with f l m) = Nat.min (length l) (length m).
Proof.
  revert m. induction l as [|a l IH]; intros [|b m]; cbn;
    [reflexivity | reflexivity | reflexivity | now rewrite IH].
Qed.

Lemma concatenate_rows (k : nat) (ms : list matrix) :
  ms <> [] ->
  Forall (fun m => length m = k) ms ->
  exists m, np_concatenate_axis1 ms = Ok m /\ length m = k.
Proof.
  induction ms as [|m ms IH]; intros Hne Hall; [congruence|].
  inversion Hall as [|? ? Hm Hms]; subst.
  destruct ms as [|m' ms'].
  - exists m. split; reflexivity.
  - destruct (IH ltac:(discriminate) Hms) as (r & Hr & Hlen).
    change (np_concatenate_axis1 (m :: m' :: ms'))
      with (r <-- np_concatenate_axis1 (m' :: ms') ;; hstack m r).
    rewrite Hr. cbn [rbind]. unfold hstack.
    rewrite Hlen, Nat.eqb_refl.
    eexists. split; [reflexivity|].
    rewrite length_zip_with. unfold matrix, array in *. lia.
Qed.

Lemma map_result_rows (f : matrix -> result matrix) (k : nat)
      (ms : list matrix) :
  (forall m, exists m', f m = Ok m' /\ length m' = length m) ->
  Forall (fun m => length m = k) ms ->
  exists ms', map_result f ms = Ok ms'
              /\ length ms' = length ms
              /\ Forall (fun m => length m = k) ms'.
Proof.
  intros Hf. induction ms as [|m ms IH]; intros Hall.
  - exists []. repeat split; constructor.
  - inversion Hall as [|? ? Hm Hms]; subst.
    destruct (Hf m) as (m' & Em & Hlen).
    destruct (IH Hms) as (ms' & Ems & Hl & Hall').
    exists (m' :: ms'). cbn. rewrite Em. cbn. rewrite Ems. cbn.
    repeat split; [now rewrite Hl | constructor; [congruence | exact Hall']].
Qed.

Lemma output_steps_total
      (beam : Bunch.t) (plan : step_plan) (t_step : Q) (ss : list Z)
      (st : wakefield * list matrix * list Bunch.t) :
  (forall m WF dt it t0,
      exists m', runge_kutta_4 m WF dt it t0 = Ok m'
                 /\ length m' = length m) ->
  six_row_blocks st ->
  exists st', output_steps beam false plan t_step st ss = Ok st'.
Proof.
  intros Hrk. revert st. induction ss as [|s ss IH]; intros st Hst.
  - exists st. reflexivity.
  - destruct st as [[WF ml] bl]. destruct Hst as [Hne Hall]. cbn in Hne, Hall.
    cbn [output_steps]. unfold output_step. cbn [rbind].
    destruct (map_result_rows
                (fun m => runge_kutta_4 m WF (dt_adjusted plan)
                                        (it_per_step plan)
                                        (inject_Z s * t_step))
                6 ml (fun m => Hrk m _ _ _ _) Hall)
      as (ml' & Eml & Hlen & Hall').
    rewrite Eml. cbn [rbind].
    assert (Hne' : ml' <> []).
    { destruct ml'; [|discriminate]. destruct ml; [congruence|discriminate]. }
    destruct (concatenate_rows 6 ml' Hne' Hall') as (bm & Ebm & Hbm).
    rewrite Ebm. cbn [rbind].
    destruct bm as [|x [|px [|y [|py [|xi [|pz [|? ?]]]]]]]; try discriminate.
    cbn [rbind]. apply IH. split; assumption.
Qed.


Lemma split_blocks_six_rows (mat : matrix) (num_proc ppp : Z) :
  length mat = 6%nat -> (1 <= num_proc)%Z ->
  split_blocks mat num_proc ppp <> []
  /\ Forall (fun m => length m = 6%nat) (split_blocks mat num_proc ppp).
Proof.
  intros Hmat Hp. unfold split_blocks, np_arange. split.
  - destruct (Z.to_nat num_proc) as [|k] eqn:E; [lia | discriminate].
  - apply Forall_forall. intros m Hm. apply in_map_iff in Hm.
    destruct Hm as (p & <- & _). unfold col_slice. now rewrite length_map.
Qed.

Lemma ct_c_positive : 0 < ct.c.
Proof. reflexivity. Qed.

Lemma rk_parallel_body_returns
      (len d : Q) (steps : Z) (n_proc : option Z) (WF : wakefield)
      (get_optimized_dt : Bunch.t -> wakefield -> result npfloat)
      (w : world) :
  0 <= len ->
  (1 <= steps)%Z ->
  (1 <= match n_proc with None => cpu_count | Some n => n end)%Z ->
  0 < d ->
  get_optimized_dt (w_beam w) WF = Ok (Finite d) ->
  (forall m WF dt it t0,
      exists m', runge_kutta_4 m WF dt it t0 = Ok m'
                 /\ length m' = length m) ->
  exists (beam_list : list Bunch.t) (w' : world),
    rk_parallel_body len steps n_proc (Some WF) get_optimized_dt false w
    = (Ok beam_list, w')
    /\ length beam_list = Z.to_nat steps.
Proof.
  intros Hlen Hsteps Hproc Hd Hdt Hrk.
  assert (Ht : 0 <= len / ct.c).
  { apply Qle_shift_div_l; [exact ct_c_positive | now rewrite Qmult_0_l]. }
  destruct (part_per_proc_covers (length (Bunch.x (w_beam w))) _ Hproc)
    as (ppp & Eppp & _ & _).
  set (mat := Bunch.get_6D_matrix (w_beam w)).
  set (num_proc := match n_proc with None => cpu_count | Some n => n end) in *.
  pose proof (plan_steps_floor (len / ct.c) d steps Ht Hd Hsteps) as Eplan.
  cbv zeta in Eplan.
  set (plan := mkPlan _ _ _) in Eplan.
  destruct (split_blocks_six_rows mat num_proc (Z.of_nat ppp) eq_refl Hproc)
    as [Hne Hall].
  destruct (output_steps_total (w_beam w) plan
              (len / ct.c / inject_Z steps) (np_arange steps)
              (WF, split_blocks mat num_proc (Z.of_nat ppp), [])
              Hrk (conj Hne Hall)) as (st & Est).
  pose proof (output_steps_length _ _ _ _ _ _ _ Est) as Hcount.
  cbn [snd length Nat.add] in Hcount.
  assert (Hsteps' : length (snd st) = Z.to_nat steps).
  { rewrite Hcount. unfold np_arange. now rewrite length_map, length_seq. }
  destruct (rev (snd st)) as [|last_beam rest] eqn:Erev.
  { apply (f_equal (@length _)) in Erev. rewrite length_rev in Erev.
    cbn in Erev. lia. }
  eexists. eexists. split.
  - unfold rk_parallel_body, bind, lift, get_beam, ret.
    rewrite py_div_pos by lia. rewrite Hdt, Eplan.
    fold mat. fold num_proc.
    change (shape1 mat) with (Z.of_nat (length (Bunch.x (w_beam w)))).
    rewrite Eppp. unfold Pool.
    destruct (Z.ltb_spec num_proc 1); [lia|].
    unfold emit, try_finally, tracking_loop, pool_release, bind, emit.
    rewrite Est. cbn [rbind].
    unfold commit_last, bind, lift, py_last. rewrite Erev. cbn.
    reflexivity.
  - exact Hsteps'.
Qed.


(** ** The longitudinal field of the custom blowout model *)

(** C3, as the code has it.  A [CustomBlowoutWakefield] built from a
    density, a driver, a beam centre, a longitudinal field [E_z0], its slope
    [E_z'], a focusing gradient and a field offset keeps [E_z0] and [E_z']
    as given, and for every array [xi] and time [t]
    [Wz = E_z0 + E_z'*(xi - field_offset - beam_center + (1-b_w)*c*t)],
    where [b_w] is the group velocity of the driver at that density; no
    factor [e/(m_e*c)] is applied. *)
Theorem custom_blowout_Wz_unscaled
        (n_p beam_center E_z0 E_z' g_x field_offset : Q) (driver : Laser.t)
        (x y xi px py pz q gamma : array) (t : Q) :
  (WF <-- CustomBlowoutWakefield_init
            [PyFloat n_p; PyLaser driver; PyFloat beam_center; PyFloat E_z0;
             PyFloat E_z'; PyFloat g_x; PyFloat field_offset] [] ;;
   CustomBlowoutWakefield_Wz WF x y xi px py pz q gamma t)
  = Ok (map (fun xi_i =>
               E_z0 + E_z' * (xi_i - field_offset - beam_center
                              + (1 - get_group_velocity driver n_p) * ct.c * t))
            xi).
Proof. reflexivity. Qed.


(** ** The cold-fluid fields and the charge of the beam *)

Lemma fold_left_ext {A B : Type} (f g : A -> B -> A) (l : list B) (a : A) :
  (forall a b, f a b = g a b) -> fold_left f l a = fold_left g l a.
Proof.
  intros Hfg. revert a. induction l as [|b l IH]; intros a; cbn;
    [reflexivity | now rewrite Hfg, IH].
Qed.

Lemma fluid_rk_step_ignores_beam
      (driver : Laser.t) (r : array) (s_d dz dist_z_foc : Q)
      (h h' : matrix) (n_rows : nat)
      (st : matrix * matrix * array) (i : nat) :
  fluid_rk_step driver r s_d dz dist_z_foc h n_rows st i
  = fluid_rk_step driver r s_d dz dist_z_foc h' n_rows st i.
Proof. destruct st as [[u_1 u_2] z_arr]. reflexivity. Qed.

(** C9.  The right-hand side of the fluid equations does not read the beam
    density, and two evaluations of the cold-fluid fields on the same
    object, at the same time and with the same [xi], whose histograms of the
    beam charge both succeed, leave the same object behind: the same [E_z],
    [W_r] and [K_r] grids, whatever the charges [q] and the transverse
    coordinates are. *)
Theorem cold_fluid_fields_ignore_beam_charge
        (self : NonLinearColdFluidWakefield) (xi : array) (t : Q)
        (x y px py pz q gamma x' y' px' py' pz' q' gamma' : array)
        (h h' : matrix) :
  beam_histogram self x y xi q = Ok h ->
  beam_histogram self x' y' xi q' = Ok h' ->
  (forall (u_1 u_2 r : array) (z : Q) (laser_a0 n_beam n_beam' : array),
      __wakefield_ode_system u_1 u_2 r z laser_a0 n_beam
      = __wakefield_ode_system u_1 u_2 r z laser_a0 n_beam')
  /\ __calculate_wakefields self x y xi px py pz q gamma t
     = __calculate_wakefields self x' y' xi px' py' pz' q' gamma' t.
Proof.
  intros Hh Hh'. split; [reflexivity|].
  unfold __calculate_wakefields. rewrite Hh, Hh'.
  destruct (Qeq_bool (nl_current_t self) t); [reflexivity|].
  destruct (_ && _); [reflexivity|].
  destruct (np_linspace 0 (nl_r_max self) (nl_n_r self)) as [r|e];
    [|reflexivity].
  cbn [rbind].
  destruct (py_div (nl_xi_max self - nl_xi_min self) _) as [dz0|e];
    [|reflexivity].
  cbn [rbind].
  destruct (py_div (nl_r_max self) _) as [dr0|e]; [|reflexivity].
  cbn [rbind].
  destruct (if (nl_n_xi self - 1 + 1 <? 0)%Z then _ else _) as [z_arr0|e];
    [|reflexivity].
  cbn [rbind].
  match goal with
  | |- context [fold_left (fluid_rk_step ?d ?r ?s ?z ?f ?b ?n) _ _] =>
      match goal with
      | |- context [fold_left (fluid_rk_step d r s z f ?b' n) _ _] =>
          tryif constr_eq b b' then fail
          else rewrite (fold_left_ext
                          (fluid_rk_step d r s z f b n)
                          (fluid_rk_step d r s z f b' n))
              by (intros; apply fluid_rk_step_ignores_beam)
      end
  end.
  reflexivity.
Qed.


(** ** The longitudinal window of generated bunches *)

Lemma truncnorm_rvs_within (g g' : rng) (loc scale : Q) (size : Z) (s : array) :
  truncnorm_rvs g (- (3)) 3 loc scale size = Ok (s, g') ->
  Forall (fun v => loc - 3 * scale <= v /\ v <= loc + 3 * scale) s.
Proof.
  unfold truncnorm_rvs.
  destruct (Qlt_le_dec scale 0) as [Hneg|Hpos]; [discriminate|].
  destruct (Qeq_bool scale 0) eqn:Ez.
  - apply Qeq_bool_iff in Ez.
    destruct (size <? 0)%Z; [discriminate|].
    intros H. inversion H; subst. apply Forall_forall. intros v Hv.
    apply repeat_spec in Hv. subst v. rewrite Ez. split; lra.
  - destruct (truncnorm_std g (- (3)) 3 size) as [[zs g1]|e] eqn:Es;
      [|discriminate].
    cbn. intros H. inversion H; subst.
    assert (Hb : Forall (fun z => - (3) <= z /\ z <= 3) zs).
    { eapply truncnorm_std_bounds; [|exact Es]. discriminate. }
    apply Forall_forall. intros v Hv. apply in_map_iff in Hv.
    destruct Hv as (z & <- & Hz).
    rewrite Forall_forall in Hb. destruct (Hb z Hz) as [Hlo Hhi].
    split; nra.
Qed.

Ltac bind_inv H :=
  repeat
    (match type of H with
     | rbind ?r _ = Ok _ =>
         let E := fresh "E" in
         destruct r eqn:E; [cbn [rbind] in H | discriminate H]
     | (let '(_, _) := ?p in _) = Ok _ => destruct p
     end).

Lemma twiss_xi_within
      (g g' : rng)
      (en_x en_y a_x a_y b_x b_y ene ene_sp s_t xi_c q_tot n_part
            x_off y_off theta_x theta_y : Q) (b : Bunch.t) :
  get_gaussian_bunch_from_twiss g en_x en_y a_x a_y b_x b_y ene ene_sp s_t
                                xi_c q_tot n_part x_off y_off theta_x theta_y
  = Ok (b, g') ->
  xi_within xi_c (s_t * 1e-15 * ct.c) b.
Proof.
  unfold get_gaussian_bunch_from_twiss. intros H. cbv zeta in H.
  bind_inv H.
  inversion H; subst. unfold xi_within. cbn [Bunch.xi].
  match goal with
  | E : truncnorm_rvs _ _ _ _ _ _ = Ok _ |- _ =>
      exact (truncnorm_rvs_within _ _ _ _ _ _ E)
  end.
Qed.

(** C6.  Every bunch that [get_gaussian_bunch_from_twiss] returns, and so
    every bunch that [get_gaussian_bunch_from_size] and [get_matched_bunch]
    return, has all its [xi] between [xi_c - 3*sigma_z] and
    [xi_c + 3*sigma_z], with [sigma_z = s_t*1e-15*c], for every number of
    particles; the sampler is assumed to draw within its truncation
    bounds. *)
Theorem generated_xi_within_three_sigma
        (g g' : rng)
        (en_x en_y ene ene_sp s_t xi_c q_tot n_part
              x_off y_off theta_x theta_y : Q) (b : Bunch.t) :
  (forall a_x a_y b_x b_y,
      get_gaussian_bunch_from_twiss g en_x en_y a_x a_y b_x b_y ene ene_sp
                                    s_t xi_c q_tot n_part x_off y_off
                                    theta_x theta_y = Ok (b, g') ->
      xi_within xi_c (s_t * 1e-15 * ct.c) b)
  /\ (forall s_x s_y,
         get_gaussian_bunch_from_size g en_x en_y s_x s_y ene ene_sp s_t xi_c
                                      q_tot n_part x_off y_off theta_x theta_y
         = Ok (b, g') ->
         xi_within xi_c (s_t * 1e-15 * ct.c) b)
  /\ (forall n_p k_x,
         get_matched_bunch g en_x en_y ene ene_sp s_t xi_c q_tot n_part
                           x_off y_off theta_x theta_y n_p k_x = Ok (b, g') ->
         xi_within xi_c (s_t * 1e-15 * ct.c) b).
Proof.
  repeat split.
  - intros a_x a_y b_x b_y. apply twiss_xi_within.
  - intros s_x s_y H. unfold get_gaussian_bunch_from_size in H.
    bind_inv H. exact (twiss_xi_within _ _ _ _ _ _ _ _ _ _ _ _ _ _ _ _ _ _ _ H).
  - intros n_p k_x H. unfold get_matched_bunch in H.
    bind_inv H. exact (twiss_xi_within _ _ _ _ _ _ _ _ _ _ _ _ _ _ _ _ _ _ _ H).
Qed.


(** ** The analytic tracker *)

(** What a normal return of the analytic tracker says about its run. *)
Lemma analytic_returns_inv
      (self : Stage.t) (mode : string) (steps : Z)
      (lon_field lon_field_slope foc_strength : pyval)
      (w w' : world) (beam_steps_list : list Bunch.t) :
  PlasmaStage_track_beam_analytically self mode steps lon_field
                                      lon_field_slope foc_strength w
  = (Ok beam_steps_list, w') ->
  exists (EK : list (Q * Q * Q)) (last_beam : Bunch.t),
    analytic_fields self (w_laser w) mode lon_field lon_field_slope
                    foc_strength (Bunch.xi (w_beam w)) = Ok (Some EK)
    /\ steps <> 0%Z
    /\ beam_steps_list
       = map (fun t_i =>
                _get_beam_at_specified_time_step_from_paper_final
                  t_i (w_beam w)
                  (particles (Bunch.x (w_beam w)) (Bunch.y (w_beam w))
                             (Bunch.xi (w_beam w)) (Bunch.px (w_beam w))
                             (Bunch.py (w_beam w)) (Bunch.pz (w_beam w)) EK)
                  (get_group_velocity (w_laser w) (Stage.n_p self) * ct.c))
             (map (fun k => Stage.length self / ct.c / inject_Z steps
                            * (inject_Z k + 1))
                  (np_arange steps))
    /\ py_last beam_steps_list = Ok last_beam
    /\ w' = mkWorld
              (Bunch.increase_prop_distance
                 (Bunch.set_phase_space (w_beam w)
                    (Bunch.x last_beam) (Bunch.y last_beam)
                    (Bunch.xi last_beam) (Bunch.px last_beam)
                    (Bunch.py last_beam) (Bunch.pz last_beam))
                 (Stage.length self))
              (Laser.set_xi_c
                 (Laser.increase_prop_distance (w_laser w) (Stage.length self))
                 (Laser.xi_c (w_laser w)
                  + (get_group_velocity (w_laser w) (Stage.n_p self) * ct.c
                     - ct.c) * (Stage.length self / ct.c)))
              (w_trace w ++ [PoolCreated cpu_count]).
Proof.
  destruct w as [beam laser trace].
  unfold PlasmaStage_track_beam_analytically, bind, lift, get_laser, get_beam,
    ret, raise.
  cbn [w_beam w_laser w_trace].
  destruct (analytic_fields self laser mode lon_field lon_field_slope
                            foc_strength (Bunch.xi beam))
    as [[EK|]|e] eqn:Efields; try discriminate.
  - destruct (Bunch.same_length beam); [|discriminate].
    unfold Pool, raise, emit. destruct (cpu_count <? 1)%Z; [discriminate|].
    cbn [w_beam w_laser w_trace].
    unfold py_div. destruct (Qeq_bool (inject_Z steps) 0) eqn:Esteps;
      [discriminate|].
    unfold commit_last, bind, lift, get_beam, put_beam, put_laser.
    match goal with
    | |- context [py_last ?l] => set (snapshots := l)
    end.
    destruct (py_last snapshots) as [last_beam|e] eqn:Elast; [|discriminate].
    cbn [w_beam w_laser w_trace]. intros H. inversion H; subst; clear H.
    exists EK, last_beam. repeat split; try assumption; try reflexivity.
    intros ->. discriminate.
  - destruct (Bunch.same_length beam); discriminate.
Qed.




Lemma py_last_nonempty {A : Type} (l : list A) (a : A) :
  py_last l = Ok a -> l <> [].
Proof. intros H ->. discriminate. Qed.

Lemma arange_nonempty (n : Z) : np_arange n <> [] -> (1 <= n)%Z.
Proof.
  unfold np_arange. intros H.
  destruct (Z.to_nat n) as [|k] eqn:E; [now contradiction H | lia].
Qed.

(** X1.  When the analytic tracker returns, the laser of the caller has
    advanced by the length of the stage and its centre has slipped by
    [(v_w - c)*t_final], with [v_w] the group velocity at the density of the
    stage times [c] and [t_final = length/c]; amplitude and waist are
    untouched. *)
Theorem analytic_laser_slippage
        (self : Stage.t) (mode : string) (steps : Z)
        (lon_field lon_field_slope foc_strength : pyval)
        (w w' : world) (beam_steps_list : list Bunch.t) :
  PlasmaStage_track_beam_analytically self mode steps lon_field
                                      lon_field_slope foc_strength w
  = (Ok beam_steps_list, w') ->
  Laser.prop_distance (w_laser w')
  = Laser.prop_distance (w_laser w) + Stage.length self
  /\ Laser.xi_c (w_laser w')
     = Laser.xi_c (w_laser w)
       + (get_group_velocity (w_laser w) (Stage.n_p self) * ct.c - ct.c)
         * (Stage.length self / ct.c)
  /\ Laser.a_0 (w_laser w') = Laser.a_0 (w_laser w)
  /\ Laser.w_0 (w_laser w') = Laser.w_0 (w_laser w).
Proof.
  intros H. apply analytic_returns_inv in H.
  destruct H as (EK & last_beam & _ & _ & _ & _ & ->).
  repeat split.
Qed.

(** X2.  The analytic tracker returns only for [steps >= 1], and then it
    returns exactly [steps] snapshots, each with the charges of the input
    bunch, the [k]-th (from 0) with the propagation distance of the input
    bunch plus [(length/c/steps)*(k+1)*c]. *)
Theorem analytic_snapshots
        (self : Stage.t) (mode : string) (steps : Z)
        (lon_field lon_field_slope foc_strength : pyval)
        (w w' : world) (beam_steps_list : list Bunch.t) :
  PlasmaStage_track_beam_analytically self mode steps lon_field
                                      lon_field_slope foc_strength w
  = (Ok beam_steps_list, w') ->
  (1 <= steps)%Z
  /\ length beam_steps_list = Z.to_nat steps
  /\ Forall (fun b => Bunch.q b = Bunch.q (w_beam w)) beam_steps_list
  /\ map Bunch.prop_distance beam_steps_list
     = map (fun k => Bunch.prop_distance (w_beam w)
                     + Stage.length self / ct.c / inject_Z steps
                       * (inject_Z k + 1) * ct.c)
           (np_arange steps).
Proof.
  intros H. apply analytic_returns_inv in H.
  destruct H as (EK & last_beam & _ & _ & Hl & Hlast & _).
  assert (Hsteps : (1 <= steps)%Z).
  { apply py_last_nonempty in Hlast. apply arange_nonempty.
    intros E. apply Hlast. rewrite Hl, E. reflexivity. }
  subst beam_steps_list. repeat split.
  - exact Hsteps.
  - rewrite !length_map. unfold np_arange. now rewrite length_map, length_seq.
  - apply Forall_forall. intros b Hb. apply in_map_iff in Hb.
    destruct Hb as (t_i & <- & _). reflexivity.
  - rewrite !map_map. reflexivity.
Qed.


(** X4.  The analytic tracker opens one pool of [cpu_count()] workers and
    never closes or joins it: however the call ends, the trace of the world
    has grown by nothing or by this one pool, and by the pool when the call
    returns. *)
Theorem analytic_pool_stays_open
        (self : Stage.t) (mode : string) (steps : Z)
        (lon_field lon_field_slope foc_strength : pyval)
        (w w' : world) (r : result (list Bunch.t)) :
  PlasmaStage_track_beam_analytically self mode steps lon_field
                                      lon_field_slope foc_strength w
  = (r, w') ->
  (w_trace w' = w_trace w \/ w_trace w' = w_trace w ++ [PoolCreated cpu_count])
  /\ (is_ok r = true -> w_trace w' = w_trace w ++ [PoolCreated cpu_count]).
Proof.
  destruct r as [l|e].
  - intros H. apply analytic_returns_inv in H.
    destruct H as (EK & last_beam & _ & _ & _ & _ & ->).
    split; [right|intros _]; reflexivity.
  - intros H. split; [|discriminate].
    destruct w as [beam laser trace].
    unfold PlasmaStage_track_beam_analytically, bind, lift, get_laser,
      get_beam, ret, raise in H.
    cbn [w_beam w_laser w_trace] in *.
    destruct (analytic_fields _ _ _ _ _ _ _) as [[EK|]|e0].
    + destruct (Bunch.same_length beam);
        [|inversion H; subst; left; reflexivity].
      unfold Pool, raise, emit in H.
      destruct (cpu_count <? 1)%Z; [inversion H; subst; left; reflexivity|].
      cbn [w_beam w_laser w_trace] in H.
      destruct (py_div _ _); [|inversion H; subst; right; reflexivity].
      unfold commit_last, bind, lift, get_beam, put_beam, put_laser in H.
      destruct (py_last _); [discriminate|].
      inversion H; subst; right; reflexivity.
    + destruct (Bunch.same_length beam);
        inversion H; subst; left; reflexivity.
    + inversion H; subst; left; reflexivity.
Qed.


(** ** Failures and the objects of the caller *)

Lemma same_objects_refl (w : world) : same_objects w w.
Proof. split; reflexivity. Qed.

Lemma same_objects_trans (w1 w2 w3 : world) :
  same_objects w1 w2 -> same_objects w2 w3 -> same_objects w1 w3.
Proof. intros [H1 H2] [H3 H4]. split; congruence. Qed.

Lemma keeps_objects_ret {A : Type} (a : A) : keeps_objects (ret a).
Proof. intros w r w' H. inversion H; subst. apply same_objects_refl. Qed.

Lemma keeps_objects_lift {A : Type} (r : result A) : keeps_objects (lift r).
Proof. intros w r' w' H. inversion H; subst. apply same_objects_refl. Qed.

Lemma keeps_objects_raise {A : Type} (e : exn) : keeps_objects (@raise A e).
Proof. intros w r' w' H. inversion H; subst. apply same_objects_refl. Qed.

Lemma keeps_objects_get_beam : keeps_objects get_beam.
Proof. intros w r' w' H. inversion H; subst. apply same_objects_refl. Qed.

Lemma keeps_objects_get_laser : keeps_objects get_laser.
Proof. intros w r' w' H. inversion H; subst. apply same_objects_refl. Qed.

Lemma keeps_objects_emit (ev : event) : keeps_objects (emit ev).
Proof. intros w r' w' H. inversion H; subst. split; reflexivity. Qed.

Lemma keeps_objects_bind {A B : Type} (m : M A) (k : A -> M B) :
  keeps_objects m -> (forall a, keeps_objects (k a)) ->
  keeps_objects (bind m k).
Proof.
  intros Hm Hk w r w' H. unfold bind in H.
  destruct (m w) as [[a|e] w1] eqn:Em.
  - eapply same_objects_trans; [exact (Hm _ _ _ Em) | exact (Hk _ _ _ _ H)].
  - inversion H; subst. exact (Hm _ _ _ Em).
Qed.

Lemma keeps_objects_Pool (n : Z) : keeps_objects (Pool n).
Proof.
  unfold Pool. destruct (n <? 1)%Z;
    [apply keeps_objects_raise | apply keeps_objects_emit].
Qed.

Lemma keeps_objects_pool_release : keeps_objects pool_release.
Proof.
  unfold pool_release.
  apply keeps_objects_bind; [|intros _]; apply keeps_objects_emit.
Qed.

Lemma keeps_objects_try_finally {A : Type} (body : M A) (cleanup : M unit) :
  keeps_objects body -> keeps_objects cleanup ->
  keeps_objects (try_finally body cleanup).
Proof.
  intros Hb Hc w r w' H. unfold try_finally in H.
  destruct (body w) as [r1 w1] eqn:Eb.
  destruct (cleanup w1) as [[u|e] w2] eqn:Ec; inversion H; subst;
    (eapply same_objects_trans; [exact (Hb _ _ _ Eb) | exact (Hc _ _ _ Ec)]).
Qed.

Lemma raise_safe_of_keeps {A : Type} (m : M A) :
  keeps_objects m -> raise_safe m.
Proof. intros Hm w e w' H. exact (Hm _ _ _ H). Qed.

Lemma raise_safe_bind {A B : Type} (m : M A) (k : A -> M B) :
  keeps_objects m -> (forall a, raise_safe (k a)) -> raise_safe (bind m k).
Proof.
  intros Hm Hk w e w' H. unfold bind in H.
  destruct (m w) as [[a|e1] w1] eqn:Em.
  - eapply same_objects_trans; [exact (Hm _ _ _ Em) | exact (Hk _ _ _ _ H)].
  - inversion H; subst. exact (Hm _ _ _ Em).
Qed.

(** The commit raises only before it writes, and what follows it in the
    trackers cannot raise. *)
Lemma raise_safe_commit_then {B : Type} (beam_list : list Bunch.t)
      (length : Q) (k : unit -> M B) :
  (forall u, never_raises (k u)) ->
  raise_safe (bind (commit_last beam_list length) k).
Proof.
  intros Hk w e w' H. unfold bind, commit_last, bind, lift in H.
  destruct (py_last beam_list) as [last_beam|e0].
  - cbn in H. match type of H with
              | k ?u ?w1 = _ => specialize (Hk u w1); rewrite H in Hk
              end.
    discriminate.
  - inversion H; subst. apply same_objects_refl.
Qed.

Lemma never_raises_ret {A : Type} (a : A) : never_raises (ret a).
Proof. intros w. reflexivity. Qed.

Ltac keep_objects_step :=
  first
    [ apply keeps_objects_ret | apply keeps_objects_lift
    | apply keeps_objects_raise | apply keeps_objects_get_beam
    | apply keeps_objects_get_laser | apply keeps_objects_emit
    | apply keeps_objects_Pool | apply keeps_objects_pool_release
    | apply keeps_objects_try_finally
    | match goal with
      | |- keeps_objects (bind _ _) =>
          apply keeps_objects_bind; [ | intros ? ]
      | |- keeps_objects (if ?b then _ else _) => destruct b
      end ].

Ltac raise_safe_prefix :=
  repeat match goal with
         | |- raise_safe (bind _ _) =>
             apply raise_safe_bind;
             [solve [repeat keep_objects_step] | intros ?]
         end.

Lemma raise_safe_rk_parallel_body
      (length : Q) (steps : Z) (n_proc : option Z) (WF : option wakefield)
      (get_optimized_dt : Bunch.t -> wakefield -> result npfloat)
      (auto_update : bool) :
  raise_safe (rk_parallel_body length steps n_proc WF get_optimized_dt
                               auto_update).
Proof.
  unfold rk_parallel_body. raise_safe_prefix.
  apply raise_safe_commit_then. intros u. apply never_raises_ret.
Qed.

(** X5.  A tracking call that raises, numerical or analytic, on a stage or
    on a ramp, leaves the bunch and the laser of the caller exactly as they
    were: every write happens after the last point of failure. *)
Theorem tracking_failure_leaves_objects
        (c : tracking_call) (w w' : world) (e : exn) :
  run_call c w = (Raise e, w') ->
  w_beam w' = w_beam w /\ w_laser w' = w_laser w.
Proof.
  assert (Hsafe : raise_safe (run_call c)); [|exact (Hsafe w e w')].
  destruct c as [self mode steps o | self mode steps lf lfs fs
                 | self steps non_rel n_proc]; cbn [run_call].
  - unfold PlasmaStage_track_beam_numerically_RK_parallel.
    raise_safe_prefix. apply raise_safe_rk_parallel_body.
  - unfold PlasmaStage_track_beam_analytically.
    raise_safe_prefix.
    apply raise_safe_commit_then. intros u w0.
    unfold bind, get_laser, put_laser, ret. reflexivity.
  - unfold PlasmaRamp_track_beam_numerically_RK_parallel.
    raise_safe_prefix. apply raise_safe_rk_parallel_body.
Qed.


(** ** Modes that no branch handles *)

Lemma eqb_of_not_in (mode : string) (names : list string) :
  ~ In mode names -> Forall (fun n => String.eqb mode n = false) names.
Proof.
  intros H. apply Forall_forall. intros n Hn. apply String.eqb_neq.
  intros ->. exact (H Hn).
Qed.

Lemma py_div_by_zero_steps (a : Q) :
  py_div a (inject_Z 0) = Raise ZeroDivisionError.
Proof. reflexivity. Qed.

Lemma py_div_nonzero (a : Q) (z : Z) :
  z <> 0%Z -> py_div a (inject_Z z) = Ok (a / inject_Z z).
Proof.
  intros Hz. unfold py_div.
  destruct (Qeq_bool (inject_Z z) 0) eqn:E; [|reflexivity].
  apply Qeq_bool_iff in E. unfold Qeq in E. cbn in E. lia.
Qed.

(** X6.  The analytic tracker has no method to read Osiris output: with
    [mode='FromOsiris2D'] or [mode='FromOsiris3D'] it raises
    [AttributeError] for every stage, bunch, laser and [steps], and the
    world is left as it was. *)
Theorem analytic_osiris_modes_raise
        (self : Stage.t) (steps : Z)
        (lon_field lon_field_slope foc_strength : pyval) (w : world) :
  PlasmaStage_track_beam_analytically self "FromOsiris2D" steps lon_field
                                      lon_field_slope foc_strength w
  = (Raise AttributeError, w)
  /\ PlasmaStage_track_beam_analytically self "FromOsiris3D" steps lon_field
                                         lon_field_slope foc_strength w
     = (Raise AttributeError, w).
Proof. destruct w as [beam laser trace]. split; reflexivity. Qed.

(** X7.  A mode that the analytic tracker does not know leaves [E], [E_p]
    and [K] unassigned: on a bunch whose six arrays have one length the
    call raises [UnboundLocalError], whatever [steps] is, before any pool
    is opened, and the world is left as it was. *)
Theorem analytic_unknown_mode_raises
        (self : Stage.t) (mode : string) (steps : Z)
        (lon_field lon_field_slope foc_strength : pyval) (w : world) :
  ~ In mode ["Blowout"; "CustomBlowout"; "Linear"; "LinearAlberto";
             "FromOsiris2D"; "FromOsiris3D"] ->
  Bunch.same_length (w_beam w) = true ->
  PlasmaStage_track_beam_analytically self mode steps lon_field
                                      lon_field_slope foc_strength w
  = (Raise UnboundLocalError, w).
Proof.
  intros Hmode Hsame. apply eqb_of_not_in in Hmode.
  repeat match goal with
         | H : Forall _ (_ :: _) |- _ =>
             let E := fresh "E" in
             inversion H as [|? ? E ?]; subst; clear H
         end.
  destruct w as [beam laser trace].
  unfold PlasmaStage_track_beam_analytically, analytic_fields, bind, lift,
    get_laser, get_beam, ret, raise.
  cbn [w_beam w_laser w_trace].
  repeat match goal with E : String.eqb mode _ = false |- _ =>
                           rewrite E; clear E end.
  cbn [w_beam] in Hsame. rewrite Hsame. reflexivity.
Qed.

(** X8.  A mode that the numerical tracker of the stage does not know
    builds no field: the call raises [ZeroDivisionError] for [steps = 0]
    and [UnboundLocalError] otherwise, and the world is left as it was. *)
Theorem stage_unknown_mode_raises
        (self : Stage.t) (mode : string) (steps : Z) (o : stage_options)
        (w : world) :
  ~ In mode ["Blowout"; "CustomBlowout"; "FromPICCode"] ->
  PlasmaStage_track_beam_numerically_RK_parallel self mode steps o w
  = (Raise (if (steps =? 0)%Z then ZeroDivisionError else UnboundLocalError),
     w).
Proof.
  intros Hmode. apply eqb_of_not_in in Hmode.
  repeat match goal with
         | H : Forall _ (_ :: _) |- _ =>
             let E := fresh "E" in
             inversion H as [|? ? E ?]; subst; clear H
         end.
  destruct w as [beam laser trace].
  unfold PlasmaStage_track_beam_numerically_RK_parallel, rk_parallel_body,
    bind, lift, get_laser, get_beam, ret, raise.
  cbn [w_beam w_laser w_trace].
  repeat match goal with E : String.eqb mode _ = false |- _ =>
                           rewrite E; clear E end.
  cbn [w_beam w_laser w_trace].
  destruct (Z.eqb_spec steps 0) as [->|Hnz].
  - rewrite py_div_by_zero_steps. reflexivity.
  - rewrite (py_div_nonzero _ _ Hnz). reflexivity.
Qed.

(** ** The step plan *)





(** ** The body of the numerical trackers *)

Lemma rk_parallel_body_returns_inv
      (len : Q) (steps : Z) (n_proc : option Z) (WF : option wakefield)
      (get_optimized_dt : Bunch.t -> wakefield -> result npfloat)
      (auto_update : bool) (w w' : world) (beam_list : list Bunch.t) :
  rk_parallel_body len steps n_proc WF get_optimized_dt auto_update w
  = (Ok beam_list, w') ->
  let num_proc := match n_proc with None => cpu_count | Some n => n end in
  exists (WF0 : wakefield) (plan : step_plan) (ppp : Z) (last_beam : Bunch.t),
    WF = Some WF0
    /\ steps <> 0%Z
    /\ (1 <= num_proc)%Z
    /\ tracking_loop (w_beam w) (Bunch.get_6D_matrix (w_beam w)) WF0
                     auto_update plan (len / ct.c / inject_Z steps)
                     steps num_proc ppp = Ok beam_list
    /\ py_last beam_list = Ok last_beam
    /\ w' = mkWorld
              (Bunch.increase_prop_distance
                 (Bunch.set_phase_space (w_beam w)
                    (Bunch.x last_beam) (Bunch.y last_beam)
                    (Bunch.xi last_beam) (Bunch.px last_beam)
                    (Bunch.py last_beam) (Bunch.pz last_beam))
                 len)
              (w_laser w)
              (w_trace w ++ [PoolCreated num_proc; PoolClosed; PoolJoined]).
Proof.
  destruct w as [beam laser trace]. intros H num_proc.
  unfold rk_parallel_body, bind, lift, get_beam, ret in H.
  cbn [w_beam w_laser w_trace] in *. fold num_proc in H.
  unfold py_div in H at 1.
  destruct (Qeq_bool (inject_Z steps) 0) eqn:Esteps; [discriminate|].
  destruct WF as [WF0|]; [|discriminate].
  destruct (get_optimized_dt beam WF0) as [dt|e]; [|discriminate].
  destruct (plan_steps _ steps dt) as [plan|e]; [|discriminate].
  destruct (part_per_proc _ num_proc) as [ppp|e]; [|discriminate].
  unfold Pool, raise, emit in H.
  destruct (Z.ltb_spec num_proc 1) as [Hlt|Hge]; [discriminate|].
  unfold try_finally, pool_release, bind, emit, lift in H.
  cbn [w_beam w_laser w_trace] in H.
  destruct (tracking_loop _ _ _ _ _ _ _ _ _) as [l|e] eqn:Eloop;
    [|discriminate].
  unfold commit_last, bind, lift, get_beam, put_beam in H.
  destruct (py_last l) as [last_beam|e] eqn:Elast; [|discriminate].
  cbn [w_beam w_laser w_trace] in H. inversion H; subst; clear H.
  exists WF0, plan, ppp, last_beam.
  repeat split; try assumption.
  - intros ->. discriminate.
  - now rewrite <- !app_assoc.
Qed.

Lemma output_steps_snapshots
      (beam : Bunch.t) (au : bool) (plan : step_plan) (t_step : Q)
      (ss : list Z) (st st' : wakefield * list matrix * list Bunch.t) :
  output_steps beam au plan t_step st ss = Ok st' ->
  map Bunch.prop_distance (snd st')
  = map Bunch.prop_distance (snd st)
    ++ map (fun s => Bunch.prop_distance beam
                     + (inject_Z s + 1) * t_step * ct.c) ss
  /\ (Forall (fun b => Bunch.q b = Bunch.q beam) (snd st) ->
      Forall (fun b => Bunch.q b = Bunch.q beam) (snd st')).
Proof.
  revert st. induction ss as [|s ss IH]; intros st H; cbn in H.
  - inversion H; subst. cbn. rewrite app_nil_r. auto.
  - destruct (output_step beam au plan t_step st s) as [st1|e] eqn:E;
      [|discriminate].
    cbn in H. destruct (IH _ H) as [IH1 IH2]. clear IH H.
    destruct st as [[WF ml] bl]. unfold output_step in E.
    destruct (if au then _ else _) as [WF1|e]; [|discriminate].
    cbn [rbind] in E.
    destruct (map_result _ ml) as [ml1|e]; [|discriminate].
    cbn [rbind] in E.
    destruct (np_concatenate_axis1 ml1) as [bm|e]; [|discriminate].
    cbn [rbind] in E.
    destruct bm as [|x [|px [|y [|py [|xi [|pz [|? ?]]]]]]];
      try discriminate.
    inversion E; subst st1; clear E. cbn [snd] in *.
    split.
    + rewrite IH1, map_app. cbn. now rewrite <- app_assoc.
    + intros Hq. apply IH2. apply Forall_app. split; [exact Hq|].
      repeat constructor.
Qed.

(** X11.  Lines 166-220, shared by the two numerical trackers, whatever
    method gives the time step: when they return, there are exactly
    [steps >= 1] snapshots, each with the charges of the input bunch, the
    one of pass [s] with the propagation distance of the input bunch plus
    [(s+1)*t_step*c]; and the bunch of the caller holds the coordinate
    arrays of the last one. *)
Theorem numerical_body_snapshots
        (len : Q) (steps : Z) (n_proc : option Z) (WF : option wakefield)
        (get_optimized_dt : Bunch.t -> wakefield -> result npfloat)
        (auto_update : bool) (w w' : world) (beam_list : list Bunch.t) :
  rk_parallel_body len steps n_proc WF get_optimized_dt auto_update w
  = (Ok beam_list, w') ->
  (1 <= steps)%Z
  /\ length beam_list = Z.to_nat steps
  /\ Forall (fun b => Bunch.q b = Bunch.q (w_beam w)) beam_list
  /\ map Bunch.prop_distance beam_list
     = map (fun s => Bunch.prop_distance (w_beam w)
                     + (inject_Z s + 1) * (len / ct.c / inject_Z steps) * ct.c)
           (np_arange steps)
  /\ (exists last_beam,
         py_last beam_list = Ok last_beam
         /\ Bunch.get_6D_matrix (w_beam w') = Bunch.get_6D_matrix last_beam).
Proof.
  intros H. apply rk_parallel_body_returns_inv in H. cbv zeta in H.
  destruct H as (WF0 & plan & ppp & last_beam & _ & _ & _ & Hloop & Hlast & ->).
  pose proof (tracking_loop_length _ _ _ _ _ _ _ _ _ _ Hloop) as Hlen.
  unfold tracking_loop in Hloop.
  destruct (output_steps _ _ _ _ _ _) as [st|e] eqn:Est; [|discriminate].
  cbn in Hloop. inversion Hloop; subst beam_list; clear Hloop.
  destruct (output_steps_snapshots _ _ _ _ _ _ _ Est) as [Hpd Hq].
  cbn [snd map app] in Hpd, Hq.
  assert (Hsteps : (1 <= steps)%Z).
  { apply py_last_nonempty in Hlast.
    destruct (snd st); [contradiction|]. cbn in Hlen. lia. }
  repeat split; try assumption.
  - apply Hq. constructor.
  - exists last_beam. split; [exact Hlast | reflexivity].
Qed.

(** X12.  Lines 166-220 never leave a pool behind: however the body ends,
    whatever the field, the time step method and the integrator do, the
    trace has grown by nothing (the failure came before the pool) or by one
    pool of [num_proc] workers followed by its close and its join. *)
Theorem numerical_body_releases_pool
        (len : Q) (steps : Z) (n_proc : option Z) (WF : option wakefield)
        (get_optimized_dt : Bunch.t -> wakefield -> result npfloat)
        (auto_update : bool) (w w' : world) (r : result (list Bunch.t)) :
  rk_parallel_body len steps n_proc WF get_optimized_dt auto_update w
  = (r, w') ->
  let num_proc := match n_proc with None => cpu_count | Some n => n end in
  w_trace w' = w_trace w
  \/ w_trace w'
     = w_trace w ++ [PoolCreated num_proc; PoolClosed; PoolJoined].
Proof.
  destruct w as [beam laser trace]. intros H num_proc.
  unfold rk_parallel_body, bind, lift, get_beam, ret in H.
  cbn [w_beam w_laser w_trace] in *. fold num_proc in H.
  destruct (py_div _ (inject_Z steps)); [|inversion H; now left].
  destruct WF as [WF0|]; [|inversion H; now left].
  destruct (get_optimized_dt beam WF0) as [dt|e]; [|inversion H; now left].
  destruct (plan_steps _ steps dt) as [plan|e]; [|inversion H; now left].
  destruct (part_per_proc _ num_proc) as [ppp|e]; [|inversion H; now left].
  unfold Pool, raise, emit in H.
  destruct (num_proc <? 1)%Z; [inversion H; now left|].
  unfold try_finally, pool_release, bind, emit, lift in H.
  cbn [w_beam w_laser w_trace] in H.
  destruct (tracking_loop _ _ _ _ _ _ _ _ _) as [l|e].
  - unfold commit_last, bind, lift, get_beam, put_beam in H.
    destruct (py_last l) as [last_beam|e];
      cbn [w_beam w_laser w_trace] in H; inversion H; subst; right;
        cbn [w_trace]; now rewrite <- !app_assoc.
  - inversion H; subst; right; cbn [w_trace]; now rewrite <- !app_assoc.
Qed.


(** ** The field classes *)

Lemma nth_zip_with {A B C : Type} (f : A -> B -> C) (l : list A)
      (m : list B) (i : nat) (da : A) (db : B) (dc : C) :
  (i < length l)%nat -> length m = length l ->
  nth i (zip_with f l m) dc = f (nth i l da) (nth i m db).
Proof.
  revert m i. induction l as [|a l IH]; intros [|b m] [|i] Hi Hm;
    cbn in *; try lia; try reflexivity.
  apply IH; lia.
Qed.



Lemma nth_map_in {A B : Type} (f : A -> B) (l : list A) (i : nat)
      (da : A) (db : B) :
  (i < length l)%nat -> nth i (map f l) db = f (nth i l da).
Proof.
  revert i. induction l as [|a l IH]; intros [|i] Hi; cbn in *;
    try lia; try reflexivity.
  apply IH. lia.
Qed.

Lemma map_result_map {A B : Type} (f : A -> result B) (g : A -> B)
      (l : list A) :
  (forall a, f a = Ok (g a)) -> map_result f l = Ok (map g l).
Proof.
  intros Hf. induction l as [|a l IH]; cbn; [reflexivity|].
  now rewrite Hf, IH.
Qed.


(** X14.  With a callable density the field of the ramp is purely
    transverse and linear: [Wz] is zero at every particle, [Kx] has one
    entry per particle, and [Wx = c*Kx*x], [Wy = c*Kx*y] particle by
    particle. *)
Theorem ramp_field_is_linear_focusing
        (density : Q -> Q) (x y xi px py pz q gamma : array) (t : Q)
        (n i : nat) :
  length x = n -> length y = n -> length xi = n -> (i < n)%nat ->
  let self := mkRampField (PyFun density) in
  exists kx wx wy : array,
    PlasmaRampBlowoutField_Kx self x y xi px py pz q gamma t = Ok kx
    /\ PlasmaRampBlowoutField_Wx self x y xi px py pz q gamma t = Ok wx
    /\ PlasmaRampBlowoutField_Wy self x y xi px py pz q gamma t = Ok wy
    /\ PlasmaRampBlowoutField_Wz self x y xi px py pz q gamma t
       = Ok (repeat 0 n)
    /\ length kx = n
    /\ nth i wx 0 == ct.c * nth i kx 0 * nth i x 0
    /\ nth i wy 0 == ct.c * nth i kx 0 * nth i y 0.
Proof.
  intros Hx Hy Hxi Hi self.
  set (K := fun xi_i =>
              let z := t * ct.c + xi_i in
              let w_p := np_sqrt (density z * ct.e ^ 2
                                  / (ct.m_e * ct.epsilon_0)) in
              ct.m_e / (2 * ct.e * ct.c) * w_p ^ 2).
  assert (HK : map_result (fun xi_i => calculate_focusing self xi_i t) xi
               = Ok (map K xi)).
  { apply map_result_map. intros a. reflexivity. }
  unfold PlasmaRampBlowoutField_Kx, PlasmaRampBlowoutField_Wx,
    PlasmaRampBlowoutField_Wy, PlasmaRampBlowoutField_Wz.
  rewrite HK. cbn [rbind].
  eexists. eexists. eexists.
  split; [reflexivity|]. split; [reflexivity|]. split; [reflexivity|].
  split.
  { f_equal. rewrite <- Hxi. clear. induction xi as [|a l IH]; cbn;
      [reflexivity | now rewrite IH]. }
  split; [now rewrite !length_map|].
  rewrite (nth_zip_with _ (map K xi) x i 0 0 0)
    by (rewrite length_map; lia).
  rewrite (nth_zip_with _ (map K xi) y i 0 0 0)
    by (rewrite length_map; lia).
  rewrite map_map.
  rewrite (nth_map_in (fun x0 => 1 * K x0) xi i 0 0) by lia.
  rewrite (nth_map_in K xi i 0 0) by lia.
  split; ring.
Qed.




(** ** The cache of the cold-fluid model *)

Lemma Qeq_bool_same (t : Q) : Qeq_bool t t = true.
Proof. apply Qeq_bool_iff. reflexivity. Qed.

Lemma calculate_wakefields_sets_time
      (self s1 : NonLinearColdFluidWakefield)
      (x y xi px py pz q gamma : array) (t : Q) :
  __calculate_wakefields self x y xi px py pz q gamma t = Ok s1 ->
  Qeq_bool (nl_current_t s1) t = true.
Proof.
  unfold __calculate_wakefields.
  destruct (Qeq_bool (nl_current_t self) t) eqn:Et.
  { intros H. inversion H; subst. exact Et. }
  destruct (_ && _).
  { intros H. inversion H; subst. apply Qeq_bool_same. }
  intros H. bind_inv H.
  repeat match type of H with
         | (let '(_, _) := ?p in _) = Ok _ => destruct p
         end.
  bind_inv H. inversion H; subst. apply Qeq_bool_same.
Qed.

(** X17.  The cold-fluid fields are computed at most once per time value:
    after a call of [__calculate_wakefields] at time [t] has returned, a
    second call at the same [t] returns the object unchanged, whatever beam
    it is given. *)
Theorem cold_fluid_fields_cached_per_time
        (self s1 : NonLinearColdFluidWakefield)
        (x y xi px py pz q gamma x' y' xi' px' py' pz' q' gamma' : array)
        (t : Q) :
  __calculate_wakefields self x y xi px py pz q gamma t = Ok s1 ->
  __calculate_wakefields s1 x' y' xi' px' py' pz' q' gamma' t = Ok s1.
Proof.
  intros H. apply calculate_wakefields_sets_time in H.
  unfold __calculate_wakefields. now rewrite H.
Qed.

(** X18.  With a driver that does not evolve, a new time value at which
    the density at the centre of a beam of one particle or more equals the
    cached one recomputes nothing: the call returns, only [current_t]
    changes, the three interpolators are the old ones, and the beam
    histogram is never asked for. *)
Theorem cold_fluid_uniform_plasma_keeps_fields
        (self : NonLinearColdFluidWakefield)
        (x y xi px py pz q gamma : array) (t n0 : Q) :
  xi <> [] ->
  nl_driver_evolution self = false ->
  nl_current_n_p self = Some n0 ->
  nl_density_function self (t * ct.c + np_mean xi) == n0 ->
  exists s1 : NonLinearColdFluidWakefield,
    __calculate_wakefields self x y xi px py pz q gamma t = Ok s1
    /\ nl_E_z s1 = nl_E_z self
    /\ nl_W_x s1 = nl_W_x self
    /\ nl_K_x s1 = nl_K_x self
    /\ nl_current_n_p s1 = nl_current_n_p self
    /\ Qeq_bool (nl_current_t s1) t = true.
Proof.
  intros _ Hev Hn Hdens. unfold __calculate_wakefields.
  destruct (Qeq_bool (nl_current_t self) t) eqn:Et.
  - exists self. repeat split. exact Et.
  - rewrite Hn, Hev. apply Qeq_bool_iff in Hdens. rewrite Hdens.
    cbn [andb negb]. eexists. split; [reflexivity|].
    cbn. repeat split. apply Qeq_bool_same.
Qed.

(** X19.  A recomputation on a degenerate grid stops before any field is
    built: with a new time value and no cached density, a negative [n_r]
    raises [ValueError], and a zero [n_xi] (with [n_r >= 0]) or a zero
    [n_r] (with [n_xi] not zero) raises [ZeroDivisionError]. *)
Theorem cold_fluid_degenerate_grid_raises
        (self : NonLinearColdFluidWakefield)
        (x y xi px py pz q gamma : array) (t : Q) :
  Qeq_bool (nl_current_t self) t = false ->
  nl_current_n_p self = None ->
  ((nl_n_r self < 0)%Z ->
   __calculate_wakefields self x y xi px py pz q gamma t = Raise ValueError)
  /\ ((0 <= nl_n_r self)%Z -> nl_n_xi self = 0%Z ->
      __calculate_wakefields self x y xi px py pz q gamma t
      = Raise ZeroDivisionError)
  /\ (nl_n_r self = 0%Z -> nl_n_xi self <> 0%Z ->
      __calculate_wakefields self x y xi px py pz q gamma t
      = Raise ZeroDivisionError).
Proof.
  intros Ht Hn. unfold __calculate_wakefields. rewrite Ht, Hn.
  cbn [andb]. unfold np_linspace. repeat split.
  - intros Hr. destruct (Z.ltb_spec (nl_n_r self) 0); [reflexivity | lia].
  - intros Hr Hxi. destruct (Z.ltb_spec (nl_n_r self) 0); [lia|].
    cbn [rbind]. now rewrite Hxi.
  - intros Hr Hxi. rewrite Hr. cbn [Z.ltb Z.compare rbind].
    rewrite py_div_nonzero by exact Hxi. reflexivity.
Qed.


(** ** Generated bunches *)



Lemma np_random_normal_size (g g' : rng) (loc scale : Q) (size : Z)
      (s : array) :
  np_random_normal g loc scale size = Ok (s, g') ->
  (0 <= size)%Z /\ length s = Z.to_nat size.
Proof.
  unfold np_random_normal. destruct (Qlt_le_dec scale 0); [discriminate|].
  destruct (standard_normal g size) as [[zs g1]|e] eqn:E; [|discriminate].
  cbn. intros H. inversion H; subst.
  destruct (standard_normal_size _ _ _ _ E) as [H0 H1].
  now rewrite length_map.
Qed.

Lemma truncnorm_rvs_size (g g' : rng) (a b loc scale : Q) (size : Z)
      (s : array) :
  truncnorm_rvs g a b loc scale size = Ok (s, g') ->
  (0 <= size)%Z /\ length s = Z.to_nat size.
Proof.
  unfold truncnorm_rvs. destruct (Qlt_le_dec scale 0); [discriminate|].
  destruct (Qeq_bool scale 0).
  - destruct (Z.ltb_spec size 0) as [Hneg|Hnn]; [discriminate|].
    intros H. inversion H; subst. now rewrite repeat_length.
  - destruct (truncnorm_std g a b size) as [[zs g1]|e] eqn:E; [|discriminate].
    cbn. intros H. inversion H; subst.
    destruct (truncnorm_std_size _ _ _ _ _ _ E) as [H0 H1].
    now rewrite length_map.
Qed.

Ltac twiss_open H :=
  unfold get_gaussian_bunch_from_twiss in H; cbv zeta in H;
  bind_inv H; inversion H; subst; clear H.


(** X21.  Every bunch that [get_gaussian_bunch_from_twiss] returns is well
    formed: the charge array and the six coordinate arrays all have
    [int(n_part)] entries. *)
Theorem twiss_bunch_arrays_have_n_part_entries
        (g g' : rng)
        (en_x en_y a_x a_y b_x b_y ene ene_sp s_t xi_c q_tot n_part
              x_off y_off theta_x theta_y : Q) (b : Bunch.t) :
  get_gaussian_bunch_from_twiss g en_x en_y a_x a_y b_x b_y ene ene_sp s_t
                                xi_c q_tot n_part x_off y_off theta_x theta_y
  = Ok (b, g') ->
  Forall (fun a => length a = Z.to_nat (py_int n_part))
         [Bunch.q b; Bunch.x b; Bunch.y b; Bunch.xi b; Bunch.px b;
          Bunch.py b; Bunch.pz b]
  /\ Bunch.same_length b = true.
Proof.
  intros H. twiss_open H.
  repeat match goal with
         | E : standard_normal _ _ = Ok _ |- _ =>
             apply standard_normal_size in E; destruct E as [_ ?]
         | E : np_random_normal _ _ _ _ = Ok _ |- _ =>
             apply np_random_normal_size in E; destruct E as [_ ?]
         | E : truncnorm_rvs _ _ _ _ _ _ = Ok _ |- _ =>
             apply truncnorm_rvs_size in E; destruct E as [_ ?]
         end.
  cbn [Bunch.q Bunch.x Bunch.y Bunch.xi Bunch.px Bunch.py Bunch.pz
       Bunch.same_length forallb].
  split.
  - repeat constructor;
      rewrite ?repeat_length, ?length_map, ?length_zip_with, ?length_map,
        ?length_zip_with; lia.
  - rewrite ?length_map, ?length_zip_with, ?length_map, ?length_zip_with.
    repeat match goal with
           | L : length _ = Z.to_nat _ |- _ => rewrite L; clear L
           end.
    now rewrite ?Nat.min_id, ?Nat.eqb_refl.
Qed.




(** ** Bunches read from a file *)






(** X25.  A file whose charges add up to zero, or whose [z] and [q] arrays
    differ in length, gives no bunch: [np.average] raises
    [ZeroDivisionError] in the first case and [TypeError] in the second. *)
Theorem file_bunch_bad_weights_raise
        (file_path code_name : string) (preserve_prop_dist : bool)
        (x y z px py pz q : array) :
  read_beam code_name file_path = Ok (x, y, z, px, py, pz, q) ->
  length z <> length q \/ np_sum q == 0 ->
  exists e : exn,
    get_from_file file_path code_name preserve_prop_dist = Raise e
    /\ (length z <> length q -> e = TypeError)
    /\ (length z = length q -> e = ZeroDivisionError).
Proof.
  intros Hread Hbad. unfold get_from_file. rewrite Hread. cbn [rbind].
  unfold np_average_w.
  destruct (Nat.eqb_spec (length z) (length q)) as [Hlen|Hlen]; cbn [negb].
  - destruct Hbad as [Hbad|Hbad]; [contradiction|].
    apply Qeq_bool_iff in Hbad. rewrite Hbad. cbn [rbind].
    eexists. split; [reflexivity|]. split; [contradiction|reflexivity].
  - cbn [rbind]. eexists. split; [reflexivity|].
    split; [reflexivity|contradiction].
Qed.

(** ** The time steps of a PIC simulation *)

Lemma first_index_from_nodup (a : list Z) (v : Z) (i k : nat) :
  NoDup a -> nth_error a k = Some v ->
  first_index_from i a v = Some (i + k)%nat.
Proof.
  revert i k. induction a as [|z a IH]; intros i k Hnd Hk.
  - destruct k; discriminate.
  - inversion Hnd as [|? ? Hnotin Hnd']; subst. destruct k as [|k].
    + cbn in Hk. inversion Hk; subst. cbn. rewrite Z.eqb_refl.
      f_equal. lia.
    + cbn in Hk. cbn [first_index_from].
      destruct (Z.eqb_spec z v) as [->|_].
      * exfalso. apply Hnotin. eapply nth_error_In; eassumption.
      * rewrite (IH (S i) k Hnd' Hk). f_equal. lia.
Qed.

Lemma first_index_from_absent (a : list Z) (v : Z) (i : nat) :
  ~ In v a -> first_index_from i a v = None.
Proof.
  revert i. induction a as [|z a IH]; intros i Hnot; [reflexivity|].
  cbn [first_index_from]. destruct (Z.eqb_spec z v) as [->|_].
  - exfalso. apply Hnot. now left.
  - apply IH. intros Hin. apply Hnot. now right.
Qed.

Lemma py_index_inv {A : Type} (l : list A) (i : nat) (a : A) :
  py_index l i = Ok a -> nth_error l i = Some a.
Proof.
  unfold py_index. destruct (nth_error l i); [|discriminate].
  intros H. now inversion H.
Qed.

Lemma py_last_filter_seq (f : nat -> bool) (n i : nat) :
  py_last (filter f (seq 0 n)) = Ok i ->
  (i < n)%nat /\ f i = true
  /\ forall j, (i < j < n)%nat -> f j = false.
Proof.
  induction n as [|n IH]; [discriminate|].
  rewrite seq_S, filter_app. cbn [plus filter].
  destruct (f n) eqn:Efn.
  - unfold py_last. rewrite rev_app_distr. cbn. intros H.
    inversion H; subst. repeat split; [lia|assumption|]. intros j Hj. lia.
  - rewrite app_nil_r. intros H. destruct (IH H) as (Hi & Hfi & Hlater).
    repeat split; [lia|assumption|]. intros j Hj.
    destruct (Nat.eq_dec j n) as [->|Hne]; [assumption|].
    apply Hlater. lia.
Qed.

(** What a call of [check_if_update_fields] that returns has done: nothing,
    or one reload at the requested index, which lies beyond the current one
    in the direction of tracking. *)
Lemma check_if_update_fields_inv (self s1 : pic_schedule) (time : Q) :
  WakefieldFromPICSimulation_check_if_update_fields self time = Ok s1 ->
  s1 = self
  \/ exists (req cur : nat) (ts : Z),
      (1 < length (np_where_lt (timesteps_in_sec self) time))%nat
      /\ (if reverse_tracking self
          then py_index (np_where_lt (timesteps_in_sec self) time) 0
          else py_last (np_where_lt (timesteps_in_sec self) time)) = Ok req
      /\ np_where_eq_first (timesteps self) (current_ts self) = Ok cur
      /\ (if reverse_tracking self then req < cur else cur < req)%nat
      /\ nth_error (timesteps self) req = Some ts
      /\ s1 = reload_at self ts.
Proof.
  unfold WakefieldFromPICSimulation_check_if_update_fields.
  destruct (Nat.ltb_spec 1
              (length (np_where_lt (timesteps_in_sec self) time)))
    as [Hlen|_].
  2: { intros H. inversion H. now left. }
  destruct (reverse_tracking self); cbn [negb]; intros H; bind_inv H.
  - match goal with
    | _ : context[Nat.ltb ?a ?b] |- _ =>
        destruct (Nat.ltb_spec a b) as [Hlt|_]
    end.
    + bind_inv H. inversion H; subst. right.
      do 3 eexists. repeat split; try eassumption.
      now apply py_index_inv.
    + inversion H. now left.
  - match goal with
    | _ : context[Nat.ltb ?a ?b] |- _ =>
        destruct (Nat.ltb_spec a b) as [Hlt|_]
    end.
    + bind_inv H. inversion H; subst. right.
      do 3 eexists. repeat split; try eassumption.
      now apply py_index_inv.
    + inversion H. now left.
Qed.

(** X26.  Asking twice changes nothing: when the time steps of the
    simulation are distinct, a second call of [check_if_update_fields] with
    the same time returns the object of the first call unchanged, so the
    fields are loaded at most once per time. *)
Theorem pic_update_is_idempotent (self s1 : pic_schedule) (time : Q) :
  NoDup (timesteps self) ->
  WakefieldFromPICSimulation_check_if_update_fields self time = Ok s1 ->
  WakefieldFromPICSimulation_check_if_update_fields s1 time = Ok s1.
Proof.
  intros Hnd H.
  destruct (check_if_update_fields_inv _ _ _ H)
    as [->|(req & cur & ts & Hlen & Hreq & Hcur & Hdir & Hts & ->)];
    [exact H|].
  unfold WakefieldFromPICSimulation_check_if_update_fields.
  cbn [reload_at timesteps timesteps_in_sec current_ts reverse_tracking].
  apply Nat.ltb_lt in Hlen. rewrite Hlen.
  assert (Hnew : np_where_eq_first (timesteps self) ts = Ok req).
  { unfold np_where_eq_first.
    now rewrite (first_index_from_nodup _ _ 0 req Hnd Hts). }
  destruct (reverse_tracking self); cbn [negb];
    rewrite Hreq; cbn [rbind]; rewrite Hnew; cbn [rbind];
    now rewrite Nat.ltb_irrefl.
Qed.

(** X27.  The loaded time step moves only in the direction of tracking:
    with distinct time steps, a call that returns leaves the lists of time
    steps as they were, and the index of the current time step has not
    decreased in forward tracking and not increased in reverse tracking;
    the fields were reloaded once if the index moved, and not at all
    otherwise. *)
Theorem pic_update_moves_one_way
        (self s1 : pic_schedule) (time : Q) (cur : nat) :
  NoDup (timesteps self) ->
  np_where_eq_first (timesteps self) (current_ts self) = Ok cur ->
  WakefieldFromPICSimulation_check_if_update_fields self time = Ok s1 ->
  timesteps s1 = timesteps self
  /\ timesteps_in_sec s1 = timesteps_in_sec self
  /\ reverse_tracking s1 = reverse_tracking self
  /\ exists cur' : nat,
      np_where_eq_first (timesteps s1) (current_ts s1) = Ok cur'
      /\ (if reverse_tracking self then cur' <= cur else cur <= cur')%nat
      /\ (cur' = cur -> s1 = self)
      /\ (cur' <> cur -> field_loads s1 = S (field_loads self)).
Proof.
  intros Hnd Hcur H.
  destruct (check_if_update_fields_inv _ _ _ H)
    as [->|(req & cur0 & ts & Hlen & Hreq & Hcur0 & Hdir & Hts & ->)].
  - repeat split. exists cur. split; [exact Hcur|].
    split; [destruct (reverse_tracking self); lia|].
    split; [reflexivity|]. intros Hne. now contradiction Hne.
  - rewrite Hcur in Hcur0. inversion Hcur0; subst cur0.
    cbn [reload_at timesteps timesteps_in_sec current_ts reverse_tracking
         field_loads].
    repeat split. exists req. split.
    { unfold np_where_eq_first.
      now rewrite (first_index_from_nodup _ _ 0 req Hnd Hts). }
    split; [destruct (reverse_tracking self); lia|].
    split; [|reflexivity].
    intros ->. destruct (reverse_tracking self); lia.
Qed.

(** X28.  In forward tracking a reload takes the latest time step earlier
    than the requested time: if the call changes the object, the new current
    time step sits at an index [i] of [timesteps] whose time is below
    [time], and no later index has a time below [time]. *)
Theorem pic_forward_update_loads_latest_earlier_step
        (self s1 : pic_schedule) (time : Q) :
  reverse_tracking self = false ->
  WakefieldFromPICSimulation_check_if_update_fields self time = Ok s1 ->
  s1 <> self ->
  exists i : nat,
    nth_error (timesteps self) i = Some (current_ts s1)
    /\ (i < length (timesteps_in_sec self))%nat
    /\ nth i (timesteps_in_sec self) 0 < time
    /\ forall j, (i < j < length (timesteps_in_sec self))%nat ->
                 time <= nth j (timesteps_in_sec self) 0.
Proof.
  intros Hfwd H Hchanged.
  destruct (check_if_update_fields_inv _ _ _ H)
    as [->|(req & cur & ts & Hlen & Hreq & Hcur & Hdir & Hts & ->)];
    [now contradiction Hchanged|].
  rewrite Hfwd in Hreq. unfold np_where_lt in Hreq.
  apply py_last_filter_seq in Hreq. destruct Hreq as (Hi & Hfi & Hlater).
  exists req. cbn [reload_at current_ts]. split; [exact Hts|].
  split; [exact Hi|]. split.
  - destruct (Qlt_le_dec (nth req (timesteps_in_sec self) 0) time);
      [assumption|discriminate].
  - intros j Hj. specialize (Hlater j Hj).
    destruct (Qlt_le_dec (nth j (timesteps_in_sec self) 0) time);
      [discriminate|assumption].
Qed.

(** X29.  A current time step that is not among the time steps of the
    simulation is an error as soon as two time steps lie before the
    requested time: [np.where(...)[0][0]] raises [IndexError]; with fewer
    than two such time steps the call returns the object unchanged. *)
Theorem pic_update_unknown_current_step
        (self : pic_schedule) (time : Q) :
  ~ In (current_ts self) (timesteps self) ->
  WakefieldFromPICSimulation_check_if_update_fields self time
  = if (1 <? length (np_where_lt (timesteps_in_sec self) time))%nat
    then Raise IndexError else Ok self.
Proof.
  intros Hnot. unfold WakefieldFromPICSimulation_check_if_update_fields.
  destruct (Nat.ltb_spec 1
              (length (np_where_lt (timesteps_in_sec self) time)))
    as [Hlen|_]; [|reflexivity].
  assert (Hcur : np_where_eq_first (timesteps self) (current_ts self)
                 = Raise IndexError).
  { unfold np_where_eq_first.
    now rewrite (first_index_from_absent _ _ 0 Hnot). }
  destruct (np_where_lt (timesteps_in_sec self) time) as [|i0 l] eqn:El;
    [cbn in Hlen; lia|].
  destruct (reverse_tracking self); cbn [negb].
  - cbn [py_index nth_error rbind]. now rewrite Hcur.
  - assert (Hlast : exists r, py_last (i0 :: l) = Ok r).
    { unfold py_last. destruct (rev (i0 :: l)) eqn:Er.
      - apply (f_equal (@length nat)) in Er.
        rewrite length_rev in Er. discriminate.
      - eexists. reflexivity. }
    destruct Hlast as [r ->]. cbn [rbind]. now rewrite Hcur.
Qed.


End WakeT.
(** * A concrete environment

    Stand-ins for the functions of the environment, and small objects, on
    which the model runs by computation.  The numeric functions are
    constant, which keeps the rationals short. *)

Module Sample.

Definition unary (v : Q) : Q := 1.
Definition binary (a b : Q) : Q := 1.
Definition group_velocity (l : Laser.t) (n_p : Q) : Q := 999 # 1000.
Definition a0_profile (l : Laser.t) (r : array) (z d : Q) : array :=
  map (fun _ => Laser.a_0 l) r.

(** A histogram of the right shape whose bins all hold the total weight. *)
Definition histogram2d (xs ys : array) (bins : Z * Z)
           (range : (Q * Q) * (Q * Q)) (w : array) : result matrix :=
  Ok (repeat (repeat (np_sum w) (Z.to_nat (snd bins))) (Z.to_nat (fst bins))).

Definition gradient (m : matrix) (h : Q) (axis : nat) : result matrix := Ok m.

Definition pic_load (b : list pyval) : result unit := Ok tt.
Definition pic_check (o : unit) (time : Q) : result unit := Ok o.
Definition pic_Kx (o : unit) (x y xi px py pz q gamma : array) (t : Q)
  : result array := Ok x.
Definition interp (g : grid_interp) (pts : list (Q * Q)) : array :=
  map (fun _ => 0) pts.

(** An integrator that leaves the block as it is. *)
Definition rk4 (m : matrix) (WF : wakefield unit) (dt : Q) (iterations : Z)
           (t0 : Q) : result matrix := Ok m.

(** A generator whose state counts the calls; the normal sample is
    centred, the truncated one sits on its upper bound. *)
Definition standard_normal (g : nat) (size : Z) : result (array * nat) :=
  if (size <? 0)%Z then Raise ValueError
  else Ok (repeat 0 (Z.to_nat size), S g).

Definition truncnorm_std (g : nat) (a b : Q) (size : Z)
  : result (array * nat) :=
  if (size <? 0)%Z then Raise ValueError
  else Ok (repeat b (Z.to_nat size), S g).

Definition beta_function (ene n_p : Q) (k_x : pyval) : result Q := Ok 1.

Definition laser : Laser.t := Laser.mk 0 1 (1 # 100000) 0.

Definition bunch : Bunch.t :=
  Bunch.mk [1; 1; 2] [0; 1; 2] [0; 0; 1] [0; 1; 2] [0; 0; 0] [0; 0; 0]
           [100; 100; 100] 5.

Definition start : world := mkWorld bunch laser [].

Definition stage : Stage.t := Stage.mk 1 (3 # 100).

Definition mat : matrix :=
  [[1; 2; 3; 4; 5]; [6; 7; 8; 9; 10]; [11; 12; 13; 14; 15];
   [16; 17; 18; 19; 20]; [21; 22; 23; 24; 25]; [26; 27; 28; 29; 30]].

Definition fluid : NonLinearColdFluidWakefield :=
  mkNonLinear (fun z => 1) laser false 0 2 0 3 2 3 (- (1)) None None None None.

Definition run (c : tracking_call) : M (list Bunch.t) :=
  run_call false 4 unary unary unary unary unary binary binary 3 2
           group_velocity a0_profile unary unary histogram2d gradient unit
           pic_load pic_check pic_Kx interp rk4 c.

Definition analytic_call : tracking_call :=
  StageAnalytic stage "CustomBlowout" 2 (PyFloat 1) (PyFloat 0) (PyFloat 1).

Definition twiss : result (Bunch.t * nat) :=
  get_gaussian_bunch_from_twiss unary nat standard_normal truncnorm_std 0%nat
                                1 1 0 0 1 1 100 1 10 0 1 3 0 0 0 0.

Definition fluid_fields (x y xi q : array) (t : Q)
  : result NonLinearColdFluidWakefield :=
  __calculate_wakefields unary 3 a0_profile unary unary histogram2d gradient
                       fluid x y xi [] [] [] q [] t.

(** The analytic tracker of the sample stage on the sample world. *)
Definition analytic : M (list Bunch.t) :=
  PlasmaStage_track_beam_analytically 4 unary unary unary unary unary binary
                                      binary 3 2 group_velocity stage
                                      "CustomBlowout" 2 (PyFloat 1)
                                      (PyFloat 0) (PyFloat 1).

Definition analytic_list : list Bunch.t :=
  match fst (analytic start) with Ok l => l | Raise _ => [] end.

Definition analytic_world : world := snd (analytic start).

(** A numerical call that stops at the time step, with the field built. *)
Definition numerical_call : tracking_call :=
  StageNumerical stage "CustomBlowout" 5
                 (mkOptions PyNone PyNone PyNone false PyNone (PyFloat 1)
                            (PyFloat 0) (PyFloat 1) (PyBool false)
                            (PyInt 20) (Some 2%Z)).

(** Lines 166-220 on the sample world, with a time step that answers. *)
Definition body : M (list Bunch.t) :=
  rk_parallel_body 4 unit pic_check rk4 (3 # 100) 2 (Some 2%Z)
                   (Some (WF_PlasmaLensRelativistic unit (PyFloat 1)))
                   (fun _ _ => Ok PosInf) false.

Definition body_list : list Bunch.t :=
  match fst (body start) with Ok l => l | Raise _ => [] end.

Definition body_world : world := snd (body start).

Definition plan : step_plan :=
  match plan_steps 1 5 (Finite (3 # 100)) with
  | Ok p => p
  | Raise _ => mkPlan 0 0 0
  end.

(** A density for which the plasma frequency is one. *)
Definition density (z : Q) : Q := ct.m_e * ct.epsilon_0 / ct.e ^ 2.

Definition fluid_after : NonLinearColdFluidWakefield :=
  match fluid_fields [0; 1] [0; 1] [1; 2] [1; 1] 1 with
  | Ok s => s
  | Raise _ => fluid
  end.

(** A cold-fluid object that remembers the density [1]. *)
Definition fluid_cached : NonLinearColdFluidWakefield :=
  mkNonLinear (fun z => 1) laser false 0 2 0 3 2 3 (- (1)) (Some 1) None None
              None.

Definition twiss_bunch : Bunch.t :=
  match twiss with Ok (b, _) => b | Raise _ => bunch end.



(** A file of two particles, and one whose charges cancel. *)
Definition read_beam (code_name file_path : string)
  : result (array * array * array * array * array * array * array) :=
  if String.eqb file_path "neutral"
  then Ok ([0; 1], [0; 0], [1; 3], [0; 0], [0; 0], [10; 10], [1; - (1)])
  else Ok ([0; 1], [0; 0], [1; 3], [0; 0], [0; 0], [10; 10], [1; 3]).


(** Four dumps, one per second, with the first one loaded. *)
Definition schedule : pic_schedule :=
  mkSchedule [0; 10; 20; 30]%Z [0; 1; 2; 3] 0 false 0.

Definition schedule_after : pic_schedule :=
  match WakefieldFromPICSimulation_check_if_update_fields schedule (5 # 2)
  with
  | Ok s => s
  | Raise _ => schedule
  end.

End Sample.

(** * The properties on the concrete environment *)

Lemma sample_truncnorm_bounds :
  forall (g g' : nat) (a b : Q) (size : Z) (s : array),
    a <= b ->
    Sample.truncnorm_std g a b size = Ok (s, g') ->
    Forall (fun z => a <= z /\ z <= b) s.
Proof.
  intros g g' a b size s Hab. unfold Sample.truncnorm_std.
  destruct (size <? 0)%Z; [discriminate|].
  intros H. inversion H; subst. apply Forall_forall. intros z Hz.
  apply repeat_spec in Hz. subst z. split; [exact Hab | apply Qle_refl].
Qed.

(** The analytic tracker returns on the sample world, and the bunch has
    moved by the length of the stage. *)
Lemma prop_distance_bookkeeping_witness :
  exists (beam_list : list Bunch.t) (w' : world),
    Sample.run Sample.analytic_call Sample.start = (Ok beam_list, w')
    /\ length beam_list = 2%nat
    /\ Bunch.prop_distance (w_beam w')
       = Bunch.prop_distance Sample.bunch + (3 # 100).
Proof.
  exists (match fst (Sample.run Sample.analytic_call Sample.start) with
          | Ok l => l
          | Raise _ => []
          end),
         (snd (Sample.run Sample.analytic_call Sample.start)).
  assert (H : Sample.run Sample.analytic_call Sample.start
              = (Ok (match fst (Sample.run Sample.analytic_call Sample.start)
                     with Ok l => l | Raise _ => [] end),
                 snd (Sample.run Sample.analytic_call Sample.start)))
    by (vm_compute; reflexivity).
  split; [exact H|]. split; [vm_compute; reflexivity|].
  exact (prop_distance_bookkeeping
           false 4 Sample.unary Sample.unary Sample.unary Sample.unary
           Sample.unary Sample.binary Sample.binary 3 2 Sample.group_velocity
           Sample.a0_profile Sample.unary Sample.unary Sample.histogram2d
           Sample.gradient unit Sample.pic_load Sample.pic_check Sample.pic_Kx
           Sample.interp Sample.rk4 Sample.analytic_call Sample.start _ _ H).
Defined.

(** A bunch of three particles drawn on the upper truncation bound lies in
    the window. *)
Lemma generated_xi_within_three_sigma_witness :
  exists (b : Bunch.t) (g' : nat),
    Sample.twiss = Ok (b, g')
    /\ length (Bunch.xi b) = 3%nat
    /\ xi_within 0 (10 * 1e-15 * ct.c) b.
Proof.
  exists (match Sample.twiss with
          | Ok (b, _) => b
          | Raise _ => Sample.bunch
          end),
         (match Sample.twiss with Ok (_, g') => g' | Raise _ => 0%nat end).
  assert (H : Sample.twiss
              = Ok (match Sample.twiss with
                    | Ok (b, _) => b
                    | Raise _ => Sample.bunch
                    end,
                    match Sample.twiss with
                    | Ok (_, g') => g'
                    | Raise _ => 0%nat
                    end))
    by (vm_compute; reflexivity).
  split; [exact H|]. split; [vm_compute; reflexivity|].
  exact (proj1 (generated_xi_within_three_sigma
                  Sample.unary nat Sample.standard_normal Sample.truncnorm_std
                  sample_truncnorm_bounds Sample.beta_function 0%nat _
                  1 1 100 1 10 0 1 3 0 0 0 0 _)
               0 0 1 1 H).
Defined.

(** Two beams of different charge and transverse shape give the same
    cold-fluid fields. *)
Lemma cold_fluid_fields_ignore_beam_charge_witness :
  is_ok (Sample.fluid_fields [0; 1] [0; 1] [1; 2] [1; 1] 1) = true
  /\ Sample.fluid_fields [0; 1] [0; 1] [1; 2] [1; 1] 1
     = Sample.fluid_fields [3; 1] [5; 1] [1; 2] [7; 2] 1.
Proof.
  split; [vm_compute; reflexivity|].
  exact (proj2 (cold_fluid_fields_ignore_beam_charge
                  Sample.unary 3 Sample.a0_profile Sample.unary Sample.unary
                  Sample.histogram2d Sample.gradient Sample.fluid [1; 2] 1
                  [0; 1] [0; 1] [] [] [] [1; 1] []
                  [3; 1] [5; 1] [] [] [] [7; 2] []
                  (repeat (repeat (np_sum (map (fun q_i => q_i / ct.e) [1; 1]))
                                  2) 3)
                  (repeat (repeat (np_sum (map (fun q_i => q_i / ct.e) [7; 2]))
                                  2) 3)
                  eq_refl eq_refl)).
Defined.

(** A 6x5 matrix cut for two workers, in blocks of three and two
    columns. *)
Lemma partition_concatenate_roundtrip_witness :
  partition_matrix Sample.mat 2 = Ok (split_blocks Sample.mat 2 3)
  /\ (blocks <-- partition_matrix Sample.mat 2 ;;
      np_concatenate_axis1 blocks) = Ok Sample.mat.
Proof.
  assert (Hshape : well_shaped 6 5 Sample.mat)
    by (split; [reflexivity | repeat constructor]).
  assert (Hp : (1 <= 2)%Z) by lia.
  exact (partition_concatenate_roundtrip Sample.mat 5 2 Hshape Hp).
Defined.

(** C3, as the claim states it, fails: with [E_z0 = 1], [E_z' = 0] and a
    particle at [xi = 0] the code returns [1] where the scaled formula
    gives [e/(m_e*c)]. *)
Lemma custom_blowout_Wz_scaled_counterexample :
  ~ returns_array
      (WF <-- CustomBlowoutWakefield_init
                Sample.group_velocity
                [PyFloat 1; PyLaser Sample.laser; PyFloat 0; PyFloat 1;
                 PyFloat 0; PyFloat 1; PyFloat 0] [] ;;
       CustomBlowoutWakefield_Wz WF [0] [0] [0] [0] [0] [100] [1] [100] 0)
      (Wz_spec 1 0 0 0 (Sample.group_velocity Sample.laser 1) [0] 0).
Proof.
  intro H. vm_compute in H. inversion H as [|? ? ? ? Hq]; subst.
  unfold Qeq in Hq. vm_compute in Hq. discriminate Hq.
Qed.

(** The failing inputs of the two elements: a custom-blowout call with
    five steps stops at the time step, a ramp call at the field. *)
Example stage_custom_blowout_call_raises :
  fst (Sample.run
         (StageNumerical Sample.stage "CustomBlowout" 5
                         (mkOptions PyNone PyNone PyNone false PyNone
                                    (PyFloat 1) (PyFloat 0) (PyFloat 1)
                                    (PyBool false) (PyInt 20) (Some 2%Z)))
         Sample.start)
  = Raise TypeError.
Proof. vm_compute. reflexivity. Qed.

Example ramp_call_raises :
  Sample.run
    (RampNumerical (Ramp.init 1 1 2 None "upramp" "inverse square") 5 false
                   (Some 2%Z))
    Sample.start
  = (Raise TypeError, Sample.start).
Proof. vm_compute. reflexivity. Qed.

(** * The further properties on the concrete environment *)

Lemma sample_standard_normal_size :
  forall (g g' : nat) (size : Z) (s : array),
    Sample.standard_normal g size = Ok (s, g') ->
    (0 <= size)%Z /\ length s = Z.to_nat size.
Proof.
  intros g g' size s. unfold Sample.standard_normal.
  destruct (Z.ltb_spec size 0) as [Hneg|Hpos]; [discriminate|].
  intros Hs. inversion Hs; subst. split; [lia | apply repeat_length].
Qed.

Lemma sample_truncnorm_size :
  forall (g g' : nat) (a b : Q) (size : Z) (s : array),
    Sample.truncnorm_std g a b size = Ok (s, g') ->
    (0 <= size)%Z /\ length s = Z.to_nat size.
Proof.
  intros g g' a b size s. unfold Sample.truncnorm_std.
  destruct (Z.ltb_spec size 0) as [Hneg|Hpos]; [discriminate|].
  intros Hs. inversion Hs; subst. split; [lia | apply repeat_length].
Qed.

Lemma sample_analytic_returns :
  Sample.analytic Sample.start
  = (Ok Sample.analytic_list, Sample.analytic_world).
Proof. vm_compute. reflexivity. Qed.

Lemma sample_body_returns :
  Sample.body Sample.start = (Ok Sample.body_list, Sample.body_world).
Proof. vm_compute. reflexivity. Qed.

(** The laser of the sample world after the analytic tracker. *)
Lemma analytic_laser_slippage_witness :
  Sample.analytic Sample.start
  = (Ok Sample.analytic_list, Sample.analytic_world)
  /\ Laser.prop_distance (w_laser Sample.analytic_world)
     = Laser.prop_distance Sample.laser + (3 # 100)
  /\ Laser.xi_c (w_laser Sample.analytic_world)
     = Laser.xi_c Sample.laser
       + ((999 # 1000) * ct.c - ct.c) * ((3 # 100) / ct.c).
Proof.
  split; [exact sample_analytic_returns|].
  pose proof (analytic_laser_slippage
                4 Sample.unary Sample.unary Sample.unary Sample.unary
                Sample.unary Sample.binary Sample.binary 3 2
                Sample.group_velocity Sample.stage "CustomBlowout" 2
                (PyFloat 1) (PyFloat 0) (PyFloat 1) Sample.start
                Sample.analytic_world Sample.analytic_list
                sample_analytic_returns) as H.
  split; [exact (proj1 H) | exact (proj1 (proj2 H))].
Defined.

(** Two snapshots of the sample bunch. *)
Lemma analytic_snapshots_witness :
  Sample.analytic Sample.start
  = (Ok Sample.analytic_list, Sample.analytic_world)
  /\ length Sample.analytic_list = 2%nat
  /\ Forall (fun b => Bunch.q b = [1; 1; 2]) Sample.analytic_list.
Proof.
  split; [exact sample_analytic_returns|].
  pose proof (analytic_snapshots
                4 Sample.unary Sample.unary Sample.unary Sample.unary
                Sample.unary Sample.binary Sample.binary 3 2
                Sample.group_velocity Sample.stage "CustomBlowout" 2
                (PyFloat 1) (PyFloat 0) (PyFloat 1) Sample.start
                Sample.analytic_world Sample.analytic_list
                sample_analytic_returns) as H.
  split; [exact (proj1 (proj2 H)) | exact (proj1 (proj2 (proj2 H)))].
Defined.


(** The trace of the sample world holds the one pool. *)
Lemma analytic_pool_stays_open_witness :
  Sample.analytic Sample.start
  = (Ok Sample.analytic_list, Sample.analytic_world)
  /\ w_trace Sample.analytic_world = w_trace Sample.start ++ [PoolCreated 4].
Proof.
  split; [exact sample_analytic_returns|].
  exact (proj2 (analytic_pool_stays_open
                  4 Sample.unary Sample.unary Sample.unary Sample.unary
                  Sample.unary Sample.binary Sample.binary 3 2
                  Sample.group_velocity Sample.stage "CustomBlowout" 2
                  (PyFloat 1) (PyFloat 0) (PyFloat 1) Sample.start
                  Sample.analytic_world (Ok Sample.analytic_list)
                  sample_analytic_returns)
               eq_refl).
Defined.

(** The numerical call of the sample stage fails with the field built, and
    bunch and laser are those of the start. *)
Lemma tracking_failure_leaves_objects_witness :
  Sample.run Sample.numerical_call Sample.start
  = (Raise TypeError, snd (Sample.run Sample.numerical_call Sample.start))
  /\ w_beam (snd (Sample.run Sample.numerical_call Sample.start))
     = Sample.bunch
  /\ w_laser (snd (Sample.run Sample.numerical_call Sample.start))
     = Sample.laser.
Proof.
  assert (H : Sample.run Sample.numerical_call Sample.start
              = (Raise TypeError,
                 snd (Sample.run Sample.numerical_call Sample.start)))
    by (vm_compute; reflexivity).
  split; [exact H|].
  exact (tracking_failure_leaves_objects
           false 4 Sample.unary Sample.unary Sample.unary Sample.unary
           Sample.unary Sample.binary Sample.binary 3 2 Sample.group_velocity
           Sample.a0_profile Sample.unary Sample.unary Sample.histogram2d
           Sample.gradient unit Sample.pic_load Sample.pic_check Sample.pic_Kx
           Sample.interp Sample.rk4 Sample.numerical_call Sample.start _ _ H).
Defined.

Lemma sample_mode_unknown (known : list string) :
  forallb (fun m => negb (String.eqb "Quasistatic" m)) known = true ->
  ~ In "Quasistatic" known.
Proof.
  intros H Hin. rewrite forallb_forall in H. specialize (H _ Hin).
  now rewrite String.eqb_refl in H.
Qed.

(** A mode that no tracker knows, on the sample world. *)
Lemma analytic_unknown_mode_raises_witness :
  PlasmaStage_track_beam_analytically
    4 Sample.unary Sample.unary Sample.unary Sample.unary Sample.unary
    Sample.binary Sample.binary 3 2 Sample.group_velocity Sample.stage
    "Quasistatic" 2 PyNone PyNone PyNone Sample.start
  = (Raise UnboundLocalError, Sample.start).
Proof.
  exact (analytic_unknown_mode_raises
           4 Sample.unary Sample.unary Sample.unary Sample.unary
           Sample.unary Sample.binary Sample.binary 3 2
           Sample.group_velocity Sample.stage "Quasistatic" 2 PyNone PyNone
           PyNone Sample.start
           (sample_mode_unknown
              ["Blowout"; "CustomBlowout"; "Linear"; "LinearAlberto";
               "FromOsiris2D"; "FromOsiris3D"] eq_refl)
           eq_refl).
Defined.

Lemma stage_unknown_mode_raises_witness :
  Sample.run (StageNumerical Sample.stage "Quasistatic" 2 default_options)
             Sample.start
  = (Raise UnboundLocalError, Sample.start).
Proof.
  exact (stage_unknown_mode_raises
           false 4 Sample.unary 3 Sample.group_velocity Sample.a0_profile
           Sample.unary Sample.unary Sample.histogram2d Sample.gradient unit
           Sample.pic_load Sample.pic_check Sample.pic_Kx Sample.interp
           Sample.rk4 Sample.stage "Quasistatic" 2 default_options
           Sample.start
           (sample_mode_unknown ["Blowout"; "CustomBlowout"; "FromPICCode"]
                                eq_refl)).
Defined.



(** Lines 166-220 on the sample world: two snapshots, and the pool is
    closed and joined. *)
Lemma numerical_body_snapshots_witness :
  Sample.body Sample.start = (Ok Sample.body_list, Sample.body_world)
  /\ length Sample.body_list = 2%nat
  /\ Forall (fun b => Bunch.q b = [1; 1; 2]) Sample.body_list.
Proof.
  split; [exact sample_body_returns|].
  pose proof (numerical_body_snapshots
                4 unit Sample.pic_check Sample.rk4 (3 # 100) 2 (Some 2%Z)
                (Some (WF_PlasmaLensRelativistic unit (PyFloat 1)))
                (fun _ _ => Ok PosInf) false Sample.start Sample.body_world
                Sample.body_list sample_body_returns) as H.
  split; [exact (proj1 (proj2 H)) | exact (proj1 (proj2 (proj2 H)))].
Defined.

Lemma numerical_body_releases_pool_witness :
  Sample.body Sample.start = (Ok Sample.body_list, Sample.body_world)
  /\ (w_trace Sample.body_world = w_trace Sample.start
      \/ w_trace Sample.body_world
         = w_trace Sample.start ++ [PoolCreated 2; PoolClosed; PoolJoined]).
Proof.
  split; [exact sample_body_returns|].
  exact (numerical_body_releases_pool
           4 unit Sample.pic_check Sample.rk4 (3 # 100) 2 (Some 2%Z)
           (Some (WF_PlasmaLensRelativistic unit (PyFloat 1)))
           (fun _ _ => Ok PosInf) false Sample.start Sample.body_world
           (Ok Sample.body_list) sample_body_returns).
Defined.



Lemma ramp_field_is_linear_focusing_witness :
  exists kx wx wy : array,
    PlasmaRampBlowoutField_Kx Sample.unary (mkRampField (PyFun Sample.density))
                              [1; 2] [3; 4] [0; 1] [] [] [] [] [] 0 = Ok kx
    /\ PlasmaRampBlowoutField_Wx Sample.unary
                                 (mkRampField (PyFun Sample.density))
                                 [1; 2] [3; 4] [0; 1] [] [] [] [] [] 0 = Ok wx
    /\ PlasmaRampBlowoutField_Wy Sample.unary
                                 (mkRampField (PyFun Sample.density))
                                 [1; 2] [3; 4] [0; 1] [] [] [] [] [] 0 = Ok wy
    /\ PlasmaRampBlowoutField_Wz (mkRampField (PyFun Sample.density))
                                 [1; 2] [3; 4] [0; 1] [] [] [] [] [] 0
       = Ok (repeat 0 2)
    /\ length kx = 2%nat
    /\ nth 1 wx 0 == ct.c * nth 1 kx 0 * nth 1 [1; 2] 0
    /\ nth 1 wy 0 == ct.c * nth 1 kx 0 * nth 1 [3; 4] 0.
Proof.
  exact (ramp_field_is_linear_focusing
           Sample.unary Sample.density [1; 2] [3; 4] [0; 1] [] [] [] [] [] 0
           2 1 eq_refl eq_refl eq_refl (le_n 2)).
Defined.


Lemma sample_nonempty : ([0; 1] : array) <> [].
Proof. discriminate. Qed.


(** The sample cold-fluid object, once computed at time 1, answers a
    second beam at time 1 with itself. *)
Lemma cold_fluid_fields_cached_per_time_witness :
  Sample.fluid_fields [0; 1] [0; 1] [1; 2] [1; 1] 1 = Ok Sample.fluid_after
  /\ __calculate_wakefields
       Sample.unary 3 Sample.a0_profile Sample.unary Sample.unary
       Sample.histogram2d Sample.gradient Sample.fluid_after
       [3; 1] [5; 1] [4; 2] [] [] [] [7; 2] [] 1
     = Ok Sample.fluid_after.
Proof.
  assert (H : Sample.fluid_fields [0; 1] [0; 1] [1; 2] [1; 1] 1
              = Ok Sample.fluid_after) by (vm_compute; reflexivity).
  split; [exact H|].
  exact (cold_fluid_fields_cached_per_time
           Sample.unary 3 Sample.a0_profile Sample.unary Sample.unary
           Sample.histogram2d Sample.gradient Sample.fluid Sample.fluid_after
           [0; 1] [0; 1] [1; 2] [] [] [] [1; 1] []
           [3; 1] [5; 1] [4; 2] [] [] [] [7; 2] [] 1 H).
Defined.

Lemma cold_fluid_uniform_plasma_keeps_fields_witness :
  exists s1 : NonLinearColdFluidWakefield,
    __calculate_wakefields
      Sample.unary 3 Sample.a0_profile Sample.unary Sample.unary
      Sample.histogram2d Sample.gradient Sample.fluid_cached
      [0; 1] [0; 1] [0; 1] [] [] [] [1; 1] [] 2
    = Ok s1
    /\ nl_E_z s1 = nl_E_z Sample.fluid_cached
    /\ nl_W_x s1 = nl_W_x Sample.fluid_cached
    /\ nl_K_x s1 = nl_K_x Sample.fluid_cached
    /\ nl_current_n_p s1 = nl_current_n_p Sample.fluid_cached
    /\ Qeq_bool (nl_current_t s1) 2 = true.
Proof.
  apply (cold_fluid_uniform_plasma_keeps_fields
           Sample.unary 3 Sample.a0_profile Sample.unary Sample.unary
           Sample.histogram2d Sample.gradient Sample.fluid_cached
           [0; 1] [0; 1] [0; 1] [] [] [] [1; 1] [] 2 1).
  - exact sample_nonempty.
  - reflexivity.
  - reflexivity.
  - reflexivity.
Defined.

(** The sample grid with no radial cell. *)
Lemma cold_fluid_degenerate_grid_raises_witness :
  __calculate_wakefields
    Sample.unary 3 Sample.a0_profile Sample.unary Sample.unary
    Sample.histogram2d Sample.gradient
    (mkNonLinear (fun z => 1) Sample.laser false 0 2 0 3 0 3 (- (1)) None
                 None None None)
    [0; 1] [0; 1] [0; 1] [] [] [] [1; 1] [] 2
  = Raise ZeroDivisionError.
Proof.
  apply (cold_fluid_degenerate_grid_raises
           Sample.unary 3 Sample.a0_profile Sample.unary Sample.unary
           Sample.histogram2d Sample.gradient
           (mkNonLinear (fun z => 1) Sample.laser false 0 2 0 3 0 3 (- (1))
                        None None None None)
           [0; 1] [0; 1] [0; 1] [] [] [] [1; 1] [] 2).
  - reflexivity.
  - reflexivity.
  - reflexivity.
  - discriminate.
Defined.


Lemma twiss_bunch_arrays_have_n_part_entries_witness :
  Sample.twiss = Ok (Sample.twiss_bunch, 6%nat)
  /\ Bunch.same_length Sample.twiss_bunch = true.
Proof.
  assert (H : Sample.twiss = Ok (Sample.twiss_bunch, 6%nat))
    by (vm_compute; reflexivity).
  split; [exact H|].
  exact (proj2 (twiss_bunch_arrays_have_n_part_entries
                  Sample.unary nat Sample.standard_normal
                  Sample.truncnorm_std sample_standard_normal_size
                  sample_truncnorm_size
                  0%nat 6%nat 1 1 0 0 1 1 100 1 10 0 1 3 0 0 0 0
                  Sample.twiss_bunch H)).
Defined.




Lemma file_bunch_bad_weights_raise_witness :
  exists e : exn,
    get_from_file Sample.read_beam "neutral" "openpmd" false = Raise e
    /\ (length ([1; 3] : array) <> length ([1; - (1)] : array)
        -> e = TypeError)
    /\ (length ([1; 3] : array) = length ([1; - (1)] : array)
        -> e = ZeroDivisionError).
Proof.
  apply (file_bunch_bad_weights_raise
           Sample.read_beam "neutral" "openpmd" false
           [0; 1] [0; 0] [1; 3] [0; 0] [0; 0] [10; 10] [1; - (1)]).
  - reflexivity.
  - right. reflexivity.
Defined.

Lemma sample_schedule_nodup : NoDup (timesteps Sample.schedule).
Proof.
  repeat constructor; cbn; intros H;
    repeat (destruct H as [H|H]; [discriminate H|]); exact H.
Qed.

Lemma sample_schedule_updates :
  WakefieldFromPICSimulation_check_if_update_fields Sample.schedule (5 # 2)
  = Ok Sample.schedule_after.
Proof. vm_compute. reflexivity. Qed.

(** At two and a half seconds the third dump is loaded, once. *)
Lemma pic_update_is_idempotent_witness :
  WakefieldFromPICSimulation_check_if_update_fields Sample.schedule (5 # 2)
  = Ok Sample.schedule_after
  /\ WakefieldFromPICSimulation_check_if_update_fields
       Sample.schedule_after (5 # 2)
     = Ok Sample.schedule_after.
Proof.
  split; [exact sample_schedule_updates|].
  exact (pic_update_is_idempotent
           Sample.schedule Sample.schedule_after (5 # 2)
           sample_schedule_nodup sample_schedule_updates).
Defined.

Lemma pic_update_moves_one_way_witness :
  timesteps Sample.schedule_after = timesteps Sample.schedule
  /\ timesteps_in_sec Sample.schedule_after
     = timesteps_in_sec Sample.schedule
  /\ reverse_tracking Sample.schedule_after
     = reverse_tracking Sample.schedule
  /\ exists cur' : nat,
      np_where_eq_first (timesteps Sample.schedule_after)
                        (current_ts Sample.schedule_after) = Ok cur'
      /\ (if reverse_tracking Sample.schedule
          then (cur' <= 0)%nat else (0 <= cur')%nat)
      /\ (cur' = 0%nat -> Sample.schedule_after = Sample.schedule)
      /\ (cur' <> 0%nat
          -> field_loads Sample.schedule_after
             = S (field_loads Sample.schedule)).
Proof.
  exact (pic_update_moves_one_way
           Sample.schedule Sample.schedule_after (5 # 2) 0%nat
           sample_schedule_nodup eq_refl sample_schedule_updates).
Defined.

Lemma sample_schedule_changed : Sample.schedule_after <> Sample.schedule.
Proof. vm_compute. discriminate. Qed.

Lemma pic_forward_update_loads_latest_earlier_step_witness :
  exists i : nat,
    nth_error (timesteps Sample.schedule) i
    = Some (current_ts Sample.schedule_after)
    /\ (i < length (timesteps_in_sec Sample.schedule))%nat
    /\ nth i (timesteps_in_sec Sample.schedule) 0 < 5 # 2
    /\ forall j, (i < j < length (timesteps_in_sec Sample.schedule))%nat ->
                 5 # 2 <= nth j (timesteps_in_sec Sample.schedule) 0.
Proof.
  exact (pic_forward_update_loads_latest_earlier_step
           Sample.schedule Sample.schedule_after (5 # 2) eq_refl
           sample_schedule_updates sample_schedule_changed).
Defined.

Lemma sample_lost_step :
  ~ In 5%Z (timesteps Sample.schedule).
Proof.
  cbn. intros H. repeat (destruct H as [H|H]; [discriminate H|]). exact H.
Qed.

(** A current time step that the simulation does not have. *)
Lemma pic_update_unknown_current_step_witness :
  WakefieldFromPICSimulation_check_if_update_fields
    (mkSchedule [0; 10; 20; 30]%Z [0; 1; 2; 3] 5 false 0) (5 # 2)
  = Raise IndexError.
Proof.
  exact (pic_update_unknown_current_step
           (mkSchedule [0; 10; 20; 30]%Z [0; 1; 2; 3] 5 false 0) (5 # 2)
           sample_lost_step).
Defined.
